(** * matchy: the event and profile services and the database triggers

    A shallow embedding of
    - [frontend/src/services/eventService.ts]   (module [Services]),
    - [frontend/src/services/profileService.ts] (module [Services]),
    - the auth service of [frontend/src/services/supabase.ts] (module [AuthService]),
    - the trigger script [inject_user_id] / [handle_new_user] (module [Triggers]),
    together with a model of the PostgREST query interface the services
    talk to (module [Pg]).  The statements are about the services over any
    backend ([ServiceFacts], [ServiceExtras], [AuthExtras]), over the tables
    ([PgFacts], [PgExtras]), about the trigger script ([TriggerFacts],
    [TriggerExtras]), and on a small database ([DemoFacts], [MoreDemoFacts]).

    JavaScript values are kept dynamic ([Val]); objects are finite maps from
    property names to values, so that spreading, property access on
    [undefined] and truthiness behave as they do in the source. *)

From stdpp Require Import gmap strings list fin_maps sorting.
From Stdlib Require Import ZArith.

#[local] Set Warnings "-register-all".
#[local] Open Scope Z_scope.

(** ** JavaScript values *)

Module Js.

(** Strings that denote a point in time are kept symbolic: [VIso t] is the
    ISO-8601 text of the instant [t] (what [Temporal.Instant.toString]
    prints and what the database sends for a [timestamptz] column), and
    [VZonedIso t tz] is the text printed by [Temporal.ZonedDateTime.toString].
    Instants are integers at the resolution of the database. *)
Inductive Val :=
| VUndef
| VNull
| VBool (b : bool)
| VNum (n : Z)
| VStr (s : string)
| VIso (t : Z)
| VZonedIso (t : Z) (tz : string)
| VZoned (t : Z) (tz : string)      (* a Temporal.ZonedDateTime *)
| VFile (name : string)             (* a File *)
| VObj (o : gmap string Val)
| VArr (l : list Val).

Inductive Exn :=
| ApiError (e : Val)        (* [throw error], the client's error object re-thrown *)
| Error (msg : string)      (* [throw new Error(msg)] and [throw Error(msg)] *)
| TypeError (msg : string)  (* raised by the runtime *)
| RangeError (msg : string).

(** [if (v)] and [!v]. *)
Definition truthy (v : Val) : bool :=
  match v with
  | VUndef | VNull => false
  | VBool b => b
  | VNum n => negb (n =? 0)
  | VStr s => negb (String.eqb s "")
  | _ => true
  end.

(** [v.k]: reading a property of [undefined] or [null] throws. *)
Definition get (v : Val) (k : string) : Exn + Val :=
  match v with
  | VUndef | VNull => inl (TypeError ("Cannot read properties of undefined (reading '" +:+ k +:+ "')"))
  | VObj o => inr (default VUndef (o !! k))
  | _ => inr VUndef
  end.

(** [v?.k] *)
Definition get_opt (v : Val) (k : string) : Val :=
  match v with
  | VObj o => default VUndef (o !! k)
  | _ => VUndef
  end.

(** [v[0]] *)
Definition first (v : Val) : Exn + Val :=
  match v with
  | VUndef | VNull => inl (TypeError "Cannot read properties of undefined (reading '0')")
  | VArr l => inr (default VUndef (l !! 0%nat))
  | VObj o => inr (default VUndef (o !! "0"))
  | VStr (String c _) => inr (VStr (String c ""))
  | _ => inr VUndef
  end.

(** [{...v}]: only objects contribute properties here (the services spread
    rows and form objects only). *)
Definition spread (v : Val) : gmap string Val :=
  match v with VObj o => o | _ => ∅ end.

(** [JSON.stringify] as far as it decides which keys reach the server:
    a property whose value is [undefined] is left out, a [File] is written
    as an empty object, a zoned date-time as its text; [undefined] in an
    array becomes [null]. *)
Fixpoint json (v : Val) : Val :=
  match v with
  | VObj o => VObj (omap (λ x, match x with VUndef => None | _ => Some (json x) end) o)
  | VArr l => VArr (map (λ x, match x with VUndef => VNull | _ => json x end) l)
  | VFile _ => VObj ∅
  | VZoned t tz => VZonedIso t tz
  | _ => v
  end.

(** [zdt.toInstant().toString()] *)
Definition toInstant_toString (v : Val) : Exn + Val :=
  match v with
  | VZoned t _ => inr (VIso t)
  | VUndef | VNull => inl (TypeError "Cannot read properties of undefined (reading 'toInstant')")
  | _ => inl (TypeError "toInstant is not a function")
  end.

(** [zdt.toString()] *)
Definition toString (v : Val) : Exn + Val :=
  match v with
  | VZoned t tz => inr (VZonedIso t tz)
  | VUndef | VNull => inl (TypeError "Cannot read properties of undefined (reading 'toString')")
  | VStr s => inr (VStr s)
  | VIso t => inr (VIso t)
  | VZonedIso t tz => inr (VZonedIso t tz)
  | _ => inr (VStr "[object Object]")
  end.

(** [Temporal.Instant.from(v).toZonedDateTimeISO(tz)] *)
Definition Instant_from_toZonedDateTimeISO (tz : string) (v : Val) : Exn + Val :=
  match v with
  | VIso t => inr (VZoned t tz)
  | _ => inl (RangeError "invalid ISO 8601 string")
  end.

(** [`${v}`] for the values the services interpolate. *)
Definition template (v : Val) : Val :=
  match v with
  | VUndef => VStr "undefined"
  | VNull => VStr "null"
  | _ => v
  end.

End Js.
Export Js.

(** ** The query interface of the hosted backend

    What the [supabase] client sends: a table-oriented request assembled by
    chained builder calls, a remote procedure call, or a storage upload. *)

Module Rest.

(** The items of a [select] string: [*], a column, or an embedded resource
    [alias:relation!inner(items)]. *)
Inductive Sel :=
| SStar
| SCol (c : string)
| SEmbed (alias rel : string) (inner : bool) (sub : list Sel).

Inductive Filter :=
| FEq (col : string) (v : Val)
| FNot (col op : string) (v : Val)
| FGt (col : string) (v : Val).

Inductive Method := GET | HEAD | POST | PATCH.
Inductive Shape := Rows | MaybeSingle.

Record Query := {
  q_table : string;
  q_method : Method;
  q_select : list Sel;
  q_filters : list Filter;
  q_order : option (string * bool);
  q_count : bool;
  q_shape : Shape;
  q_body : Val
}.

Record Response := { data : Val; error : Val; count : option Z }.

Inductive Request :=
| Rest (q : Query)
| Rpc (fn : string) (params : Val)
| Upload (bucket path : string) (file : Val) (contentType : string).

End Rest.
Export Rest.

(** The builder calls used by the services, under the names the client
    gives them ([not] and [match] are spelled [not_] and [match_]). *)
Module supabase.

Definition from (table : string) : Query :=
  {| q_table := table; q_method := GET; q_select := []; q_filters := [];
     q_order := None; q_count := false; q_shape := Rows; q_body := VUndef |}.

Definition select (cols : list Sel) (q : Query) : Query :=
  {| q_table := q_table q; q_method := GET; q_select := cols;
     q_filters := q_filters q; q_order := q_order q; q_count := q_count q;
     q_shape := q_shape q; q_body := q_body q |}.

(** [select(cols, { count: "exact", head: true })] *)
Definition select_count_head (cols : list Sel) (q : Query) : Query :=
  {| q_table := q_table q; q_method := HEAD; q_select := cols;
     q_filters := q_filters q; q_order := q_order q; q_count := true;
     q_shape := q_shape q; q_body := q_body q |}.

Definition add_filter (f : Filter) (q : Query) : Query :=
  {| q_table := q_table q; q_method := q_method q; q_select := q_select q;
     q_filters := q_filters q ++ [f]; q_order := q_order q; q_count := q_count q;
     q_shape := q_shape q; q_body := q_body q |}.

(** A filter value is interpolated into the request ([`eq.${value}`]). *)
Definition eq (col : string) (v : Val) : Query → Query := add_filter (FEq col (template v)).
Definition not_ (col op : string) (v : Val) : Query → Query := add_filter (FNot col op (template v)).
Definition gt (col : string) (v : Val) : Query → Query := add_filter (FGt col (template v)).

(** [match(obj)]: one [eq] per key. *)
Definition match_ (o : gmap string Val) (q : Query) : Query :=
  foldl (λ q kv, eq kv.1 kv.2 q) q (map_to_list o).

Definition order (col : string) (ascending : bool) (q : Query) : Query :=
  {| q_table := q_table q; q_method := q_method q; q_select := q_select q;
     q_filters := q_filters q; q_order := Some (col, ascending); q_count := q_count q;
     q_shape := q_shape q; q_body := q_body q |}.

Definition maybeSingle (q : Query) : Query :=
  {| q_table := q_table q; q_method := q_method q; q_select := q_select q;
     q_filters := q_filters q; q_order := q_order q; q_count := q_count q;
     q_shape := MaybeSingle; q_body := q_body q |}.

(** [update(values)] and [insert(values)] send the JSON text of [values]
    and ask for the written rows back. *)
Definition update (values : Val) (q : Query) : Query :=
  {| q_table := q_table q; q_method := PATCH; q_select := [SStar];
     q_filters := q_filters q; q_order := q_order q; q_count := q_count q;
     q_shape := q_shape q; q_body := json values |}.

Definition insert (values : Val) (q : Query) : Query :=
  {| q_table := q_table q; q_method := POST; q_select := [SStar];
     q_filters := q_filters q; q_order := q_order q; q_count := q_count q;
     q_shape := q_shape q; q_body := json values |}.

End supabase.

Notation "q |> f" := (f q) (at level 45, left associativity, only parsing).

(** ** The services *)

Module Services.

(** [interface Profile]: every field is optional in the source, so each
    holds a JavaScript value. *)
Record Profile := { email : Val; fullName : Val; description : Val }.

(** The shared auth store: [authStore.user] and the profile last pushed
    into it. *)
Record AuthStore := { user : Val; profile : option Profile }.

(** What a service call can observe and change: the backend behind the
    client, the auth store, the objects passed by reference, the requests
    sent so far (oldest first) and the notifications shown. *)
Record World (B : Type) := {
  backend : B;
  authStore : AuthStore;
  heap : gmap nat (gmap string Val);
  sent : list Request;
  toasts : list Val
}.
Arguments backend {B}.
Arguments authStore {B}.
Arguments heap {B}.
Arguments sent {B}.
Arguments toasts {B}.

(** An hour, in microseconds (the resolution of [timestamptz]). *)
Definition hour : Z := 3600 * 1000000.

(** Modelled from the spec: [dateXHoursAgo] of [utils/datetime], which is
    not among the sources; "one hour before now" for [x = 1], as a zoned
    date-time whose instant is [x] hours before [now]. *)
Definition dateXHoursAgo (x : Z) (now : Z) (tz : string) : Val := VZoned (now - x * hour) tz.

(** Modelled from the spec: [timestamptzToTemporalZonedDateTime] of
    [utils/datetime], which is not among the sources; the timestamp sent by
    the database "parsed client-side into a zoned date-time value". *)
Definition timestamptzToTemporalZonedDateTime (tz : string) (v : Val) : Exn + Val :=
  Instant_from_toZonedDateTimeISO tz v.

(** A computation that may throw. *)
#[global] Instance Exn_bind : MBind (sum Exn) := λ A C f m,
  match m with
  | inl e => inl e
  | inr a => f a
  end.

(** [a.map(f)] where [f] may throw. *)
Fixpoint mapE (f : Val → Exn + Val) (l : list Val) : Exn + list Val :=
  match l with
  | [] => inr []
  | x :: l' =>
      match f x with
      | inl e => inl e
      | inr y => match mapE f l' with inl e => inl e | inr ys => inr (y :: ys) end
      end
  end.

Definition array_map (f : Val → Exn + Val) (a : Val) : Exn + Val :=
  match a with
  | VArr l => match mapE f l with inl e => inl e | inr ys => inr (VArr ys) end
  | VUndef | VNull => inl (TypeError "Cannot read properties of undefined (reading 'map')")
  | _ => inl (TypeError "map is not a function")
  end.

(** The group pair joined to an event, under the key [alias]:
    [alias:event_group_pairs(groupA:group_a(id, title, description),
    groupB:group_b(id, title, description))]. *)
Definition group_pair (alias : string) : Sel :=
  SEmbed alias "event_group_pairs" false
    [ SEmbed "groupA" "group_a" false [SCol "id"; SCol "title"; SCol "description"];
      SEmbed "groupB" "group_b" false [SCol "id"; SCol "title"; SCol "description"] ].

Section Services.
Context {B : Type}.
Variable rest : Query → B → Response * B.
Variable rpc : string → Val → B → Response * B.
Variable storage_upload : string → string → Val → string → B → Response * B.

Definition M (A : Type) : Type := World B → (Exn + A) * World B.

#[global] Instance M_ret : MRet M := λ A a w, (inr a, w).
#[global] Instance M_bind : MBind M := λ A C f m w,
  match m w with
  | (inl e, w') => (inl e, w')
  | (inr a, w') => f a w'
  end.

Definition throw {A} (e : Exn) : M A := λ w, (inl e, w).

Definition lift {A} (r : Exn + A) : M A := λ w, (r, w).

Definition send (rq : Request) (ans : B → Response * B) : M Response := λ w,
  let '(r, b) := ans (backend w) in
  (inr r, {| backend := b; authStore := authStore w; heap := heap w;
             sent := sent w ++ [rq]; toasts := toasts w |}).

(** [await] of a query, of [supabase.rpc] and of [supabase.storage...upload]. *)
Definition await (q : Query) : M Response := send (Rest q) (rest q).
Definition await_rpc (fn : string) (params : Val) : M Response :=
  send (Rpc fn (json params)) (rpc fn (json params)).
Definition await_upload (bucket path : string) (file : Val) (contentType : string) : M Response :=
  send (Upload bucket path file contentType) (storage_upload bucket path file contentType).

(** Modelled from the spec: [errorToast], which is not among the sources;
    "a user-facing notification". *)
Definition errorToast (v : Val) : M unit := λ w,
  (inr (), {| backend := backend w; authStore := authStore w; heap := heap w;
              sent := sent w; toasts := toasts w ++ [v] |}).

Definition authStore_user : M Val := λ w, (inr (user (authStore w)), w).

(** Modelled from the spec: [setProfileStore] of [stores/auth], which is not
    among the sources; it "pushes the updated profile into the shared
    auth/profile state". *)
Definition setProfileStore (p : Profile) : M unit := λ w,
  (inr (), {| backend := backend w;
              authStore := {| user := user (authStore w); profile := Some p |};
              heap := heap w; sent := sent w; toasts := toasts w |}).

(** Objects passed by reference: [o.k], [{...o}] and [o.k = v]. *)
Definition readObj (o : nat) : M (gmap string Val) := λ w, (inr (default ∅ (heap w !! o)), w).
Definition readProp (o : nat) (k : string) : M Val := λ w,
  (inr (default VUndef (default ∅ (heap w !! o) !! k)), w).
Definition writeProp (o : nat) (k : string) (v : Val) : M unit := λ w,
  (inr (), {| backend := backend w; authStore := authStore w;
              heap := <[o := <[k := v]> (default ∅ (heap w !! o))]> (heap w);
              sent := sent w; toasts := toasts w |}).

(** *** eventService.ts *)

Definition fetchEvents (now : Z) (tz : string) : M Val :=
  let anHourAgo := dateXHoursAgo 1 now tz in
  since ← lift (toInstant_toString anHourAgo);
  r ← await (supabase.from "events"
             |> supabase.select [SStar; group_pair "event_groups"]
             |> supabase.not_ "is_cancelled" "eq" (VBool true)
             |> supabase.not_ "is_ended" "eq" (VBool true)
             |> supabase.gt "datetime" since
             |> supabase.order "datetime" true);
  let events := data r in
  let error := error r in
  if truthy error then
    errorToast error;; throw (ApiError error)
  else if negb (truthy events) then
    errorToast (VStr "Failed to fetch events");; throw (Error "Failed to fetch events")
  else
    (* console.log(events[0].datetime) *)
    e0 ← lift (first events);
    _ ← lift (get e0 "datetime");
    lift (array_map (λ e,
            d ← get e "datetime";
            z ← Instant_from_toZonedDateTimeISO tz d;
            inr (VObj (<["datetime" := z]> (spread e)))) events).

Definition fetchUserEvents (now : Z) (tz : string) : M Val :=
  let anHourAgo := dateXHoursAgo 1 now tz in
  since ← lift (toInstant_toString anHourAgo);
  u ← authStore_user;
  r ← await (supabase.from "events"
             |> supabase.select [SStar; group_pair "event_group_pair";
                                 SEmbed "event_registrations" "event_registrations" true [SStar]]
             |> supabase.eq "event_registrations.user_id" (get_opt u "id")
             |> supabase.not_ "is_cancelled" "eq" (VBool true)
             |> supabase.not_ "is_ended" "eq" (VBool true)
             |> supabase.gt "datetime" since
             |> supabase.order "datetime" true);
  let events := data r in
  let error := error r in
  if truthy error then
    errorToast error;; throw (ApiError error)
  else
    match events with
    | VNull => throw (Error "Could not load user's events")
    | VUndef => mret VUndef                                   (* events?.map *)
    | _ => lift (array_map (λ e,
                   d ← get e "datetime";
                   z ← timestamptzToTemporalZonedDateTime tz d;
                   inr (VObj (<["datetime" := z]> (spread e)))) events)
    end.

Definition fetchEventById (tz : string) (eventId : Z) : M Val :=
  r ← await (supabase.from "events"
             |> supabase.select [SStar; group_pair "event_groups"]
             |> supabase.eq "id" (VNum eventId)
             |> supabase.maybeSingle);
  if truthy (error r) then throw (ApiError (error r))
  else if negb (truthy (data r)) then throw (Error "Event with this ID does not exist")
  else
    d ← lift (get (data r) "datetime");
    z ← lift (timestamptzToTemporalZonedDateTime tz d);
    mret (VObj (<["datetime" := z]> (spread (data r)))).

(** [createEvent(eventData)]; [eventData] is the caller's object, [fileName]
    the name drawn by [nanoid()]. *)
Definition createEvent (fileName : string) (eventData : nat) : M unit :=
  u ← authStore_user;
  if negb (truthy u) then
    errorToast (VStr "Please log in first");; throw (Error "User is not logged in")
  else
    headerImageFile ← readProp eventData "headerImageFile";
    (if truthy headerImageFile then
       r ← await_upload "event-header-images" fileName headerImageFile "image/png";
       if truthy (error r) then throw (ApiError (error r))
       else if negb (truthy (data r)) || negb (truthy (get_opt (data r) "Key")) then
         throw (Error "Received no data after uploading image")
       else
         (* set the new image path *)
         writeProp eventData "header_image" (get_opt (data r) "Key")
     else mret ());;
    uses_groups ← readProp eventData "uses_groups";
    creationError ←
      (if truthy uses_groups then
         event_groups ← readProp eventData "event_groups";
         if negb (truthy event_groups) then
           throw (Error "Event is indicated to use groups, but no groups were provided")
         else
           title ← readProp eventData "title";
           description ← readProp eventData "description";
           header_image ← readProp eventData "header_image";
           datetime ← readProp eventData "datetime";
           instant ← lift (toInstant_toString datetime);
           location ← readProp eventData "location";
           max_participants ← readProp eventData "max_participants";
           groupA ← lift (get event_groups "groupA");
           groupATitle ← lift (get groupA "title");
           groupADescription ← lift (get groupA "description");
           groupB ← lift (get event_groups "groupB");
           groupBTitle ← lift (get groupB "title");
           groupBDescription ← lift (get groupB "description");
           r ← await_rpc "create_event_with_groups"
                 (VObj (list_to_map
                    [ ("title", title); ("description", description);
                      ("header_image", header_image); ("datetime", instant);
                      ("location", location); ("max_participants", max_participants);
                      ("groupATitle", groupATitle); ("groupADescription", groupADescription);
                      ("groupBTitle", groupBTitle); ("groupBDescription", groupBDescription) ]));
           mret (error r)
       else
         o ← readObj eventData;
         datetime ← readProp eventData "datetime";
         text ← lift (toString datetime);
         r ← await (supabase.from "events"
                    |> supabase.insert
                         (VObj (<["event_group_pair" := VUndef]> (<["datetime" := text]> o))));
         mret (error r));
    if truthy creationError then throw (ApiError creationError) else mret ().

Definition registerForEvent (eventId : Z) (groupId : Val) : M unit :=
  u ← authStore_user;
  if negb (truthy (get_opt u "id")) then throw (Error "User not logged in")
  else
    r ← await (supabase.from "event_registrations"
               |> supabase.insert
                    (VObj (list_to_map
                       [ ("user_id", get_opt u "id"); ("event_id", VNum eventId);
                         ("group_id", groupId) ])));
    if truthy (error r) then throw (ApiError (error r)) else mret ().

(** [count != 0] for a count that is a number or [null]. *)
Definition count_ne_0 (c : option Z) : bool :=
  match c with
  | Some n => negb (n =? 0)
  | None => true
  end.

Definition isRegisteredForEvent (eventId : Z) : M bool :=
  u ← authStore_user;
  if negb (truthy (get_opt u "id")) then mret false
  else
    r ← await (supabase.from "event_registrations"
               |> supabase.select_count_head [SCol "id"]
               |> supabase.eq "event_id" (VNum eventId)
               |> supabase.eq "user_id" (get_opt u "id"));
    if truthy (error r) then throw (ApiError (error r))
    else mret (count_ne_0 (count r)).

(** *** profileService.ts *)

Definition readProfile : M Profile :=
  u ← authStore_user;
  if negb (truthy u) || negb (truthy (get_opt u "email")) then
    throw (Error "User is not logged in")
  else
    r ← await (supabase.from "profiles"
               |> supabase.select [SCol "full_name"; SCol "description"; SCol "email"]
               |> supabase.eq "user_id" (get_opt u "id")
               |> supabase.maybeSingle);
    if truthy (error r) then throw (ApiError (error r))
    else if negb (truthy (data r)) then throw (Error "Fetching profile unsuccessful")
    else
      let retArg := {| email := get_opt (data r) "email";
                       fullName := get_opt (data r) "full_name";
                       description := get_opt (data r) "description" |} in
      mret retArg.

Definition updateProfile (newProfile : Profile) : M Profile :=
  u ← authStore_user;
  if negb (truthy u) || negb (truthy (get_opt u "email")) then
    throw (Error "User is not logged in")
  else if negb (truthy (fullName newProfile)) then
    throw (Error "Argument object is missing 'fullName' attribute")
  else
    r ← await (supabase.from "profiles"
               |> supabase.update
                    (VObj (list_to_map
                       [ ("full_name", fullName newProfile);
                         ("description", description newProfile) ]))
               |> supabase.match_ {[ "user_id" := get_opt u "id" ]}
               |> supabase.maybeSingle);
    if truthy (error r) then throw (ApiError (error r))
    else if negb (truthy (data r)) then throw (Error "Update of profile unsuccessful")
    else
      let retArg := {| email := get_opt (data r) "email";
                       fullName := get_opt (data r) "full_name";
                       description := get_opt (data r) "description" |} in
      (* update store *)
      setProfileStore retArg;;
      mret retArg.

End Services.
End Services.

(** ** The auth service of supabase.ts *)

Module AuthService.
Import Services.

(** The calls to the auth interface. *)
Inductive AuthCall := SignIn (credentials : Val) | SignOut.

(** Beside the world of the services: the pages the router was sent to and
    the calls made to the auth interface, oldest first. *)
Record Shell (B : Type) := {
  world : World B;
  routes : list string;
  auth_calls : list AuthCall
}.
Arguments world {B}.
Arguments routes {B}.
Arguments auth_calls {B}.

Section AuthService.
Context {B : Type}.
(** [supabase.auth.signIn] answers its result object ([user], [session],
    [error]); [supabase.auth.signOut] is not awaited. *)
Variable signIn : Val → B → Val * B.
Variable signOut : B → B.

Definition with_backend (b : B) (w : World B) : World B :=
  {| backend := b; authStore := authStore w; heap := heap w;
     sent := sent w; toasts := toasts w |}.

(** Modelled from the spec: [setUserStore] of [stores/auth], which is not
    among the sources; it sets the current user of the "process-wide state
    holding the current user/session". *)
Definition setUserStore (u : Val) (w : World B) : World B :=
  {| backend := backend w;
     authStore := {| user := u; profile := profile (authStore w) |};
     heap := heap w; sent := sent w; toasts := toasts w |}.

Definition login (email : Val) (s : Shell B) : (Exn + ()) * Shell B :=
  let credentials := VObj {[ "email" := email ]} in
  let '(result, b) := signIn credentials (backend (world s)) in
  (* router.push("/") *)
  let s1 := {| world := with_backend b (world s); routes := routes s ++ ["/"];
               auth_calls := auth_calls s ++ [SignIn credentials] |} in
  match get result "user" with
  | inl e => (inl e, s1)
  | inr u => (inr (), {| world := setUserStore u (world s1); routes := routes s1;
                         auth_calls := auth_calls s1 |})
  end.

Definition logout (s : Shell B) : Shell B :=
  {| world := with_backend (signOut (backend (world s))) (world s);
     routes := routes s ++ ["/login"];
     auth_calls := auth_calls s ++ [SignOut] |}.

End AuthService.
End AuthService.

(** ** The database side *)

Module Sql.

(** A row maps column names to values; a column that was not given is
    [NULL]. *)
Definition column (r : gmap string Val) (c : string) : Val := default VNull (r !! c).

Definition is_null (v : Val) : bool :=
  match v with VNull | VUndef => true | _ => false end.

(** SQL comparison: [None] is the unknown truth value, which a [WHERE]
    clause treats like false.  Values of different types do not compare. *)
Definition sql_eq (a b : Val) : option bool :=
  match a, b with
  | VBool x, VBool y => Some (Bool.eqb x y)
  | VNum x, VNum y => Some (x =? y)
  | VStr x, VStr y => Some (String.eqb x y)
  | VIso x, VIso y => Some (x =? y)
  | _, _ => None
  end.

Definition sql_gt (a b : Val) : option bool :=
  match a, b with
  | VNum x, VNum y => Some (y <? x)
  | VIso x, VIso y => Some (y <? x)
  | _, _ => None
  end.

Definition sql_op (op : string) (a b : Val) : option bool :=
  if String.eqb op "eq" then sql_eq a b
  else if String.eqb op "gt" then sql_gt a b
  else None.

Definition cond (f : Filter) (r : gmap string Val) : option bool :=
  match f with
  | FEq c v => sql_eq (column r c) v
  | FGt c v => sql_gt (column r c) v
  | FNot c op v => negb <$> sql_op op (column r c) v
  end.

Definition holds (f : Filter) (r : gmap string Val) : bool :=
  match cond f r with Some true => true | _ => false end.

Definition keeps (fs : list Filter) (r : gmap string Val) : bool := forallb (λ f, holds f r) fs.

(** [ORDER BY c]: numbers and timestamps by value, everything else last. *)
Definition sort_key (v : Val) : option Z :=
  match v with
  | VNum n => Some n
  | VIso t => Some t
  | _ => None
  end.

Definition key_le (a b : option Z) : Prop :=
  match a, b with
  | Some x, Some y => x ≤ y
  | Some _, None => True
  | None, Some _ => False
  | None, None => True
  end.

Definition ordered (c : string) (ascending : bool) (x y : gmap string Val * gmap string Val) : Prop :=
  if ascending then key_le (sort_key (column x.1 c)) (sort_key (column y.1 c))
  else key_le (sort_key (column y.1 c)) (sort_key (column x.1 c)).

#[global] Instance key_le_dec a b : Decision (key_le a b) :=
  match a, b with
  | Some x, Some y => decide (x ≤ y)
  | Some _, None => left I
  | None, Some _ => right (λ H, H)
  | None, None => left I
  end.

#[global] Instance ordered_dec c asc x y : Decision (ordered c asc x y) :=
  match asc with
  | true => key_le_dec (sort_key (column x.1 c)) (sort_key (column y.1 c))
  | false => key_le_dec (sort_key (column y.1 c)) (sort_key (column x.1 c))
  end.

End Sql.
Export Sql.

(** *** The trigger script *)

Module Triggers.

Inductive Timing := Before | After.
Inductive Level := ForEachRow | ForEachStatement.

(** The record variable [NEW] of a PL/pgSQL trigger function.  In a
    row-level trigger it holds the row.  In a statement-level trigger there
    is no row: before PostgreSQL 11 the variable is not assigned and
    reading a field of it is an error; since version 11 it is a null
    record of the table's row type, every field of which reads as [NULL]. *)
Inductive RecVar := Unassigned | Assigned (r : gmap string Val).

Definition statement_new (version : Z) : RecVar :=
  if version <? 11 then Unassigned else Assigned ∅.

Definition field (new : RecVar) (c : string) : string + Val :=
  match new with
  | Unassigned => inl "record 'new' is not assigned yet"
  | Assigned r => inr (column r c)
  end.

Definition assign (new : RecVar) (c : string) (v : Val) : string + RecVar :=
  match new with
  | Unassigned => inl "record 'new' is not assigned yet"
  | Assigned r => inr (Assigned (<[c := v]> r))
  end.

(** A trigger function sees [auth.uid()], [NEW] and the tables; it fails
    with a message or returns a record and the tables as it left them. *)
Definition TriggerFn : Type :=
  Val → RecVar → gmap string (list (gmap string Val)) →
  string + (RecVar * gmap string (list (gmap string Val))).

Definition handle_new_user : TriggerFn := λ uid new db,
  match field new "id" with
  | inl e => inl e
  | inr id =>
      (* insert into public.profiles (user_id) values (new.id) *)
      inr (new, <["profiles" := default [] (db !! "profiles") ++ [ {[ "user_id" := id ]} ]]> db)
  end.

Definition inject_user_id : TriggerFn := λ uid new db,
  match field new "user_id" with
  | inl e => inl e
  | inr user_id =>
      if is_null user_id then
        match assign new "user_id" uid with
        | inl e => inl e
        | inr new' => inr (new', db)
        end
      else inr (new, db)
  end.

Record Trigger := {
  tg_name : string;
  tg_timing : Timing;
  tg_table : string;
  tg_level : Level;
  tg_fn : TriggerFn
}.

(** [create trigger name (before|after) insert on table [for each ...]
    execute procedure fn()].  PostgreSQL, on [CREATE TRIGGER]: "If neither
    is specified, FOR EACH STATEMENT is the default." *)
Definition create_trigger (name : string) (timing : Timing) (table : string)
    (for_each : option Level) (fn : TriggerFn) : Trigger :=
  {| tg_name := name; tg_timing := timing; tg_table := table;
     tg_level := default ForEachStatement for_each; tg_fn := fn |}.

Definition on_user_created_create_profile : Trigger :=
  create_trigger "on_user_created_create_profile" After "auth.users" (Some ForEachRow) handle_new_user.

Definition on_vote_insert_inject_user_id : Trigger :=
  create_trigger "on_vote_insert_inject_user_id" Before "votes" None inject_user_id.

Definition on_registration_insert_inject_user_id : Trigger :=
  create_trigger "on_registration_insert_inject_user_id" Before "event_registrations" None inject_user_id.

Definition script : list Trigger :=
  [ on_user_created_create_profile; on_vote_insert_inject_user_id;
    on_registration_insert_inject_user_id ].

Definition fires (timing : Timing) (level : Level) (table : string) (t : Trigger) : bool :=
  match tg_timing t, timing with Before, Before | After, After => true | _, _ => false end
  && match tg_level t, level with
     | ForEachRow, ForEachRow | ForEachStatement, ForEachStatement => true
     | _, _ => false
     end
  && String.eqb (tg_table t) table.

(** Triggers whose result is ignored (statement-level ones, and row-level
    [after] ones): each function in turn sees [new]. *)
Fixpoint run (ts : list Trigger) (uid : Val) (new : RecVar)
    (db : gmap string (list (gmap string Val)))
    : string + gmap string (list (gmap string Val)) :=
  match ts with
  | [] => inr db
  | t :: ts' =>
      match tg_fn t uid new db with
      | inl e => inl e
      | inr (_, db') => run ts' uid new db'
      end
  end.

(** The row-level [before] triggers on a row: each function sees the row
    the one before it returned; a function that returns no record
    suppresses the row, and the functions after it are not run. *)
Fixpoint run_row (ts : list Trigger) (uid : Val) (r : gmap string Val)
    (db : gmap string (list (gmap string Val)))
    : string + (option (gmap string Val) * gmap string (list (gmap string Val))) :=
  match ts with
  | [] => inr (Some r, db)
  | t :: ts' =>
      match tg_fn t uid (Assigned r) db with
      | inl e => inl e
      | inr (Unassigned, db') => inr (None, db')
      | inr (Assigned r', db') => run_row ts' uid r' db'
      end
  end.

(** The row-level [before] triggers on each row in turn; the rows they
    return are the ones to store. *)
Fixpoint run_rows (ts : list Trigger) (uid : Val) (rows : list (gmap string Val))
    (db : gmap string (list (gmap string Val)))
    : string + (list (gmap string Val) * gmap string (list (gmap string Val))) :=
  match rows with
  | [] => inr ([], db)
  | r :: rows' =>
      match run_row ts uid r db with
      | inl e => inl e
      | inr (new, db') =>
          match run_rows ts uid rows' db' with
          | inl e => inl e
          | inr (out, db'') =>
              inr (match new with Some r' => r' :: out | None => out end, db'')
          end
      end
  end.

(** The row-level [after] triggers on each stored row. *)
Fixpoint run_after (ts : list Trigger) (uid : Val) (rows : list (gmap string Val))
    (db : gmap string (list (gmap string Val)))
    : string + gmap string (list (gmap string Val)) :=
  match rows with
  | [] => inr db
  | r :: rows' =>
      match run ts uid (Assigned r) db with
      | inl e => inl e
      | inr db' => run_after ts uid rows' db'
      end
  end.

(** [insert into table] of [rows] by the session whose user id is [uid],
    on a server of the given version with the triggers [tgs] installed:
    statement-level [before] triggers (with no row in [NEW], result
    ignored), row-level [before] triggers, the rows stored, then the
    [after] triggers.  An error aborts the statement and nothing is
    stored. *)
Definition insert_into (version : Z) (tgs : list Trigger) (uid : Val) (table : string)
    (rows : list (gmap string Val)) (db : gmap string (list (gmap string Val)))
    : string + (list (gmap string Val) * gmap string (list (gmap string Val))) :=
  match run (filter (λ t, fires Before ForEachStatement table t) tgs) uid
            (statement_new version) db with
  | inl e => inl e
  | inr db1 =>
      match run_rows (filter (λ t, fires Before ForEachRow table t) tgs) uid rows db1 with
      | inl e => inl e
      | inr (stored, db2) =>
          let db3 := <[table := default [] (db2 !! table) ++ stored]> db2 in
          match run_after (filter (λ t, fires After ForEachRow table t) tgs) uid stored db3 with
          | inl e => inl e
          | inr db4 =>
              match run (filter (λ t, fires After ForEachStatement table t) tgs) uid
                        (statement_new version) db4 with
              | inl e => inl e
              | inr db5 => inr (stored, db5)
              end
          end
      end
  end.

End Triggers.

(** *** The tables behind the query interface *)

Module Pg.

Inductive Card := ToOne | ToMany.

(** A foreign key by which a relation can be embedded in a [select]: the
    rows [k] of [rel_table] with [k.rel_to = r.rel_from]. *)
Record Rel := { rel_table : string; rel_card : Card; rel_from : string; rel_to : string }.

(** The database: the version of the server, its tables, the foreign keys
    known for embedding (by table and relation name), the triggers
    installed, the user id of the session ([auth.uid()]), and the errors
    with which the coming requests fail before they reach the tables
    ([null]: the request is served). *)
Record Database := {
  version : Z;
  tables : gmap string (list (gmap string Val));
  relations : gmap (string * string) Rel;
  triggers : list Triggers.Trigger;
  session : Val;
  outages : list Val
}.

(** A filter on [relation.column] applies to the embedded relation. *)
Fixpoint split_dot (s : string) : option (string * string) :=
  match s with
  | EmptyString => None
  | String c s' =>
      if Ascii.eqb c (Ascii.ascii_of_nat 46) then Some (EmptyString, s')
      else match split_dot s' with
           | Some (a, b) => Some (String c a, b)
           | None => None
           end
  end.

Definition filter_col (f : Filter) : string :=
  match f with FEq c _ | FNot c _ _ | FGt c _ => c end.

Definition with_col (f : Filter) (c : string) : Filter :=
  match f with
  | FEq _ v => FEq c v
  | FNot _ op v => FNot c op v
  | FGt _ v => FGt c v
  end.

Definition top_filters (fs : list Filter) : list Filter :=
  List.filter (λ f, match split_dot (filter_col f) with None => true | Some _ => false end) fs.

Definition embedded_filters (rel : string) (fs : list Filter) : list Filter :=
  omap (λ f, match split_dot (filter_col f) with
             | Some (r, c) => if String.eqb r rel then Some (with_col f c) else None
             | None => None
             end) fs.

Definition linked (R : Rel) (r k : gmap string Val) : bool :=
  match sql_eq (column r (rel_from R)) (column k (rel_to R)) with
  | Some true => true
  | _ => false
  end.

(** The outcome of building one result object: the request is malformed
    (an unknown relation), the row is dropped by an inner join, or the
    object. *)
Inductive Outcome := Bad | Dropped | Kept (o : gmap string Val).

Definition and_then (x : Outcome) (f : gmap string Val → Outcome) : Outcome :=
  match x with Kept o => f o | _ => x end.

(** [collect] gathers the objects of the rows that were kept. *)
Fixpoint collect (l : list Outcome) : option (list (gmap string Val)) :=
  match l with
  | [] => Some []
  | Bad :: _ => None
  | Dropped :: l' => collect l'
  | Kept o :: l' => (o ::.) <$> collect l'
  end.

(** One item of a [select] added to the object [acc] built for row [r] of
    table [tbl]; [fs] are the request's filters. *)
Fixpoint project (db : Database) (fs : list Filter) (tbl : string)
    (r : gmap string Val) (s : Sel) (acc : gmap string Val) : Outcome :=
  match s with
  | SStar => Kept (r ∪ acc)
  | SCol c => Kept (<[c := column r c]> acc)
  | SEmbed alias rel inner sub =>
      match relations db !! (tbl, rel) with
      | None => Bad
      | Some R =>
          let kids :=
            List.filter (λ k, linked R r k && keeps (embedded_filters rel fs) k)
                        (default [] (tables db !! rel_table R)) in
          match collect (map (λ k, foldl (λ out s', and_then out (project db [] (rel_table R) k s'))
                                         (Kept ∅) sub) kids) with
          | None => Bad
          | Some objs =>
              match rel_card R, objs with
              | ToOne, [] => if inner then Dropped else Kept (<[alias := VNull]> acc)
              | ToOne, o :: _ => Kept (<[alias := VObj o]> acc)
              | ToMany, [] => if inner then Dropped else Kept (<[alias := VArr []]> acc)
              | ToMany, _ => Kept (<[alias := VArr (VObj <$> objs)]> acc)
              end
          end
      end
  end.

Definition project_all (db : Database) (fs : list Filter) (tbl : string)
    (sel : list Sel) (r : gmap string Val) : Outcome :=
  foldl (λ out s, and_then out (project db fs tbl r s)) (Kept ∅) sel.

(** The rows of the result, each with the table row it comes from. *)
Fixpoint results (db : Database) (fs : list Filter) (tbl : string) (sel : list Sel)
    (rows : list (gmap string Val)) : option (list (gmap string Val * gmap string Val)) :=
  match rows with
  | [] => Some []
  | r :: rows' =>
      match project_all db fs tbl sel r with
      | Bad => None
      | Dropped => results db fs tbl sel rows'
      | Kept o => ((r, o) ::.) <$> results db fs tbl sel rows'
      end
  end.

Definition sorted (o : option (string * bool)) (l : list (gmap string Val * gmap string Val))
    : list (gmap string Val * gmap string Val) :=
  match o with
  | Some (c, ascending) => merge_sort (ordered c ascending) l
  | None => l
  end.

Definition message (m : string) : Val := VObj {[ "message" := VStr m ]}.

Definition failed (m : string) : Response :=
  {| data := VNull; error := message m; count := None |}.

(** The response for the result rows [objs], by the shape asked for:
    a [head] request carries no rows, [maybeSingle] answers one object or
    [null] for none and an error for several, and the count is sent when
    it was asked for. *)
Definition respond (q : Query) (objs : list (gmap string Val)) : Response :=
  match q_shape q with
  | MaybeSingle =>
      match objs with
      | [] => {| data := VNull; error := VNull; count := None |}
      | [o] => {| data := match q_method q with HEAD => VNull | _ => VObj o end;
                  error := VNull;
                  count := if q_count q then Some 1 else None |}
      | _ => failed "JSON object requested, multiple (or no) rows returned"
      end
  | Rows =>
      {| data := match q_method q with HEAD => VNull | _ => VArr (VObj <$> objs) end;
         error := VNull;
         count := if q_count q then Some (Z.of_nat (length objs)) else None |}
  end.

Definition with_tables (db : Database) (t : gmap string (list (gmap string Val))) : Database :=
  {| version := version db; tables := t; relations := relations db;
     triggers := triggers db; session := session db; outages := outages db |}.

(** [select]: the rows of the table that pass the filters, each built into
    an object, in the order asked for. *)
Definition run_select (q : Query) (db : Database) : Response * Database :=
  match tables db !! q_table q with
  | None => (failed "relation does not exist", db)
  | Some rows =>
      match results db (q_filters q) (q_table q) (q_select q)
                    (List.filter (keeps (top_filters (q_filters q))) rows) with
      | None => (failed "Could not find a relationship", db)
      | Some l => (respond q (snd <$> sorted (q_order q) l), db)
      end
  end.

(** [update]: the rows that pass the filters take the columns of the body;
    the written rows are answered.  A request for a single object that
    wrote several rows fails and is rolled back. *)
Definition run_update (q : Query) (db : Database) : Response * Database :=
  match tables db !! q_table q, q_body q with
  | None, _ => (failed "relation does not exist", db)
  | Some rows, VObj body =>
      let hit := keeps (top_filters (q_filters q)) in
      let rows' := map (λ r, if hit r then body ∪ r else r) rows in
      let db' := with_tables db (<[q_table q := rows']> (tables db)) in
      match results db' (q_filters q) (q_table q) (q_select q)
                    (map (λ r, body ∪ r) (List.filter hit rows)) with
      | None => (failed "Could not find a relationship", db)
      | Some l =>
          let r := respond q (snd <$> sorted (q_order q) l) in
          (r, if truthy (error r) then db else db')
      end
  | Some _, _ => (failed "invalid body", db)
  end.

(** [insert]: the rows of the body are stored through the triggers of the
    table.  (The declarations of the tables are not among the sources: the
    keys of a row are not checked against the columns of the table.) *)
Definition run_insert (q : Query) (db : Database) : Response * Database :=
  match tables db !! q_table q with
  | None => (failed "relation does not exist", db)
  | Some _ =>
      let rows := match q_body q with
                  | VObj o => Some [o]
                  | VArr l => Some (omap (λ v, match v with VObj o => Some o | _ => None end) l)
                  | _ => None
                  end in
      match rows with
      | None => (failed "invalid body", db)
      | Some rows =>
          match Triggers.insert_into (version db) (triggers db) (session db) (q_table q) rows
                                     (tables db) with
          | inl e => (failed e, db)
          | inr (stored, t) =>
              let db' := with_tables db t in
              match results db' (q_filters q) (q_table q) (q_select q) stored with
              | None => (failed "Could not find a relationship", db)
              | Some l =>
                  let r := respond q (snd <$> l) in
                  (r, if truthy (error r) then db else db')
              end
          end
      end
  end.

Definition serve (q : Query) (db : Database) : Response * Database :=
  match q_method q with
  | GET | HEAD => run_select q db
  | PATCH => run_update q db
  | POST => run_insert q db
  end.

(** A request first meets the next scheduled outage. *)
Definition rest (q : Query) (db : Database) : Response * Database :=
  match outages db with
  | [] => serve q db
  | e :: es =>
      let db' := {| version := version db; tables := tables db; relations := relations db;
                    triggers := triggers db; session := session db; outages := es |} in
      if truthy e then ({| data := VNull; error := e; count := None |}, db')
      else serve q db'
  end.

End Pg.

(** ** What the statements below speak about *)

Module Observations.
Import Services.

Section AnyBackend.
Context {B : Type}.
Variable rest : Query → B → Response * B.
Variable rpc : string → Val → B → Response * B.

(** The guard shared by [readProfile] and [updateProfile]:
    [authStore.user && authStore.user.email]. *)
Definition logged_in (w : World B) : bool :=
  truthy (user (authStore w)) && truthy (get_opt (user (authStore w)) "email").

(** [authStore.user?.id] *)
Definition user_id (w : World B) : Val := get_opt (user (authStore w)) "id".

(** The request [updateProfile] sends. *)
Definition updateProfile_query (w : World B) (p : Profile) : Query :=
  supabase.from "profiles"
  |> supabase.update (VObj (list_to_map [ ("full_name", fullName p);
                                          ("description", description p) ]))
  |> supabase.match_ {[ "user_id" := user_id w ]}
  |> supabase.maybeSingle.

(** The request [readProfile] sends. *)
Definition readProfile_query (w : World B) : Query :=
  supabase.from "profiles"
  |> supabase.select [SCol "full_name"; SCol "description"; SCol "email"]
  |> supabase.eq "user_id" (user_id w)
  |> supabase.maybeSingle.

(** The profile built from an answered row. *)
Definition profile_of (d : Val) : Profile :=
  {| email := get_opt d "email"; fullName := get_opt d "full_name";
     description := get_opt d "description" |}.

(** The requests of [fetchEvents], [fetchUserEvents] and
    [isRegisteredForEvent]. *)
Definition fetchEvents_query (now : Z) : Query :=
  supabase.from "events"
  |> supabase.select [SStar; group_pair "event_groups"]
  |> supabase.not_ "is_cancelled" "eq" (VBool true)
  |> supabase.not_ "is_ended" "eq" (VBool true)
  |> supabase.gt "datetime" (VIso (now - 1 * hour))
  |> supabase.order "datetime" true.

Definition fetchUserEvents_query (now : Z) (w : World B) : Query :=
  supabase.from "events"
  |> supabase.select [SStar; group_pair "event_group_pair";
                      SEmbed "event_registrations" "event_registrations" true [SStar]]
  |> supabase.eq "event_registrations.user_id" (user_id w)
  |> supabase.not_ "is_cancelled" "eq" (VBool true)
  |> supabase.not_ "is_ended" "eq" (VBool true)
  |> supabase.gt "datetime" (VIso (now - 1 * hour))
  |> supabase.order "datetime" true.

Definition isRegistered_query (eventId : Z) (w : World B) : Query :=
  supabase.from "event_registrations"
  |> supabase.select_count_head [SCol "id"]
  |> supabase.eq "event_id" (VNum eventId)
  |> supabase.eq "user_id" (user_id w).

(** Whether a call returned rather than threw. *)
Definition returned {A} (r : Exn + A) : bool :=
  match r with inr _ => true | inl _ => false end.

(** The world after a request [rq] was answered, leaving the backend [b]. *)
Definition after (rq : Request) (b : B) (w : World B) : World B :=
  {| backend := b; authStore := authStore w; heap := heap w;
     sent := sent w ++ [rq]; toasts := toasts w |}.

(** The world after the notification [v] was shown. *)
Definition notified (v : Val) (w : World B) : World B :=
  {| backend := backend w; authStore := authStore w; heap := heap w;
     sent := sent w; toasts := toasts w ++ [v] |}.

(** The callback of [events.map] in [fetchEvents] and [fetchUserEvents]. *)
Definition parse_datetime (tz : string) (e : Val) : Exn + Val :=
  d ← get e "datetime";
  z ← Instant_from_toZonedDateTimeISO tz d;
  inr (VObj (<["datetime" := z]> (spread e))).

(** The [header_image] a creation request carries. *)
Definition header_image_sent (rq : Request) : Val :=
  match rq with
  | Rest q => get_opt (q_body q) "header_image"
  | Rpc _ params => get_opt params "header_image"
  | Upload _ _ _ _ => VUndef
  end.

(** The object a reference points to. *)
Definition object_at (w : World B) (l : nat) : gmap string Val := default ∅ (heap w !! l).

(** The second half of [createEvent], from [let creationError] on, up to
    the creation request's error. *)
Definition creation (eventData : nat) : M Val :=
  uses_groups ← readProp eventData "uses_groups";
  if truthy uses_groups then
    event_groups ← readProp eventData "event_groups";
    if negb (truthy event_groups) then
      throw (Error "Event is indicated to use groups, but no groups were provided")
    else
      title ← readProp eventData "title";
      description ← readProp eventData "description";
      header_image ← readProp eventData "header_image";
      datetime ← readProp eventData "datetime";
      instant ← lift (toInstant_toString datetime);
      location ← readProp eventData "location";
      max_participants ← readProp eventData "max_participants";
      groupA ← lift (get event_groups "groupA");
      groupATitle ← lift (get groupA "title");
      groupADescription ← lift (get groupA "description");
      groupB ← lift (get event_groups "groupB");
      groupBTitle ← lift (get groupB "title");
      groupBDescription ← lift (get groupB "description");
      r ← await_rpc rpc "create_event_with_groups"
            (VObj (list_to_map
               [ ("title", title); ("description", description);
                 ("header_image", header_image); ("datetime", instant);
                 ("location", location); ("max_participants", max_participants);
                 ("groupATitle", groupATitle); ("groupADescription", groupADescription);
                 ("groupBTitle", groupBTitle); ("groupBDescription", groupBDescription) ]));
      mret (error r)
  else
    o ← readObj eventData;
    datetime ← readProp eventData "datetime";
    text ← lift (toString datetime);
    r ← await rest (supabase.from "events"
               |> supabase.insert
                    (VObj (<["event_group_pair" := VUndef]> (<["datetime" := text]> o))));
    mret (error r).

End AnyBackend.

(** The columns [updateProfile] sends: [description] only when it is set. *)
Definition sent_columns (p : Profile) : gmap string Val :=
  omap (λ x, match x with VUndef => None | _ => Some (json x) end)
       (list_to_map [ ("full_name", fullName p); ("description", description p) ]).

(** The events of a result, with the instants of their [datetime]s. *)
Definition upcoming (now : Z) (tz : string) (e : Val) (t : Z) : Prop :=
  ∃ o, e = VObj o
       ∧ o !! "is_cancelled" = Some (VBool false)
       ∧ o !! "is_ended" = Some (VBool false)
       ∧ o !! "datetime" = Some (VZoned t tz)
       ∧ now - 1 * hour < t.

(** A registration of user [uid] for event [eventId] among [regs]. *)
Definition registered (regs : list (gmap string Val)) (uid : string) (eventId : Z) : Prop :=
  ∃ r, r ∈ regs ∧ r !! "event_id" = Some (VNum eventId) ∧ r !! "user_id" = Some (VStr uid).

(** The group pair joined to the row [r] of [events]: what the database
    answers for [r] to the embedding [event_group_pairs(groupA:group_a(id,
    title, description), groupB:group_b(id, title, description))] of the
    selects, whatever name it is asked under; [null] when no pair is linked
    to the row. *)
Definition joined_group_pair (db : Pg.Database) (r : gmap string Val) : option Val :=
  match Pg.project db [] "events" r
          (SEmbed "group_pair" "event_group_pairs" false
             [ SEmbed "groupA" "group_a" false [SCol "id"; SCol "title"; SCol "description"];
               SEmbed "groupB" "group_b" false [SCol "id"; SCol "title"; SCol "description"] ])
          ∅ with
  | Pg.Kept o => o !! "group_pair"
  | _ => None
  end.

End Observations.

(** ** A small database to run the services on *)

Module Demo.
Import Services Pg.

Definition event (id t : Z) (cancelled ended pair : Val) : gmap string Val :=
  list_to_map [ ("id", VNum id); ("organizer", VStr "u0"); ("title", VStr "Meetup");
                ("description", VStr ""); ("header_image", VNull); ("datetime", VIso t);
                ("location", VStr "Hall"); ("max_participants", VNum 20);
                ("event_group_pair", pair);
                ("is_ended", ended); ("is_cancelled", cancelled) ].

Definition now : Z := 100 * hour.

Definition foreign_keys : gmap (string * string) Rel :=
  list_to_map
    [ (("events", "event_group_pairs"),
       {| rel_table := "event_group_pairs"; rel_card := ToOne;
          rel_from := "event_group_pair"; rel_to := "id" |});
      (("event_group_pairs", "group_a"),
       {| rel_table := "groups"; rel_card := ToOne; rel_from := "group_a"; rel_to := "id" |});
      (("event_group_pairs", "group_b"),
       {| rel_table := "groups"; rel_card := ToOne; rel_from := "group_b"; rel_to := "id" |});
      (("events", "event_registrations"),
       {| rel_table := "event_registrations"; rel_card := ToMany;
          rel_from := "id"; rel_to := "event_id" |}) ].

Definition registrations : list (gmap string Val) :=
  [ list_to_map [("id", VNum 1); ("user_id", VStr "u1"); ("event_id", VNum 1)] ].

Definition database (events : list (gmap string Val)) : Database :=
  {| version := 14;
     tables := list_to_map
       [ ("events", events);
         ("event_group_pairs",
          [ list_to_map [("id", VNum 10); ("group_a", VNum 1); ("group_b", VNum 2)] ]);
         ("groups",
          [ list_to_map [("id", VNum 1); ("title", VStr "A"); ("description", VStr "descA")];
            list_to_map [("id", VNum 2); ("title", VStr "B"); ("description", VStr "descB")] ]);
         ("event_registrations", registrations);
         ("votes", []);
         ("profiles",
          [ list_to_map [ ("user_id", VStr "u1"); ("email", VStr "ann@example.org");
                          ("full_name", VStr "Ann"); ("description", VStr "old") ] ]) ];
     relations := foreign_keys;
     triggers := Triggers.script;
     session := VStr "u1";
     outages := [] |}.

(** Five events: one with groups in three hours, one in two hours, a
    cancelled one, one whose flag is not set, and one long past. *)
Definition events : list (gmap string Val) :=
  [ event 1 (now + 3 * hour) (VBool false) (VBool false) (VNum 10);
    event 2 (now + 2 * hour) (VBool false) (VBool false) VNull;
    event 3 (now + 4 * hour) (VBool true) (VBool false) VNull;
    event 4 (now + 5 * hour) VNull (VBool false) VNull;
    event 5 (now - 7 * hour) (VBool false) (VBool false) VNull ].

Definition ann : Val :=
  VObj (list_to_map [("id", VStr "u1"); ("email", VStr "ann@example.org")]).

Definition world {B} (b : B) (u : Val) : World B :=
  {| backend := b; authStore := {| user := u; profile := None |};
     heap := ∅; sent := []; toasts := [] |}.

(** A backend that replays prepared answers, for the calls that do not go
    to the tables (storage and remote procedures). *)
Definition replay {A} (_ : A) (script : list Response) : Response * list Response :=
  match script with
  | [] => ({| data := VNull; error := VObj {[ "message" := VStr "offline" ]}; count := None |}, [])
  | r :: script' => (r, script')
  end.

Definition ok (d : Val) : Response := {| data := d; error := VNull; count := None |}.

Definition new_event (file : Val) (uses_groups : bool) : gmap string Val :=
  list_to_map [ ("title", VStr "Meetup"); ("description", VStr ""); ("header_image", VUndef);
                ("datetime", VZoned (now + 3 * hour) "UTC"); ("location", VStr "Hall");
                ("max_participants", VNum 20); ("headerImageFile", file);
                ("uses_groups", VBool uses_groups);
                ("event_groups",
                 VObj (list_to_map
                   [ ("groupA", VObj (list_to_map [("title", VStr "A"); ("description", VStr "descA")]));
                     ("groupB", VObj (list_to_map [("title", VStr "B"); ("description", VStr "descB")])) ])) ].

(** A profile to write: a new name, no description. *)
Definition bob : Profile := {| email := VUndef; fullName := VStr "Bob"; description := VUndef |}.

(** The same database on an old server. *)
Definition old_server (db : Database) : Database :=
  {| version := 10; tables := tables db; relations := Pg.relations db;
     triggers := triggers db; session := session db; outages := outages db |}.

(** The world of the examples: the user [ann], the five events. *)
Definition w0 : World Database := world (database events) ann.

(** A profile without a name. *)
Definition nameless : Profile := {| email := VUndef; fullName := VStr ""; description := VStr "hi" |}.

Definition with_object {B} (w : World B) (l : nat) (o : gmap string Val) : World B :=
  {| backend := backend w; authStore := authStore w; heap := <[l := o]> (heap w);
     sent := sent w; toasts := toasts w |}.

(** The world in which [ann] creates the event held by object 0, with a
    header image, over a backend that answers the upload with a key and the
    creation with no error. *)
Definition creating (uses_groups : bool) : World (list Response) :=
  with_object
    (world [ ok (VObj {[ "Key" := VStr "event-header-images/V1StGXR8" ]}); ok VNull ] ann)
    0 (new_event (VFile "header.png") uses_groups).

(** The same without a header image. *)
Definition creating_plain : World (list Response) :=
  with_object (world [ ok VNull ] ann) 0 (new_event VUndef false).


End Demo.

(** ** Further observations and examples *)

Module MoreObservations.
Import Services Observations.

Section AnyBackend.
Context {B : Type}.

(** The requests of [fetchEventById] and [registerForEvent]. *)
Definition fetchEventById_query (eventId : Z) : Query :=
  supabase.from "events"
  |> supabase.select [SStar; group_pair "event_groups"]
  |> supabase.eq "id" (VNum eventId)
  |> supabase.maybeSingle.

Definition registerForEvent_query (w : World B) (eventId : Z) (groupId : Val) : Query :=
  supabase.from "event_registrations"
  |> supabase.insert (VObj (list_to_map [ ("user_id", user_id w); ("event_id", VNum eventId);
                                          ("group_id", groupId) ])).

(** The upload request of [createEvent] for the object [l]. *)
Definition header_upload (fileName : string) (l : nat) (w : World B) : Request :=
  Upload "event-header-images" fileName
         (default VUndef (object_at w l !! "headerImageFile")) "image/png".

End AnyBackend.

(** A creation request of [createEvent], by the [uses_groups] of the
    event: the remote procedure, or an insert into [events] whose body has
    no [event_group_pair]. *)
Definition is_creation (uses_groups : Val) (rq : Request) : Prop :=
  match rq with
  | Rpc fn _ => truthy uses_groups = true ∧ fn = "create_event_with_groups"
  | Rest q => truthy uses_groups = false ∧ q_table q = "events" ∧ q_method q = POST
              ∧ get_opt (q_body q) "event_group_pair" = VUndef
  | Upload _ _ _ _ => False
  end.

(** A row of [events] that the listing shows at the time [now]. *)
Definition is_upcoming (now : Z) (r : gmap string Val) : bool :=
  keeps [ FNot "is_cancelled" "eq" (VBool true); FNot "is_ended" "eq" (VBool true);
          FGt "datetime" (VIso (now - 1 * hour)) ] r.

(** What is joined under [event_registrations]: registrations of the user
    [uid], at least one. *)
Definition own_registrations (uid : string) (x : Val) : Prop :=
  (∃ o, x = VObj o ∧ o !! "user_id" = Some (VStr uid))
  ∨ (∃ l, x = VArr l ∧ l ≠ []
          ∧ Forall (λ v, ∃ o, v = VObj o ∧ o !! "user_id" = Some (VStr uid)) l).

(** The profile rows that [handle_new_user] adds for the rows [users]. *)
Definition new_profiles (users : list (gmap string Val)) : list (gmap string Val) :=
  (λ u, {[ "user_id" := column u "id" ]}) <$> users.

End MoreObservations.

Module MoreDemo.
Import Services Pg Demo.

(** A sign-in that answers the user [ann], and one that fails. *)
Definition signIn_ok (credentials : Val) (b : Database) : Val * Database :=
  (VObj (list_to_map [("user", ann); ("session", VObj ∅); ("error", VNull)]), b).

Definition signIn_failed (credentials : Val) (b : Database) : Val * Database :=
  (VObj (list_to_map [("user", VNull); ("session", VNull);
                      ("error", VObj {[ "message" := VStr "rate limit" ]})]), b).

Definition signOut (b : Database) : Database := b.

Definition shell (w : World Database) : AuthService.Shell Database :=
  {| AuthService.world := w; AuthService.routes := []; AuthService.auth_calls := [] |}.

(** A new user, and the world in which she is logged in on a database
    that has just stored her through the triggers. *)
Definition eve_row : gmap string Val :=
  list_to_map [("id", VStr "u2"); ("email", VStr "eve@example.org")].

Definition eve : Val :=
  VObj (list_to_map [("id", VStr "u2"); ("email", VStr "eve@example.org")]).

Definition signed_up (db : Database) (users : list (gmap string Val)) : Database :=
  match Triggers.insert_into (version db) (triggers db) (session db) "auth.users" users
                             (tables db) with
  | inl _ => db
  | inr (_, t) => with_tables db t
  end.

(** An event object without a header image. *)
Definition creating_groups : World (list Response) :=
  with_object (world [ ok VNull ] ann) 0 (new_event VUndef true).

(** The remote procedures and the storage over the replaying backend. *)
Definition rpc_replay (fn : string) (params : Val) (script : list Response) :
    Response * list Response :=
  replay (fn, params) script.

Definition upload_replay (bucket path : string) (file : Val) (contentType : string)
    (script : list Response) : Response * list Response :=
  replay (bucket, path) script.

(** Nobody logged in; a backend that answers nothing, so that the upload
    fails; and an event that says it uses groups and has none, over a
    backend that answers the upload with a key. *)
Definition anonymous : World (list Response) :=
  with_object (world [] VNull) 0 (new_event (VFile "header.png") false).

Definition upload_fails : World (list Response) :=
  with_object (world [] ann) 0 (new_event (VFile "header.png") false).

Definition creating_no_groups : World (list Response) :=
  with_object (world [ ok (VObj {[ "Key" := VStr "event-header-images/V1StGXR8" ]}) ] ann)
              0 (<["event_groups" := VUndef]> (new_event (VFile "header.png") true)).

(** The groups of [new_event]. *)
Definition groupA : gmap string Val := list_to_map [("title", VStr "A"); ("description", VStr "descA")].
Definition groupB : gmap string Val := list_to_map [("title", VStr "B"); ("description", VStr "descB")].
Definition groups : gmap string Val := list_to_map [("groupA", VObj groupA); ("groupB", VObj groupB)].

(** Remote procedures and storage that cannot be reached, over any
    backend. *)
Definition unreachable {A B} (_ : A) (b : B) : Response * B :=
  ({| data := VNull; error := VObj {[ "message" := VStr "offline" ]}; count := None |}, b).

(** The profile row of [ann] in the small database. *)
Definition ann_profile : gmap string Val :=
  list_to_map [ ("user_id", VStr "u1"); ("email", VStr "ann@example.org");
                ("full_name", VStr "Ann"); ("description", VStr "old") ].

(** [eve] logged in on the database that has just stored her. *)
Definition eve_world : World Database :=
  world (signed_up (database events) [eve_row]) eve.

End MoreDemo.

(** ** The services, for every backend *)

Module ServiceFacts.
Import Services Observations.

Ltac run :=
  unfold mbind, M_bind, mret, M_ret, throw, lift, authStore_user, await, await_rpc,
    await_upload, send, errorToast, setProfileStore, readProp, readObj, writeProp; simpl.

Section AnyBackend.
Context {B : Type}.
Variable rest : Query → B → Response * B.
Variable rpc : string → Val → B → Response * B.
Variable storage_upload : string → string → Val → string → B → Response * B.

(** [fetchEvents] written out: one request, then the checks in order. *)
Lemma fetchEvents_unfold now tz (w : World B) :
  fetchEvents rest now tz w =
  let q := fetchEvents_query now in
  let w1 := after (Rest q) (rest q (backend w)).2 w in
  let r := (rest q (backend w)).1 in
  if truthy (error r) then (inl (ApiError (error r)), notified (error r) w1)
  else if negb (truthy (data r)) then
    (inl (Error "Failed to fetch events"), notified (VStr "Failed to fetch events") w1)
  else
    match first (data r) with
    | inl e => (inl e, w1)
    | inr e0 =>
        match get e0 "datetime" with
        | inl e => (inl e, w1)
        | inr _ => (array_map (parse_datetime tz) (data r), w1)
        end
    end.
Proof.
  unfold fetchEvents, fetchEvents_query, after, notified. run.
  destruct (rest _ (backend w)) as [r b]; simpl.
  destruct (truthy (error r)); [done|].
  destruct (negb (truthy (data r))); [done|].
  destruct (first (data r)); [done|]. simpl.
  destruct (get _ _); done.
Qed.

Lemma fetchUserEvents_unfold now tz (w : World B) :
  fetchUserEvents rest now tz w =
  let q := fetchUserEvents_query now w in
  let w1 := after (Rest q) (rest q (backend w)).2 w in
  let r := (rest q (backend w)).1 in
  if truthy (error r) then (inl (ApiError (error r)), notified (error r) w1)
  else
    match data r with
    | VNull => (inl (Error "Could not load user's events"), w1)
    | VUndef => (inr VUndef, w1)
    | _ => (array_map (parse_datetime tz) (data r), w1)
    end.
Proof.
  unfold fetchUserEvents, fetchUserEvents_query, after, notified, user_id. run.
  destruct (rest _ (backend w)) as [r b]; simpl.
  destruct (truthy (error r)); [done|].
  destruct (data r); done.
Qed.

Lemma isRegisteredForEvent_unfold eventId (w : World B) :
  isRegisteredForEvent rest eventId w =
  if negb (truthy (user_id w)) then (inr false, w)
  else
    let q := isRegistered_query eventId w in
    let w1 := after (Rest q) (rest q (backend w)).2 w in
    let r := (rest q (backend w)).1 in
    if truthy (error r) then (inl (ApiError (error r)), w1)
    else (inr (count_ne_0 (count r)), w1).
Proof.
  unfold isRegisteredForEvent, isRegistered_query, after, user_id. run.
  destruct (negb _); [done|].
  destruct (rest _ (backend w)) as [r b]; simpl.
  destruct (truthy (error r)); done.
Qed.

Lemma readProfile_unfold (w : World B) :
  readProfile rest w =
  if negb (logged_in w) then (inl (Error "User is not logged in"), w)
  else
    let q := readProfile_query w in
    let w1 := after (Rest q) (rest q (backend w)).2 w in
    let r := (rest q (backend w)).1 in
    if truthy (error r) then (inl (ApiError (error r)), w1)
    else if negb (truthy (data r)) then (inl (Error "Fetching profile unsuccessful"), w1)
    else (inr (profile_of (data r)), w1).
Proof.
  unfold readProfile, logged_in, readProfile_query, after, user_id. run.
  rewrite negb_andb.
  destruct (negb (truthy (user (authStore w))) || _); [done|].
  destruct (rest _ (backend w)) as [r b]; simpl.
  destruct (truthy (error r)); [done|].
  destruct (negb (truthy (data r))); done.
Qed.

Lemma updateProfile_unfold p (w : World B) :
  updateProfile rest p w =
  if negb (logged_in w) then (inl (Error "User is not logged in"), w)
  else if negb (truthy (fullName p)) then
    (inl (Error "Argument object is missing 'fullName' attribute"), w)
  else
    let q := updateProfile_query w p in
    let w1 := after (Rest q) (rest q (backend w)).2 w in
    let r := (rest q (backend w)).1 in
    if truthy (error r) then (inl (ApiError (error r)), w1)
    else if negb (truthy (data r)) then (inl (Error "Update of profile unsuccessful"), w1)
    else (inr (profile_of (data r)),
          {| backend := backend w1;
             authStore := {| user := user (authStore w); profile := Some (profile_of (data r)) |};
             heap := heap w; sent := sent w1; toasts := toasts w |}).
Proof.
  unfold updateProfile, logged_in, updateProfile_query, after, user_id. run.
  rewrite negb_andb.
  destruct (negb (truthy (user (authStore w))) || _); [done|].
  destruct (negb (truthy (fullName p))); [done|].
  destruct (rest _ (backend w)) as [r b]; simpl.
  destruct (truthy (error r)); [done|].
  destruct (negb (truthy (data r))); done.
Qed.

(** C6: called with a missing or empty [fullName], [updateProfile] throws
    and leaves the world as it was: no request is sent, and the store and
    the backend are untouched.  For a logged-in user the error is the one
    about the missing name. *)
Theorem updateProfile_rejects_missing_name p (w : World B) :
  fullName p = VUndef ∨ fullName p = VStr "" →
  ∃ msg, updateProfile rest p w = (inl (Error msg), w)
         ∧ (logged_in w = true → msg = "Argument object is missing 'fullName' attribute").
Proof.
  intros Hname. rewrite updateProfile_unfold.
  destruct (logged_in w); simpl.
  - assert (truthy (fullName p) = false) as -> by (destruct Hname as [-> | ->]; done).
    simpl. eauto.
  - eexists. split; [done|]. done.
Qed.

(** C7: [updateProfile] succeeds exactly when the user is logged in, the
    name is present, the request reports no error and answers a row; then
    the store holds the profile built from that row, which is also the
    result.  In every other case it throws and the store is unchanged. *)
Theorem updateProfile_store p (w : World B) :
  let resp := (rest (updateProfile_query w p) (backend w)).1 in
  let res := (updateProfile rest p w).1 in
  let w' := (updateProfile rest p w).2 in
  if logged_in w && truthy (fullName p) && negb (truthy (error resp)) && truthy (data resp)
  then res = inr (profile_of (data resp))
       ∧ authStore w' = {| user := user (authStore w); profile := Some (profile_of (data resp)) |}
  else (∃ e, res = inl e) ∧ authStore w' = authStore w.
Proof.
  simpl. rewrite updateProfile_unfold.
  destruct (logged_in w); simpl; [|eauto].
  destruct (truthy (fullName p)); simpl; [|eauto].
  destruct (truthy (error _)); simpl; [eauto|].
  destruct (truthy (data _)); simpl; eauto.
Qed.

(** [createEvent] consists of the guard, the upload, and [creation]. *)
Lemma createEvent_creation fileName l :
  createEvent rest rpc storage_upload fileName l =
  (u ← authStore_user;
   if negb (truthy u) then
     errorToast (VStr "Please log in first");; throw (Error "User is not logged in")
   else
     headerImageFile ← readProp l "headerImageFile";
     (if truthy headerImageFile then
        r ← await_upload storage_upload "event-header-images" fileName headerImageFile "image/png";
        if truthy (error r) then throw (ApiError (error r))
        else if negb (truthy (data r)) || negb (truthy (get_opt (data r) "Key")) then
          throw (Error "Received no data after uploading image")
        else writeProp l "header_image" (get_opt (data r) "Key")
      else mret ());;
     creationError ← creation rest rpc l;
     if truthy creationError then throw (ApiError creationError) else mret ()).
Proof. reflexivity. Qed.

(** [creation] writes to no object, and every request it sends carries the
    [header_image] the object has when it starts. *)
Lemma creation_frame l k (w : World B) :
  object_at w l !! "header_image" = Some k → truthy k = true →
  heap (creation rest rpc l w).2 = heap w
  ∧ ∃ later, sent (creation rest rpc l w).2 = sent w ++ later
             ∧ Forall (λ rq, header_image_sent rq = json k) later.
Proof.
  unfold object_at. intros Hk Ht. unfold creation. run.
  repeat (case_match; simpl in *; simplify_eq);
    try (split; [done|]; exists []; rewrite app_nil_r; by split).
  all: split; [done|]; eexists; (split; [done|]); (constructor; [|done]); simpl.
  all: rewrite lookup_omap, ?Hk.
  all: repeat (rewrite lookup_insert_ne by done).
  all: rewrite ?lookup_insert_eq, ?Hk; simpl.
  all: destruct k; simpl in *; done.
Qed.

Lemma creation_heap l (w : World B) : heap (creation rest rpc l w).2 = heap w.
Proof.
  unfold creation. run.
  repeat (case_match; simpl in *; simplify_eq); done.
Qed.

(** C9: when [eventData.headerImageFile] is set and the upload succeeds
    (the user is logged in, the upload reports no error and answers a key),
    the caller's object has its [header_image] overwritten with that key
    and is otherwise as before, the upload is the first request sent, and
    every request after it (the creation of the event) carries the key;
    when no [headerImageFile] is set, no object is written to. *)
Theorem createEvent_header_image fileName l (w : World B) :
  let ed := object_at w l in
  let file := default VUndef (ed !! "headerImageFile") in
  let resp := (storage_upload "event-header-images" fileName file "image/png" (backend w)).1 in
  let key := get_opt (data resp) "Key" in
  let w' := (createEvent rest rpc storage_upload fileName l w).2 in
  (truthy file = true → truthy (user (authStore w)) = true →
   truthy (error resp) = false → truthy key = true →
     object_at w' l = <["header_image" := key]> ed
     ∧ ∃ later, sent w' = sent w ++ Upload "event-header-images" fileName file "image/png" :: later
                ∧ Forall (λ rq, header_image_sent rq = json key) later)
  ∧ (truthy file = false → heap w' = heap w).
Proof.
  simpl. rewrite createEvent_creation. split.
  - intros Hfile Hu He Hk. unfold object_at in *. run. rewrite Hu. simpl. rewrite Hfile.
    destruct (storage_upload _ _ _ _ _) as [r b] eqn:Hup. simpl in *. rewrite He.
    assert (truthy (data r) = true) as Hd by (by destruct (data r)).
    rewrite Hd, Hk. simpl.
    match goal with
    | |- context [creation rest rpc l ?w1] =>
        destruct (creation_frame l (get_opt (data r) "Key") w1) as (Hh & later & Hs & Hall);
          [ unfold object_at; simpl; rewrite lookup_insert_eq; simpl;
            by rewrite lookup_insert_eq | done | ]
    end.
    match goal with
    | |- context [creation rest rpc l ?w1] =>
        destruct (creation rest rpc l w1) as [[e|c] w2] eqn:Hc
    end; simpl in *.
    + rewrite Hh. simpl. rewrite lookup_insert_eq. split; [done|].
      exists later. split; [|done]. by rewrite Hs, <- app_assoc.
    + destruct (truthy c); simpl.
      all: rewrite Hh; simpl; rewrite lookup_insert_eq; (split; [done|]).
      all: exists later; (split; [|done]); by rewrite Hs, <- app_assoc.
  - intros Hfile. unfold object_at in *. run.
    destruct (negb (truthy (user (authStore w)))); [done|]. rewrite Hfile.
    pose proof (creation_heap l w) as Hh.
    destruct (creation rest rpc l w) as [[e|c] w2]; simpl in *; [done|].
    by destruct (truthy c).
Qed.

(** With no event to show, the request succeeds with an empty list and
    [fetchEvents] throws on reading [events[0].datetime]. *)
Lemma fetchEvents_no_events now tz (w : World B) :
  let resp := (rest (fetchEvents_query now) (backend w)).1 in
  truthy (error resp) = false → data resp = VArr [] →
  (fetchEvents rest now tz w).1
  = inl (TypeError "Cannot read properties of undefined (reading 'datetime')").
Proof.
  cbv zeta. intros He Hd. rewrite fetchEvents_unfold. cbv zeta. by rewrite He, Hd.
Qed.

(** [fetchUserEvents] sends its request whoever the user is, also when
    there is none. *)
Lemma fetchUserEvents_sends now tz (w : World B) :
  sent (fetchUserEvents rest now tz w).2 = sent w ++ [Rest (fetchUserEvents_query now w)].
Proof.
  rewrite fetchUserEvents_unfold. cbv zeta.
  destruct (truthy (error _)); [done|]. by destruct (data _).
Qed.

End AnyBackend.
End ServiceFacts.

(** ** The services on the tables *)

Module PgFacts.
Import Services Observations Pg.

#[local] Instance key_le_total : Total key_le.
Proof. intros [x|] [y|]; simpl; auto. destruct (Z.le_ge_cases x y); auto. Qed.

#[local] Instance ordered_total c asc : Total (ordered c asc).
Proof. intros x y. unfold ordered. destruct asc; apply key_le_total. Qed.

(** A response without an error was served from the tables. *)
Lemma rest_served q db :
  truthy (error (rest q db).1) = false →
  ∃ db0, rest q db = serve q db0
         ∧ tables db0 = tables db ∧ relations db0 = relations db
         ∧ triggers db0 = triggers db ∧ session db0 = session db.
Proof.
  unfold rest. destruct (outages db) as [|e es] eqn:Ho.
  - intros _. exists db. done.
  - destruct (truthy e) eqn:He; simpl; [congruence|]. intros _. eexists. split; [done|]. done.
Qed.

Lemma serve_get q db : q_method q = GET → serve q db = run_select q db.
Proof. unfold serve. by intros ->. Qed.

Lemma serve_head q db : q_method q = HEAD → serve q db = run_select q db.
Proof. unfold serve. by intros ->. Qed.

Lemma failed_error m : truthy (error (failed m)) = true.
Proof. done. Qed.

Lemma results_spec db fs tbl sel rows l :
  results db fs tbl sel rows = Some l →
  Forall (λ ro, ro.1 ∈ rows ∧ project_all db fs tbl sel ro.1 = Kept ro.2) l.
Proof.
  revert l. induction rows as [|r rows IH]; simpl; intros l Hl.
  - by simplify_eq.
  - destruct (project_all db fs tbl sel r) eqn:Hp; [done | |].
    + eapply Forall_impl; [by apply IH|]. intros [r' o'] [? ?]; split; [by right|done].
    + destruct (results db fs tbl sel rows) as [l'|]; [|done]. simpl in Hl. simplify_eq.
      constructor; [split; [by left|done]|].
      eapply Forall_impl; [by apply IH|]. intros [r' o'] [? ?]; split; [by right|done].
Qed.

(** When no item of the [select] can drop or reject a row, every row has a
    result. *)
Lemma results_total db fs tbl sel rows f :
  (∀ r, project_all db fs tbl sel r = Kept (f r)) →
  results db fs tbl sel rows = Some ((λ r, (r, f r)) <$> rows).
Proof.
  intros Hf. induction rows as [|r rows IH]; simpl; [done|].
  by rewrite Hf, IH.
Qed.

(** A [select] of rows that reports no error answers the objects built
    from the rows of the table that pass the filters, in the order asked
    for. *)
Lemma run_select_rows q db :
  q_shape q = Rows → q_method q = GET →
  truthy (error (run_select q db).1) = false →
  ∃ rows l,
    tables db !! q_table q = Some rows
    ∧ results db (q_filters q) (q_table q) (q_select q)
              (List.filter (keeps (top_filters (q_filters q))) rows) = Some l
    ∧ data (run_select q db).1 = VArr (VObj <$> (snd <$> sorted (q_order q) l)).
Proof.
  intros Hs Hm. unfold run_select.
  destruct (tables db !! q_table q) as [rows|] eqn:Ht; [|done].
  destruct (results _ _ _ _ _) as [l|] eqn:Hl; [|done].
  intros _. exists rows, l. split; [done|]. split; [done|].
  unfold respond. by rewrite Hs, Hm.
Qed.

(** An embedded relation adds its alias and nothing else. *)
Lemma project_embed db fs tbl r alias rel inner sub acc o :
  project db fs tbl r (SEmbed alias rel inner sub) acc = Kept o →
  ∃ x, o = <[alias := x]> acc ∧ x ≠ VUndef.
Proof.
  simpl. destruct (relations db !! (tbl, rel)) as [R|]; [|done].
  destruct (collect _) as [objs|]; [|done].
  destruct (rel_card R), objs, inner; intros; simplify_eq; eauto.
Qed.

Lemma column_Some r c v : column r c = v → v ≠ VNull → r !! c = Some v.
Proof. unfold column. destruct (r !! c); simpl; congruence. Qed.

Lemma holds_not_eq_true r c :
  holds (FNot c "eq" (VBool true)) r = true → r !! c = Some (VBool false).
Proof.
  unfold holds, cond. simpl. intros H. apply column_Some; [|done].
  destruct (column r c) as [| |[]| | | | | | | |]; done.
Qed.

Lemma holds_gt_iso r c t0 :
  holds (FGt c (VIso t0)) r = true → ∃ t, r !! c = Some (VIso t) ∧ t0 < t.
Proof.
  unfold holds, cond. simpl. intros H.
  destruct (column r c) as [| | | | |t| | | | |] eqn:Hc; try done.
  exists t. split; [by apply column_Some|].
  simpl in H. destruct (t0 <? t) eqn:Hlt; [lia|done].
Qed.

Lemma mapE_Forall2 f l ys : mapE f l = inr ys → Forall2 (λ x y, f x = inr y) l ys.
Proof.
  revert ys. induction l as [|x l IH]; simpl; intros ys H.
  - simplify_eq. constructor.
  - destruct (f x) eqn:Hx; [done|]. destruct (mapE f l); [done|]. simplify_eq.
    constructor; [done|]. by apply IH.
Qed.

Lemma array_map_inv f a v :
  array_map f a = inr v → ∃ l ys, a = VArr l ∧ v = VArr ys ∧ Forall2 (λ x y, f x = inr y) l ys.
Proof.
  destruct a; try done. simpl. destruct (mapE f l) eqn:Hm; [done|].
  intros [= <-]. eexists _, _. split; [done|]. split; [done|]. by apply mapE_Forall2.
Qed.

(** Rows in the order of their timestamps have their instants in order. *)
Lemma sorted_instants c (L : list (gmap string Val * gmap string Val)) :
  Sorted (ordered c true) L →
  Forall (λ ro, ∃ t, column ro.1 c = VIso t) L →
  Sorted Z.le ((λ ro, default 0 (sort_key (column ro.1 c))) <$> L).
Proof.
  induction 1 as [|x L HS IH Hd]; intros HF; simpl; [constructor|].
  apply Forall_cons in HF as [[t Ht] HF]. constructor; [by apply IH|].
  destruct Hd as [|y L Hxy]; simpl; constructor.
  apply Forall_cons in HF as [[t' Ht'] _].
  unfold ordered in Hxy. rewrite Ht, Ht' in Hxy |- *. done.
Qed.

(** The rows [select] found for [fetchEvents]: what the filters and the
    projection leave of a table row. *)
Lemma fetchEvents_row db now rows r o :
  r ∈ List.filter (keeps (top_filters (q_filters (fetchEvents_query now)))) rows →
  project_all db (q_filters (fetchEvents_query now)) "events"
              (q_select (fetchEvents_query now)) r = Kept o →
  ∃ t, column r "datetime" = VIso t
       ∧ o !! "is_cancelled" = Some (VBool false)
       ∧ o !! "is_ended" = Some (VBool false)
       ∧ o !! "datetime" = Some (VIso t)
       ∧ now - 1 * hour < t.
Proof.
  intros Hin Hp. apply list_elem_of_In, filter_In in Hin as [_ Hk].
  change (top_filters _) with
    [FNot "is_cancelled" "eq" (VBool true); FNot "is_ended" "eq" (VBool true);
     FGt "datetime" (VIso (now - 1 * hour))] in Hk.
  simpl in Hk. rewrite !andb_true_iff in Hk. destruct Hk as (Hc & He & Hd & _).
  apply holds_not_eq_true in Hc, He. apply holds_gt_iso in Hd as (t & Hd & Hlt).
  unfold project_all in Hp. simpl q_select in Hp. cbn [foldl and_then] in Hp.
  change (project _ _ _ r SStar ∅) with (Kept (r ∪ ∅)) in Hp. cbn [and_then] in Hp.
  apply project_embed in Hp as (x & -> & _).
  exists t. rewrite !lookup_insert_ne by done. rewrite !lookup_union_l' by (by eexists).
  unfold column. rewrite Hd. done.
Qed.

(** C1: what [fetchEvents] returns is a list of events, none cancelled,
    none ended, each with a [datetime] later than one hour before [now],
    and the instants of these are in non-decreasing order. *)
Theorem fetchEvents_upcoming now tz (w w' : World Database) evs :
  fetchEvents rest now tz w = (inr evs, w') →
  ∃ l ts, evs = VArr l ∧ Forall2 (upcoming now tz) l ts ∧ Sorted Z.le ts.
Proof.
  rewrite ServiceFacts.fetchEvents_unfold. cbv zeta.
  destruct (truthy (error _)) eqn:He; [done|].
  destruct (negb _); [done|]. destruct (first _); [done|]. destruct (get _ _); [done|].
  intros [= Hmap _].
  destruct (rest_served _ _ He) as (db0 & Hserve & Ht & Hr & _).
  rewrite Hserve, (serve_get (fetchEvents_query now) db0 eq_refl) in He, Hmap.
  destruct (run_select_rows (fetchEvents_query now) db0 eq_refl eq_refl He)
    as (rows & l & _ & Hl & Hdata).
  rewrite Hdata in Hmap. apply array_map_inv in Hmap as (l1 & ys & [= <-] & -> & Hmap).
  apply results_spec in Hl.
  change (sorted _ l) with (merge_sort (ordered "datetime" true) l) in Hmap.
  pose proof (Sorted_merge_sort (ordered "datetime" true) l) as Hsorted.
  assert (Forall (λ ro, ro.1 ∈ List.filter (keeps (top_filters (q_filters (fetchEvents_query now)))) rows
                        ∧ project_all db0 (q_filters (fetchEvents_query now)) "events"
                            (q_select (fetchEvents_query now)) ro.1 = Kept ro.2)
                 (merge_sort (ordered "datetime" true) l)) as HL.
  { rewrite merge_sort_Permutation. exact Hl. }
  revert Hmap Hsorted HL. generalize (merge_sort (ordered "datetime" true) l). clear.
  intros L Hmap Hsorted HL.
  exists ys, ((λ ro, default 0 (sort_key (column ro.1 "datetime"))) <$> L).
  split; [done|]. split.
  - revert ys Hmap. clear Hsorted. induction L as [|[r o] L IH]; intros ys Hmap.
    + inversion Hmap. constructor.
    + rewrite !fmap_cons in Hmap. inversion Hmap as [|? y ? ys' Hy Hys]; subst.
      apply Forall_cons in HL as [[Hin Hp] HL]. simpl in Hin, Hp.
      destruct (fetchEvents_row _ _ _ _ _ Hin Hp) as (t & Hcol & Hc & He & Hd & Hlt).
      simpl. constructor; [|by apply IH].
      unfold parse_datetime in Hy. simpl in Hy. rewrite Hd in Hy. simpl in Hy.
      injection Hy as <-. rewrite Hcol. simpl.
      eexists. split; [done|]. rewrite !lookup_insert_ne by done.
      rewrite lookup_insert_eq. done.
  - apply sorted_instants; [done|].
    eapply Forall_impl; [exact HL|]. intros [r o] [Hin Hp].
    destruct (fetchEvents_row _ _ _ _ _ Hin Hp) as (t & Hcol & _). eauto.
Qed.

(** What an embedding answers does not depend on the name it is asked
    under, nor on filters that are not on the embedded relation. *)
Lemma project_embed_value db fs tbl r alias alias' rel inner sub acc o :
  embedded_filters rel fs = [] →
  project db fs tbl r (SEmbed alias rel inner sub) acc = Kept o →
  ∃ x, o = <[alias := x]> acc ∧ x ≠ VUndef
       ∧ project db [] tbl r (SEmbed alias' rel inner sub) ∅ = Kept {[ alias' := x ]}.
Proof.
  simpl. intros ->. destruct (relations db !! (tbl, rel)) as [R|]; [|done].
  destruct (collect _) as [objs|]; [|done].
  destruct (rel_card R), objs, inner; intros; simplify_eq; eexists;
    (split; [reflexivity|]); (split; [done|]); by rewrite insert_empty.
Qed.

Lemma joined_group_pair_embed db fs r alias acc o :
  embedded_filters "event_group_pairs" fs = [] →
  project db fs "events" r (group_pair alias) acc = Kept o →
  ∃ x, o = <[alias := x]> acc ∧ x ≠ VUndef ∧ joined_group_pair db r = Some x.
Proof.
  intros Hfs Hp.
  apply (project_embed_value _ _ _ _ _ "group_pair") in Hp as (x & -> & Hx & Hp); [|done].
  exists x. split; [done|]. split; [done|].
  unfold joined_group_pair, group_pair. rewrite Hp. apply lookup_singleton_eq.
Qed.

(** The joined pair is read from the tables and the foreign keys only. *)
Lemma joined_group_pair_ext db db' r :
  tables db = tables db' → relations db = relations db' →
  joined_group_pair db r = joined_group_pair db' r.
Proof.
  intros Ht Hr. unfold joined_group_pair, group_pair. simpl. rewrite Ht, Hr. reflexivity.
Qed.



Lemma column_Some_iff r c v : v ≠ VNull → column r c = v ↔ r !! c = Some v.
Proof.
  intros Hv. unfold column. destruct (r !! c); simpl; split; congruence.
Qed.

Lemma holds_eq_num r c n : holds (FEq c (VNum n)) r = true ↔ r !! c = Some (VNum n).
Proof.
  rewrite <- column_Some_iff by done. unfold holds, cond. simpl.
  destruct (column r c) as [| | |m| | | | | | |]; simpl; try done.
  destruct (Z.eqb_spec m n); split; congruence.
Qed.

Lemma holds_eq_str r c s : holds (FEq c (VStr s)) r = true ↔ r !! c = Some (VStr s).
Proof.
  rewrite <- column_Some_iff by done. unfold holds, cond. simpl.
  destruct (column r c) as [| | | |s'| | | | | |]; simpl; try done.
  destruct (String.eqb_spec s' s); split; congruence.
Qed.

(** The rows the count query of [isRegisteredForEvent] counts. *)
Lemma counted_registration eventId uid r :
  keeps [FEq "event_id" (VNum eventId); FEq "user_id" (VStr uid)] r = true
  ↔ r !! "event_id" = Some (VNum eventId) ∧ r !! "user_id" = Some (VStr uid).
Proof.
  unfold keeps. simpl. rewrite andb_true_r, andb_true_iff.
  by rewrite holds_eq_num, holds_eq_str.
Qed.

Lemma length_filter_pos {A} (f : A → bool) (l : list A) :
  negb (Z.of_nat (length (List.filter f l)) =? 0) = true ↔ ∃ x, x ∈ l ∧ f x = true.
Proof.
  rewrite negb_true_iff, Z.eqb_neq. split.
  - destruct (List.filter f l) as [|x l'] eqn:Hf; [done|]. intros _.
    exists x. rewrite list_elem_of_In. apply filter_In. rewrite Hf. by left.
  - intros (x & Hx & Hfx).
    assert (In x (List.filter f l)) as Hin by (apply filter_In; by rewrite <- list_elem_of_In).
    destruct (List.filter f l); [done|]. simpl. lia.
Qed.

(** C8: without a user id, [isRegisteredForEvent] answers [false] and
    sends nothing.  For the user [uid] it sends its count query, once; if
    that reports an error the error is thrown, and otherwise the answer
    says whether the registrations hold a row for [uid] and the event. *)
Theorem isRegisteredForEvent_spec eventId (w : World Database) :
  (truthy (user_id w) = false → isRegisteredForEvent rest eventId w = (inr false, w))
  ∧ (∀ uid regs,
       user_id w = VStr uid → uid ≠ "" →
       tables (backend w) !! "event_registrations" = Some regs →
       let q := isRegistered_query eventId w in
       let resp := (rest q (backend w)).1 in
       ∃ res, isRegisteredForEvent rest eventId w = (res, after (Rest q) (rest q (backend w)).2 w)
              ∧ if truthy (error resp) then res = inl (ApiError (error resp))
                else ∃ b : bool, res = inr b ∧ (b = true ↔ registered regs uid eventId)).
Proof.
  split.
  - intros Hu. rewrite ServiceFacts.isRegisteredForEvent_unfold. by rewrite Hu.
  - intros uid regs Hu Hne Hregs. cbv zeta.
    rewrite ServiceFacts.isRegisteredForEvent_unfold. cbv zeta.
    assert (truthy (user_id w) = true) as ->.
    { rewrite Hu. simpl. apply negb_true_iff. by apply String.eqb_neq. }
    simpl negb. cbv iota.
    destruct (truthy (error _)) eqn:He; [eauto|].
    eexists. split; [done|]. eexists. split; [done|].
    destruct (rest_served _ _ He) as (db0 & Hserve & Ht & _).
    rewrite Hserve, (serve_head (isRegistered_query eventId w) db0 eq_refl).
    unfold run_select. change (q_table _) with "event_registrations".
    rewrite Ht, Hregs.
    rewrite (results_total _ _ _ _ _ (λ r, <["id" := column r "id"]> ∅)) by done.
    unfold isRegistered_query at 1 2 3. rewrite Hu. simpl.
    rewrite !length_fmap, length_filter_pos. unfold registered.
    split; intros (r & Hin & Hr); exists r; (split; [done|]); by apply counted_registration.
Qed.

(** A [maybeSingle] response that carries a row was built from exactly
    one. *)
Lemma respond_single q objs :
  q_shape q = MaybeSingle →
  truthy (error (respond q objs)) = false → truthy (data (respond q objs)) = true →
  ∃ o, objs = [o] ∧ data (respond q objs) = VObj o.
Proof.
  unfold respond. intros ->. destruct objs as [|o [|o' objs]]; simpl; try done.
  destruct (q_method q); simpl; try done; eauto.
Qed.

Lemma updateProfile_query_fields (w : World Database) p :
  updateProfile_query w p =
  {| q_table := "profiles"; q_method := PATCH; q_select := [SStar];
     q_filters := [FEq "user_id" (template (user_id w))];
     q_order := None; q_count := false; q_shape := MaybeSingle;
     q_body := json (VObj (list_to_map [ ("full_name", fullName p);
                                         ("description", description p) ])) |}.
Proof.
  unfold updateProfile_query, supabase.match_. by rewrite map_to_list_singleton.
Qed.

Lemma sent_columns_lookup p k :
  sent_columns p !! k =
  if decide (k = "full_name") then
    match fullName p with VUndef => None | x => Some (json x) end
  else if decide (k = "description") then
    match description p with VUndef => None | x => Some (json x) end
  else None.
Proof.
  unfold sent_columns. rewrite lookup_omap. simpl.
  destruct (decide (k = "full_name")) as [->|].
  { rewrite lookup_insert_eq. simpl. by destruct (fullName p). }
  rewrite lookup_insert_ne by done.
  destruct (decide (k = "description")) as [->|].
  { rewrite lookup_insert_eq. simpl. by destruct (description p). }
  by rewrite lookup_insert_ne by done.
Qed.

(** Writing columns other than [user_id] does not change which rows the
    filter on [user_id] selects. *)
Lemma updated_rows_filter (body : gmap string Val) v rows :
  body !! "user_id" = None →
  List.filter (keeps [FEq "user_id" v])
    (map (λ r, if keeps [FEq "user_id" v] r then body ∪ r else r) rows)
  = map (λ r, body ∪ r) (List.filter (keeps [FEq "user_id" v]) rows).
Proof.
  intros Hb.
  assert (∀ r, keeps [FEq "user_id" v] (body ∪ r) = keeps [FEq "user_id" v] r) as Hsame.
  { intros r. unfold keeps, holds, cond, column. simpl.
    by rewrite lookup_union_r by done. }
  induction rows as [|r rows IH]; [done|]. cbn [map List.filter].
  destruct (keeps [FEq "user_id" v] r) eqn:Hr; cbn [map List.filter].
  - by rewrite Hsame, Hr, IH.
  - by rewrite Hr, IH.
Qed.

(** A successful [updateProfile] request wrote the sent columns into the
    one row of the user. *)
Lemma run_update_profile (w : World Database) p db :
  let q := updateProfile_query w p in
  truthy (error (run_update q db).1) = false →
  truthy (data (run_update q db).1) = true →
  ∃ rows r0,
    tables db !! "profiles" = Some rows
    ∧ List.filter (keeps [FEq "user_id" (template (user_id w))]) rows = [r0]
    ∧ tables (run_update q db).2 !! "profiles"
      = Some (map (λ r, if keeps [FEq "user_id" (template (user_id w))] r
                        then sent_columns p ∪ r else r) rows).
Proof.
  cbv zeta. rewrite updateProfile_query_fields. unfold run_update.
  cbn [q_table q_body q_filters q_select q_order json].
  destruct (tables db !! "profiles") as [rows|] eqn:Ht; [|done].
  fold (sent_columns p).
  change (top_filters _) with [FEq "user_id" (template (user_id w))].
  rewrite (results_total _ _ _ _ _ (λ r, r ∪ ∅)) by done.
  cbn [sorted fst snd]. intros He Hd.
  pose proof Hd as Hd'. apply respond_single in Hd' as (o & Ho & _); [|done|done].
  rewrite He. cbn [snd with_tables tables]. rewrite lookup_insert_eq.
  destruct (List.filter _ rows) as [|r0 [|r1 rest0]] eqn:Hf; try done.
  by exists rows, r0.
Qed.

Lemma serve_updateProfile (w : World Database) p db :
  serve (updateProfile_query w p) db = run_update (updateProfile_query w p) db.
Proof. unfold serve. by rewrite updateProfile_query_fields. Qed.

(** A successful [readProfile] request read the one row of the user. *)
Lemma run_select_profile (w : World Database) db :
  let q := readProfile_query w in
  truthy (error (run_select q db).1) = false →
  truthy (data (run_select q db).1) = true →
  ∃ rows r1,
    tables db !! "profiles" = Some rows
    ∧ List.filter (keeps [FEq "user_id" (template (user_id w))]) rows = [r1]
    ∧ profile_of (data (run_select q db).1)
      = {| email := column r1 "email"; fullName := column r1 "full_name";
           description := column r1 "description" |}.
Proof.
  cbv zeta. unfold run_select. change (q_table _) with "profiles".
  destruct (tables db !! "profiles") as [rows|] eqn:Ht; [|done].
  change (top_filters _) with [FEq "user_id" (template (user_id w))].
  rewrite (results_total _ _ _ _ _
             (λ r, <["email" := column r "email"]>
                     (<["description" := column r "description"]>
                        (<["full_name" := column r "full_name"]> ∅)))) by done.
  cbn [sorted fst snd]. intros He Hd.
  pose proof Hd as Hd'. apply respond_single in Hd' as (o & Ho & ->); [|done|done].
  destruct (List.filter _ rows) as [|r1 [|r2 rest0]] eqn:Hf; try done.
  exists rows, r1. split; [done|]. split; [done|].
  simpl in Ho. injection Ho as <-. unfold profile_of. simpl.
  rewrite lookup_insert_eq, (lookup_insert_ne _ "email") by done.
  rewrite (lookup_insert_ne _ "email"), (lookup_insert_ne _ "description") by done.
  by rewrite !lookup_insert_eq.
Qed.

(** What a successful [readProfile] read. *)
Lemma readProfile_reads (w w' : World Database) q :
  readProfile rest w = (inr q, w') →
  ∃ rows r1,
    tables (backend w) !! "profiles" = Some rows
    ∧ List.filter (keeps [FEq "user_id" (template (user_id w))]) rows = [r1]
    ∧ q = {| email := column r1 "email"; fullName := column r1 "full_name";
             description := column r1 "description" |}.
Proof.
  rewrite ServiceFacts.readProfile_unfold. cbv zeta.
  destruct (negb (logged_in _)); [done|].
  destruct (truthy (error _)) eqn:He; [done|].
  destruct (truthy (data _)) eqn:Hd; [|done]. cbn [negb].
  intros Hq. apply (f_equal fst) in Hq. cbn [fst] in Hq. injection Hq as <-.
  destruct (rest_served _ _ He) as (db1 & Hserve & Ht & _).
  rewrite Hserve, (serve_get (readProfile_query w) db1 eq_refl) in He, Hd |- *.
  destruct (run_select_profile _ db1 He Hd) as (rows & r1 & Hrows & Hf & ->).
  exists rows, r1. rewrite <- Ht.
  split; [exact Hrows|]. split; [exact Hf|]. reflexivity.
Qed.

(** What a successful [updateProfile] wrote. *)
Lemma updateProfile_writes p (w w' : World Database) r :
  updateProfile rest p w = (inr r, w') →
  ∃ rows r0,
    tables (backend w) !! "profiles" = Some rows
    ∧ List.filter (keeps [FEq "user_id" (template (user_id w))]) rows = [r0]
    ∧ tables (backend w') !! "profiles"
      = Some (map (λ r, if keeps [FEq "user_id" (template (user_id w))] r
                        then sent_columns p ∪ r else r) rows)
    ∧ user_id w' = user_id w.
Proof.
  rewrite ServiceFacts.updateProfile_unfold. cbv zeta.
  destruct (negb (logged_in w)); [done|].
  destruct (negb (truthy (fullName p))); [done|].
  destruct (truthy (error _)) eqn:He; [done|].
  destruct (truthy (data _)) eqn:Hd; [|done]. cbn [negb].
  intros Hw. apply (f_equal snd) in Hw. cbn [snd] in Hw. subst w'.
  destruct (rest_served _ _ He) as (db0 & Hserve & Ht & _).
  rewrite Hserve, serve_updateProfile in He, Hd |- *.
  destruct (run_update_profile w p db0 He Hd) as (rows & r0 & Hrows & Hf & Hafter).
  exists rows, r0. rewrite <- Ht.
  split; [exact Hrows|]. split; [exact Hf|]. split; [exact Hafter|]. reflexivity.
Qed.

(** C5, as the code has it: after a successful [updateProfile p] for a
    profile with the name [name], a successful [readProfile] yields the
    name [name]; it yields the description of [p] when [p] has one, and
    when [p] has none, the description that the user's row held before
    the update. *)
Theorem profile_roundtrip p name (w w1 w2 : World Database) r q :
  fullName p = VStr name →
  (description p = VUndef ∨ ∃ d, description p = VStr d) →
  updateProfile rest p w = (inr r, w1) →
  readProfile rest w1 = (inr q, w2) →
  fullName q = VStr name
  ∧ ∃ rows r0,
      tables (backend w) !! "profiles" = Some rows
      ∧ List.filter (keeps [FEq "user_id" (template (user_id w))]) rows = [r0]
      ∧ description q = match description p with
                        | VUndef => column r0 "description"
                        | d => d
                        end.
Proof.
  intros Hname Hdesc Hupd Hread.
  apply updateProfile_writes in Hupd as (rows & r0 & Hrows & Hf & Hafter & Hu).
  apply readProfile_reads in Hread as (rows1 & r1 & Hrows1 & Hf1 & ->).
  rewrite Hafter in Hrows1. injection Hrows1 as <-.
  rewrite Hu, updated_rows_filter, Hf in Hf1 by (by rewrite sent_columns_lookup).
  injection Hf1 as <-. cbn [fullName description]. unfold column.
  split.
  - rewrite lookup_union_l' by (rewrite sent_columns_lookup, Hname; by eexists).
    by rewrite sent_columns_lookup, Hname.
  - exists rows, r0. split; [done|]. split; [done|].
    destruct Hdesc as [Hd | [d Hs]].
    + rewrite lookup_union_r by (by rewrite sent_columns_lookup, Hd). by rewrite Hd.
    + rewrite lookup_union_l' by (rewrite sent_columns_lookup, Hs; by eexists).
      by rewrite sent_columns_lookup, Hs.
Qed.

End PgFacts.

(** ** The trigger script *)

Module TriggerFacts.
Import Triggers.

(** [inject_user_id] on a row: the session's user id is put where there is
    none, and a row that has one is returned as it is. *)
Lemma inject_user_id_unset uid r db :
  is_null (column r "user_id") = true →
  inject_user_id uid (Assigned r) db = inr (Assigned (<["user_id" := uid]> r), db).
Proof. unfold inject_user_id. simpl. by intros ->. Qed.

Lemma inject_user_id_set uid r db :
  is_null (column r "user_id") = false →
  inject_user_id uid (Assigned r) db = inr (Assigned r, db).
Proof. unfold inject_user_id. simpl. by intros ->. Qed.

(** Bound [for each row], the function stamps the row that is stored. *)
Lemma insert_row_level version uid r db :
  is_null (column r "user_id") = true →
  insert_into version
              [create_trigger "on_registration_insert_inject_user_id" Before
                 "event_registrations" (Some ForEachRow) inject_user_id]
              uid "event_registrations" [r] db
  = inr ([<["user_id" := uid]> r],
         <["event_registrations" :=
             default [] (db !! "event_registrations") ++ [<["user_id" := uid]> r]]> db).
Proof.
  intros Hr. unfold insert_into. simpl. unfold inject_user_id. simpl. by rewrite Hr.
Qed.

Lemma run_rows_nil uid rows db : run_rows [] uid rows db = inr (rows, db).
Proof. induction rows as [|r rows IH]; simpl; [done|]. by rewrite IH. Qed.

Lemma run_after_nil uid rows db : run_after [] uid rows db = inr db.
Proof. induction rows as [|r rows IH]; simpl; done. Qed.

(** As the script binds it, without [for each row], the function runs once
    for the statement with no row in [NEW]: on a server before version 11
    the insert fails, and from version 11 on the rows are stored as they
    were sent, whatever their [user_id]. *)
Lemma insert_statement_level version uid table rows db :
  table = "event_registrations" ∨ table = "votes" →
  insert_into version script uid table rows db
  = if version <? 11 then inl "record 'new' is not assigned yet"
    else inr (rows, <[table := default [] (db !! table) ++ rows]> db).
Proof.
  assert (∀ t, tg_fn t = inject_user_id →
               run [t] uid (statement_new version) db
               = if version <? 11 then inl "record 'new' is not assigned yet"
                 else inr db) as Hrun.
  { intros t Ht. unfold statement_new. simpl. rewrite Ht. by destruct (version <? 11). }
  intros [-> | ->]; unfold insert_into.
  - change (filter (λ t, fires Before ForEachStatement "event_registrations" t) script)
      with [on_registration_insert_inject_user_id].
    change (filter (λ t, fires Before ForEachRow "event_registrations" t) script)
      with (@nil Trigger).
    change (filter (λ t, fires After ForEachRow "event_registrations" t) script)
      with (@nil Trigger).
    change (filter (λ t, fires After ForEachStatement "event_registrations" t) script)
      with (@nil Trigger).
    rewrite Hrun by done. destruct (version <? 11); [done|].
    by rewrite run_rows_nil, run_after_nil.
  - change (filter (λ t, fires Before ForEachStatement "votes" t) script)
      with [on_vote_insert_inject_user_id].
    change (filter (λ t, fires Before ForEachRow "votes" t) script) with (@nil Trigger).
    change (filter (λ t, fires After ForEachRow "votes" t) script) with (@nil Trigger).
    change (filter (λ t, fires After ForEachStatement "votes" t) script) with (@nil Trigger).
    rewrite Hrun by done. destruct (version <? 11); [done|].
    by rewrite run_rows_nil, run_after_nil.
Qed.

(** C2 on the code: the two [inject_user_id] triggers are statement-level
    ones.  For the session of user [u1], an insert into
    [event_registrations] (and one into [votes]) of a row without a
    [user_id] is answered with the row as it was sent, which is what the
    table then holds: its [user_id] is not set.  (On a server before
    version 11 the insert fails in the trigger and nothing is stored.) *)
Theorem inject_user_id_statement_level :
  let row : gmap string Val := {[ "event_id" := VNum 1 ]} in
  let q table := supabase.from table |> supabase.insert (VObj row) in
  let db := Demo.database Demo.events in
  tg_level on_registration_insert_inject_user_id = ForEachStatement
  ∧ tg_level on_vote_insert_inject_user_id = ForEachStatement
  ∧ tg_level on_user_created_create_profile = ForEachRow
  ∧ Pg.session db = VStr "u1"
  ∧ (Pg.rest (q "event_registrations") db).1
    = {| data := VArr [VObj row]; error := VNull; count := None |}
  ∧ Pg.tables (Pg.rest (q "event_registrations") db).2 !! "event_registrations"
    = Some (Demo.registrations ++ [row])
  ∧ (Pg.rest (q "votes") db).1 = {| data := VArr [VObj row]; error := VNull; count := None |}
  ∧ Pg.tables (Pg.rest (q "votes") db).2 !! "votes" = Some [row]
  ∧ row !! "user_id" = None
  ∧ (Pg.rest (q "event_registrations") (Demo.old_server db)).1
    = Pg.failed "record 'new' is not assigned yet"
  ∧ (Pg.rest (q "votes") (Demo.old_server db)).1
    = Pg.failed "record 'new' is not assigned yet".
Proof. repeat split; vm_compute; reflexivity. Qed.

End TriggerFacts.

(** ** The services on the small database *)

Module DemoFacts.
Import Services Observations Pg Demo.

(** [fetchEvents] on the five events returns the two that are upcoming. *)
Example fetchEvents_demo :
  match (fetchEvents rest now "UTC" w0).1 with
  | inr (VArr l) => (λ e, get_opt e "id") <$> l
  | _ => []
  end = [VNum 2; VNum 1].
Proof. vm_compute. reflexivity. Qed.

Lemma fetchEvents_upcoming_witness :
  ∃ evs w', fetchEvents rest now "UTC" w0 = (inr evs, w')
            ∧ ∃ l ts, evs = VArr l ∧ Forall2 (upcoming now "UTC") l ts ∧ Sorted Z.le ts.
Proof.
  assert (returned (fetchEvents rest now "UTC" w0).1 = true) as Hret
    by (vm_compute; reflexivity).
  destruct (fetchEvents rest now "UTC" w0) as [[e|evs] w'] eqn:H; [discriminate Hret|].
  exists evs, w'. split; [reflexivity|].
  exact (PgFacts.fetchEvents_upcoming _ _ _ _ _ H).
Defined.

(** C3 on the code: when none of the events is upcoming, the query
    succeeds with an empty list, and [fetchEvents] throws a [TypeError]
    instead of returning the empty list; [fetchUserEvents] returns it. *)
Theorem fetchEvents_throws_on_empty_list :
  let w := world (database [event 3 (now + 4 * hour) (VBool true) (VBool false) VNull;
                            event 5 (now - 7 * hour) (VBool false) (VBool false) VNull]) ann in
  let resp := (rest (fetchEvents_query now) (backend w)).1 in
  error resp = VNull ∧ data resp = VArr []
  ∧ (fetchEvents rest now "UTC" w).1
    = inl (TypeError "Cannot read properties of undefined (reading 'datetime')")
  ∧ (fetchUserEvents rest now "UTC" w).1 = inr (VArr []).
Proof. repeat split; vm_compute; reflexivity. Qed.

(** C4 on the code: with no user in the store, [fetchUserEvents] raises
    no error of its own: it sends its request, filtered by the user id
    [undefined], and returns what the request answers, here no events. *)
Theorem fetchUserEvents_unauthenticated_sends :
  let w := world (database events) VUndef in
  let q := fetchUserEvents_query now w in
  q_filters q !! 0%nat = Some (FEq "event_registrations.user_id" (VStr "undefined"))
  ∧ sent (fetchUserEvents rest now "UTC" w).2 = [Rest q]
  ∧ (fetchUserEvents rest now "UTC" w).1 = inr (VArr []).
Proof. repeat split; vm_compute; reflexivity. Qed.

(** C5 as stated fails: updating with a profile that has no description
    and reading back yields the description stored before, not that of
    the profile. *)
Lemma profile_roundtrip_description_kept :
  let updated := updateProfile rest bob w0 in
  let read := readProfile rest updated.2 in
  updated.1 = inr {| email := VStr "ann@example.org"; fullName := VStr "Bob";
                     description := VStr "old" |}
  ∧ read.1 = inr {| email := VStr "ann@example.org"; fullName := VStr "Bob";
                    description := VStr "old" |}
  ∧ VStr "old" ≠ description bob.
Proof. repeat split; [vm_compute; reflexivity ..|discriminate]. Qed.

Lemma profile_roundtrip_witness :
  ∃ r w1 q w2,
    fullName bob = VStr "Bob"
    ∧ (description bob = VUndef ∨ ∃ d, description bob = VStr d)
    ∧ updateProfile rest bob w0 = (inr r, w1)
    ∧ readProfile rest w1 = (inr q, w2)
    ∧ fullName q = VStr "Bob"
    ∧ ∃ rows r0,
        tables (backend w0) !! "profiles" = Some rows
        ∧ List.filter (keeps [FEq "user_id" (template (user_id w0))]) rows = [r0]
        ∧ description q = match description bob with
                          | VUndef => column r0 "description"
                          | d => d
                          end.
Proof.
  assert (returned (updateProfile rest bob w0).1 = true) as Hu1 by (vm_compute; reflexivity).
  assert (returned (readProfile rest (updateProfile rest bob w0).2).1 = true) as Hr1
    by (vm_compute; reflexivity).
  destruct (updateProfile rest bob w0) as [[e|r] w1] eqn:Hu; [discriminate Hu1|].
  cbn [snd] in Hr1.
  destruct (readProfile rest w1) as [[e|q] w2] eqn:Hr; [discriminate Hr1|].
  exists r, w1, q, w2.
  split; [reflexivity|]. split; [left; reflexivity|].
  split; [reflexivity|]. split; [exact Hr|].
  exact (PgFacts.profile_roundtrip bob "Bob" w0 w1 w2 r q eq_refl (or_introl eq_refl) Hu Hr).
Defined.

Lemma updateProfile_rejects_missing_name_witness :
  (fullName nameless = VUndef ∨ fullName nameless = VStr "")
  ∧ ∃ msg, updateProfile rest nameless w0 = (inl (Error msg), w0)
           ∧ (logged_in w0 = true → msg = "Argument object is missing 'fullName' attribute").
Proof.
  split; [right; reflexivity|].
  apply (ServiceFacts.updateProfile_rejects_missing_name rest nameless w0).
  right; reflexivity.
Defined.

(** [updateProfile] on the small database: the store takes the profile the
    database answered. *)
Example updateProfile_store_demo :
  profile (authStore (updateProfile rest bob w0).2)
  = Some {| email := VStr "ann@example.org"; fullName := VStr "Bob"; description := VStr "old" |}
  ∧ profile (authStore (updateProfile rest nameless w0).2) = None.
Proof. split; vm_compute; reflexivity. Qed.

Lemma isRegisteredForEvent_spec_witness :
  let regs := registrations in
    user_id w0 = VStr "u1" ∧ "u1" ≠ ""
    ∧ tables (backend w0) !! "event_registrations" = Some regs
    ∧ registered regs "u1" 1
    ∧ (isRegisteredForEvent rest 1 w0).1 = inr true
    ∧ (isRegisteredForEvent rest 2 w0).1 = inr false
    ∧ isRegisteredForEvent rest 1 (world (database events) VUndef)
      = (inr false, world (database events) VUndef).
Proof.
  intros regs.
  assert (tables (backend w0) !! "event_registrations" = Some regs) as Hregs.
  { unfold w0, world, database, regs. cbn [backend tables list_to_map foldr uncurry fst snd].
    rewrite !lookup_insert_ne by discriminate. apply lookup_insert_eq. }
  assert (user_id w0 = VStr "u1") as Hu by reflexivity.
  assert ("u1" ≠ "") as Hne by discriminate.
  split; [exact Hu|]. split; [exact Hne|]. split; [exact Hregs|].
  pose proof (proj2 (PgFacts.isRegisteredForEvent_spec 1 w0) "u1" regs Hu Hne Hregs) as H1.
  pose proof (proj2 (PgFacts.isRegisteredForEvent_spec 2 w0) "u1" regs Hu Hne Hregs) as H2.
  pose proof (proj1 (PgFacts.isRegisteredForEvent_spec 1 (world (database events) VUndef)) eq_refl)
    as H3.
  cbv zeta in H1, H2.
  assert ((isRegisteredForEvent rest 1 w0).1 = inr true) as E1 by (vm_compute; reflexivity).
  assert ((isRegisteredForEvent rest 2 w0).1 = inr false) as E2 by (vm_compute; reflexivity).
  split; [|split; [exact E1|split; [exact E2|exact H3]]].
  destruct H1 as (res & Hres & Hcase). rewrite Hres in E1. cbn [fst] in E1. subst res.
  destruct (truthy (error _)); [discriminate Hcase|].
  destruct Hcase as (b & Hb & Hiff). injection Hb as <-. by apply Hiff.
Defined.

Lemma createEvent_header_image_witness :
  let w := creating true in
  let key := VStr "event-header-images/V1StGXR8" in
  let w' := (createEvent replay (λ fn params, replay (fn, params))
               (λ bucket path file ct, replay (bucket, path)) "V1StGXR8" 0 w).2 in
  object_at w 0 !! "header_image" = Some VUndef
  ∧ object_at w' 0 = <["header_image" := key]> (object_at w 0)
  ∧ (∃ later, sent w' = sent w ++ Upload "event-header-images" "V1StGXR8" (VFile "header.png")
                                         "image/png" :: later
              ∧ Forall (λ rq, header_image_sent rq = json key) later)
  ∧ heap (createEvent replay (λ fn params, replay (fn, params))
            (λ bucket path file ct, replay (bucket, path)) "V1StGXR8" 0 creating_plain).2
    = heap creating_plain.
Proof.
  cbv zeta.
  pose proof (ServiceFacts.createEvent_header_image replay (λ fn params, replay (fn, params))
                (λ bucket path file ct, replay (bucket, path)) "V1StGXR8" 0 (creating true)) as H.
  pose proof (ServiceFacts.createEvent_header_image replay (λ fn params, replay (fn, params))
                (λ bucket path file ct, replay (bucket, path)) "V1StGXR8" 0 creating_plain) as H'.
  cbv zeta in H, H'. destruct H as [H _]. destruct H' as [_ H'].
  split; [vm_compute; reflexivity|].
  split; [|split]; [| |apply H'; vm_compute; reflexivity].
  - refine (proj1 (H _ _ _ _)); vm_compute; reflexivity.
  - refine (proj2 (H _ _ _ _)); vm_compute; reflexivity.
Defined.

(** Both creation paths carry the key of the upload. *)
Example createEvent_demo :
  (λ w : World (list Response), header_image_sent <$> sent w)
    <$> [ (createEvent replay (λ fn params, replay (fn, params))
             (λ bucket path file ct, replay (bucket, path)) "V1StGXR8" 0 (creating true)).2;
          (createEvent replay (λ fn params, replay (fn, params))
             (λ bucket path file ct, replay (bucket, path)) "V1StGXR8" 0 (creating false)).2 ]
  = [ [VUndef; VStr "event-header-images/V1StGXR8"];
      [VUndef; VStr "event-header-images/V1StGXR8"] ].
Proof. vm_compute. reflexivity. Qed.

(** The joined pair on the small database: the first event has the pair
    of the groups A and B, the second has none. *)
Example joined_group_pair_demo :
  (λ x, (get_opt (get_opt x "groupA") "title", get_opt (get_opt x "groupB") "description"))
    <$> joined_group_pair (database events)
          (event 1 (now + 3 * hour) (VBool false) (VBool false) (VNum 10))
  = Some (VStr "A", VStr "descB")
  ∧ joined_group_pair (database events)
      (event 2 (now + 2 * hour) (VBool false) (VBool false) VNull) = Some VNull.
Proof. split; vm_compute; reflexivity. Qed.



(** The one event [ann] is registered for has a group pair; it is found
    under [event_group_pair], and [event_groups] is not there. *)
Example fetchUserEvents_demo :
  match (fetchUserEvents rest now "UTC" w0).1 with
  | inr (VArr [e]) =>
      (get_opt e "id", get_opt e "event_groups",
       get_opt (get_opt (get_opt e "event_group_pair") "groupA") "title")
  | _ => (VUndef, VUndef, VUndef)
  end = (VNum 1, VUndef, VStr "A").
Proof. vm_compute. reflexivity. Qed.

End DemoFacts.

(** ** More on the services, for every backend *)

Module ServiceExtras.
Import Services Observations MoreObservations.

Ltac run := ServiceFacts.run.

Section AnyBackend.
Context {B : Type}.
Variable rest : Query → B → Response * B.
Variable rpc : string → Val → B → Response * B.
Variable storage_upload : string → string → Val → string → B → Response * B.

(** X1: [fetchEvents] sends its one request in every case and touches
    neither the store nor any object.  An error of the request is thrown
    as it is and shown as a notification; a result without rows
    ([null]) is reported as "Failed to fetch events", thrown and shown;
    otherwise nothing is shown. *)
Theorem fetchEvents_failures now tz (w : World B) :
  let q := fetchEvents_query now in
  let r := (rest q (backend w)).1 in
  let out := fetchEvents rest now tz w in
  sent out.2 = sent w ++ [Rest q] ∧ authStore out.2 = authStore w ∧ heap out.2 = heap w
  ∧ (if truthy (error r) then
       out.1 = inl (ApiError (error r)) ∧ toasts out.2 = toasts w ++ [error r]
     else if truthy (data r) then toasts out.2 = toasts w
     else out.1 = inl (Error "Failed to fetch events")
          ∧ toasts out.2 = toasts w ++ [VStr "Failed to fetch events"]).
Proof.
  cbv zeta. rewrite ServiceFacts.fetchEvents_unfold. cbv zeta.
  destruct (truthy (error _)); [done|].
  destruct (truthy (data _)); simpl; [|done].
  destruct (first _); [done|]. by destruct (get _ _).
Qed.

(** [fetchEventById] written out. *)
Lemma fetchEventById_unfold tz eventId (w : World B) :
  fetchEventById rest tz eventId w =
  let q := fetchEventById_query eventId in
  let r := (rest q (backend w)).1 in
  (if truthy (error r) then inl (ApiError (error r))
   else if truthy (data r) then parse_datetime tz (data r)
   else inl (Error "Event with this ID does not exist"),
   after (Rest q) (rest q (backend w)).2 w).
Proof.
  unfold fetchEventById, fetchEventById_query, after, parse_datetime,
    timestamptzToTemporalZonedDateTime. run.
  destruct (rest _ (backend w)) as [r b]; simpl.
  destruct (truthy (error r)); [done|].
  destruct (truthy (data r)); simpl; [|done].
  destruct (get (data r) "datetime") as [|d]; [done|]. simpl.
  by destruct (Instant_from_toZonedDateTimeISO tz d).
Qed.

(** [registerForEvent] written out. *)
Lemma registerForEvent_unfold eventId groupId (w : World B) :
  registerForEvent rest eventId groupId w =
  if negb (truthy (user_id w)) then (inl (Error "User not logged in"), w)
  else
    let q := registerForEvent_query w eventId groupId in
    let r := (rest q (backend w)).1 in
    (if truthy (error r) then inl (ApiError (error r)) else inr (),
     after (Rest q) (rest q (backend w)).2 w).
Proof.
  unfold registerForEvent, registerForEvent_query, after, user_id. run.
  destruct (negb _); [done|].
  destruct (rest _ (backend w)) as [r b]; simpl.
  by destruct (truthy (error r)).
Qed.

(** X2: without a user id [registerForEvent] throws "User not logged in"
    and the world is as before (nothing is sent).  With one it sends a
    single insert into [event_registrations] that carries the user's id and
    the event, and the group exactly when one is given; the error of the
    insert is thrown, and without one the call returns. *)
Theorem registerForEvent_request eventId groupId (w : World B) :
  let q := registerForEvent_query w eventId groupId in
  let r := (rest q (backend w)).1 in
  let out := registerForEvent rest eventId groupId w in
  q_table q = "event_registrations" ∧ q_method q = POST
  ∧ get_opt (q_body q) "event_id" = VNum eventId
  ∧ get_opt (q_body q) "user_id" = json (user_id w)
  ∧ get_opt (q_body q) "group_id" = json groupId
  ∧ (if truthy (user_id w) then
       out.2 = after (Rest q) (rest q (backend w)).2 w
       ∧ out.1 = if truthy (error r) then inl (ApiError (error r)) else inr ()
     else out = (inl (Error "User not logged in"), w)).
Proof.
  cbv zeta. rewrite registerForEvent_unfold. cbv zeta.
  split; [done|]. split; [done|].
  unfold registerForEvent_query. simpl. rewrite !lookup_omap.
  rewrite (lookup_insert_ne _ "user_id" "event_id") by done.
  rewrite (lookup_insert_ne _ "user_id" "group_id"), (lookup_insert_ne _ "event_id" "group_id")
    by done.
  rewrite !lookup_insert_eq. simpl.
  split; [done|]. split; [by destruct (user_id w)|]. split; [by destruct groupId|].
  by destruct (truthy (user_id w)).
Qed.

(** X3: [readProfile] asks the database only for a user that is logged in
    with an email; it then sends its one request.  Its three failures are
    told apart: the guard, the error of the request thrown as it is, and
    "Fetching profile unsuccessful" when no row is answered.  It never
    writes the store. *)
Theorem readProfile_outcomes (w : World B) :
  let q := readProfile_query w in
  let r := (rest q (backend w)).1 in
  let out := readProfile rest w in
  authStore out.2 = authStore w
  ∧ (if logged_in w then
       sent out.2 = sent w ++ [Rest q]
       ∧ out.1 = if truthy (error r) then inl (ApiError (error r))
                 else if truthy (data r) then inr (profile_of (data r))
                 else inl (Error "Fetching profile unsuccessful")
     else out = (inl (Error "User is not logged in"), w)).
Proof.
  cbv zeta. rewrite ServiceFacts.readProfile_unfold. cbv zeta.
  destruct (logged_in w); simpl; [|done].
  destruct (truthy (error _)); [done|]. by destruct (truthy (data _)).
Qed.

(** X4: without a user [createEvent] throws "User is not logged in" after
    showing "Please log in first"; it sends nothing and writes to no
    object. *)
Theorem createEvent_unauthenticated fileName l (w : World B) :
  truthy (user (authStore w)) = false →
  createEvent rest rpc storage_upload fileName l w
  = (inl (Error "User is not logged in"), notified (VStr "Please log in first") w).
Proof. intros Hu. unfold createEvent. run. by rewrite Hu. Qed.

(** X5: when the upload of the header image fails, by an error or by
    answering no key, [createEvent] throws that error (or "Received no
    data after uploading image"); the upload is the only request sent, no
    event is created, and the caller's object is not written to. *)
Theorem createEvent_upload_failure fileName l (w : World B) :
  let file := default VUndef (object_at w l !! "headerImageFile") in
  let resp := (storage_upload "event-header-images" fileName file "image/png" (backend w)).1 in
  let out := createEvent rest rpc storage_upload fileName l w in
  truthy (user (authStore w)) = true → truthy file = true →
  truthy (error resp) = true ∨ truthy (get_opt (data resp) "Key") = false →
  out.1 = (if truthy (error resp) then inl (ApiError (error resp))
           else inl (Error "Received no data after uploading image"))
  ∧ sent out.2 = sent w ++ [header_upload fileName l w]
  ∧ heap out.2 = heap w.
Proof.
  cbv zeta. intros Hu Hfile Hfail. unfold createEvent, header_upload, object_at in *. run.
  rewrite Hu. simpl. rewrite Hfile.
  destruct (storage_upload _ _ _ _ _) as [r b]. simpl in *.
  destruct (truthy (error r)); [done|].
  destruct Hfail as [|Hk]; [done|]. rewrite Hk. simpl. rewrite orb_true_r. done.
Qed.

(** What [creation] sends: at most one request, of the kind the
    [uses_groups] of the object asks for. *)
Lemma creation_requests l (w : World B) :
  ∃ later, sent (creation rest rpc l w).2 = sent w ++ later
           ∧ (length later ≤ 1)%nat
           ∧ Forall (is_creation (default VUndef (object_at w l !! "uses_groups"))) later.
Proof.
  unfold object_at, creation. run.
  repeat (case_match; simpl in *; simplify_eq);
    try (exists []; rewrite app_nil_r; split; [done|]; split; [simpl; lia|constructor]).
  all: eexists [_]; (split; [done|]); (split; [done|]); (constructor; [|done]); simpl.
  - done.
  - split_and!; try done. by rewrite lookup_omap, lookup_insert_eq.
Qed.

(** X6: whatever it is given, [createEvent] sends at most the upload of
    the header image and then at most one creation request: the remote
    procedure [create_event_with_groups] when the event uses groups, and
    otherwise an insert into [events] whose body never has an
    [event_group_pair], whatever the caller's object holds under that
    key. *)
Theorem createEvent_requests fileName l (w : World B) :
  let w' := (createEvent rest rpc storage_upload fileName l w).2 in
  let uses_groups := default VUndef (object_at w l !! "uses_groups") in
  ∃ ups later,
    sent w' = sent w ++ ups ++ later
    ∧ (ups = [] ∨ ups = [header_upload fileName l w])
    ∧ (length later ≤ 1)%nat
    ∧ Forall (is_creation uses_groups) later.
Proof.
  cbv zeta. rewrite ServiceFacts.createEvent_creation. unfold header_upload, object_at. run.
  destruct (negb (truthy (user (authStore w)))).
  { exists [], []. simpl. rewrite app_nil_r. repeat split; auto. }
  destruct (truthy (default VUndef (default ∅ (heap w !! l) !! "headerImageFile"))).
  - destruct (storage_upload _ _ _ _ _) as [r b]. simpl.
    destruct (truthy (error r)).
    { eexists [_], []. simpl. repeat split; auto. }
    destruct (negb (truthy (data r)) || negb (truthy (get_opt (data r) "Key"))).
    { eexists [_], []. simpl. repeat split; auto. }
    simpl.
    match goal with
    | |- context [creation rest rpc l ?w1] =>
        destruct (creation_requests l w1) as (later & Hs & Hlen & Hall);
        destruct (creation rest rpc l w1) as [[e|c] w2]
    end; simpl in *.
    all: unfold object_at in Hall; simpl in Hall; rewrite lookup_insert_eq in Hall;
      simpl in Hall; rewrite lookup_insert_ne in Hall by done.
    all: eexists [_], later.
    + rewrite Hs, <- app_assoc. repeat split; auto.
    + destruct (truthy c); simpl; rewrite Hs, <- app_assoc; repeat split; auto.
  - simpl.
    destruct (creation_requests l w) as (later & Hs & Hlen & Hall).
    destruct (creation rest rpc l w) as [[e|c] w2]; simpl in *.
    + exists [], later. repeat split; auto.
    + exists [], later. destruct (truthy c); simpl; repeat split; auto.
Qed.

(** X7: for a logged-in user, an event that is said to use groups but has
    none is refused with "Event is indicated to use groups, but no groups
    were provided", and no creation request is sent.  The refusal comes
    after the upload: with a header image that uploads, the image is
    already stored and the caller's object already carries its key;
    without one the world is as before. *)
Theorem createEvent_no_groups fileName l (w : World B) :
  let ed := object_at w l in
  let file := default VUndef (ed !! "headerImageFile") in
  let resp := (storage_upload "event-header-images" fileName file "image/png" (backend w)).1 in
  let key := get_opt (data resp) "Key" in
  let out := createEvent rest rpc storage_upload fileName l w in
  truthy (user (authStore w)) = true →
  truthy (default VUndef (ed !! "uses_groups")) = true →
  truthy (default VUndef (ed !! "event_groups")) = false →
  (truthy file = true → truthy (error resp) = false ∧ truthy key = true) →
  out.1 = inl (Error "Event is indicated to use groups, but no groups were provided")
  ∧ if truthy file then
      sent out.2 = sent w ++ [header_upload fileName l w]
      ∧ object_at out.2 l = <["header_image" := key]> ed
    else out.2 = w.
Proof.
  cbv zeta. intros Hu Hg He Hup. unfold createEvent, header_upload, object_at in *. run.
  rewrite Hu. simpl.
  destruct (truthy (default VUndef (default ∅ (heap w !! l) !! "headerImageFile"))).
  - destruct Hup as [Herr Hk]; [done|].
    destruct (storage_upload _ _ _ _ _) as [r b]. simpl in *. rewrite Herr.
    assert (truthy (data r) = true) as -> by (by destruct (data r)).
    rewrite Hk. simpl. rewrite !lookup_insert_eq. simpl.
    rewrite !lookup_insert_ne by done. rewrite Hg. simpl.
    rewrite !lookup_insert_eq. simpl. rewrite !lookup_insert_ne by done.
    rewrite He. simpl. by rewrite lookup_insert_eq.
  - simpl. rewrite Hg. simpl. rewrite He. simpl. split; [done|]. by destruct w.
Qed.

(** X8: for a logged-in user and an event with groups and no new header
    image, [createEvent] sends exactly the remote procedure call
    [create_event_with_groups] with the ten named parameters taken from the
    caller's object, the date as the text of its instant; it throws the
    error of the call, returns without one, and writes to no object. *)
Theorem createEvent_with_groups fileName l (w : World B) g a b t tz :
  let ed := object_at w l in
  let params :=
    json (VObj (list_to_map
      [ ("title", default VUndef (ed !! "title"));
        ("description", default VUndef (ed !! "description"));
        ("header_image", default VUndef (ed !! "header_image"));
        ("datetime", VIso t);
        ("location", default VUndef (ed !! "location"));
        ("max_participants", default VUndef (ed !! "max_participants"));
        ("groupATitle", default VUndef (a !! "title"));
        ("groupADescription", default VUndef (a !! "description"));
        ("groupBTitle", default VUndef (b !! "title"));
        ("groupBDescription", default VUndef (b !! "description")) ])) in
  let resp := (rpc "create_event_with_groups" params (backend w)).1 in
  let out := createEvent rest rpc storage_upload fileName l w in
  truthy (user (authStore w)) = true →
  truthy (default VUndef (ed !! "headerImageFile")) = false →
  truthy (default VUndef (ed !! "uses_groups")) = true →
  ed !! "event_groups" = Some (VObj g) →
  g !! "groupA" = Some (VObj a) → g !! "groupB" = Some (VObj b) →
  ed !! "datetime" = Some (VZoned t tz) →
  sent out.2 = sent w ++ [Rpc "create_event_with_groups" params]
  ∧ heap out.2 = heap w
  ∧ out.1 = if truthy (error resp) then inl (ApiError (error resp)) else inr ().
Proof.
  cbv zeta. intros Hu Hfile Hg Heg Ha Hb Hd.
  unfold createEvent, object_at in *. run.
  rewrite Hu. simpl. rewrite Hfile. simpl. rewrite Hg. simpl. rewrite Heg. simpl.
  rewrite Hd. simpl. rewrite Ha, Hb. simpl.
  destruct (rpc _ _ _) as [r b']. simpl.
  by destruct (truthy (error r)).
Qed.

(** X9: for a logged-in user and an event without groups and without a new
    header image, [createEvent] sends exactly one insert into [events].
    Its body is the caller's whole object: every property that is set is
    sent under its own name, also [uses_groups] and [event_groups]; only
    [datetime] is replaced, by the zoned text of the date, and
    [event_group_pair] is left out.  The error of the insert is thrown,
    and no object is written to. *)
Theorem createEvent_plain fileName l (w : World B) t tz :
  let ed := object_at w l in
  let q := supabase.from "events"
           |> supabase.insert (VObj (<["event_group_pair" := VUndef]>
                                       (<["datetime" := VZonedIso t tz]> ed))) in
  let resp := (rest q (backend w)).1 in
  let out := createEvent rest rpc storage_upload fileName l w in
  truthy (user (authStore w)) = true →
  truthy (default VUndef (ed !! "headerImageFile")) = false →
  truthy (default VUndef (ed !! "uses_groups")) = false →
  ed !! "datetime" = Some (VZoned t tz) →
  sent out.2 = sent w ++ [Rest q]
  ∧ heap out.2 = heap w
  ∧ out.1 = (if truthy (error resp) then inl (ApiError (error resp)) else inr ())
  ∧ get_opt (q_body q) "datetime" = VZonedIso t tz
  ∧ get_opt (q_body q) "event_group_pair" = VUndef
  ∧ ∀ k, k ≠ "datetime" → k ≠ "event_group_pair" →
         get_opt (q_body q) k = json (default VUndef (ed !! k)).
Proof.
  cbv zeta. intros Hu Hfile Hg Hd.
  unfold createEvent, object_at in *. run.
  rewrite Hu. simpl. rewrite Hfile. simpl. rewrite Hg. simpl. rewrite Hd. simpl.
  destruct (rest _ _) as [r b']. simpl.
  split; [by destruct (truthy (error r))|]. split; [by destruct (truthy (error r))|].
  split; [by destruct (truthy (error r))|].
  rewrite !lookup_omap. rewrite lookup_insert_eq.
  rewrite (lookup_insert_ne _ "event_group_pair" "datetime") by done.
  rewrite lookup_insert_eq. split; [done|]. split; [done|].
  intros k Hk1 Hk2. rewrite lookup_omap, !lookup_insert_ne by done.
  destruct (default ∅ (heap w !! l) !! k) as [[]|]; done.
Qed.

End AnyBackend.
End ServiceExtras.

(** ** More on the services on the tables *)

Module PgExtras.
Import Services Observations MoreObservations Pg.

#[local] Existing Instance PgFacts.ordered_total.

Lemma run_select_snd q db : (run_select q db).2 = db.
Proof.
  unfold run_select. destruct (tables db !! q_table q); [|done].
  by destruct (results _ _ _ _ _).
Qed.

(** A [select] leaves the tables as they are. *)
Lemma rest_read_tables q db :
  q_method q = GET ∨ q_method q = HEAD → tables (rest q db).2 = tables db.
Proof.
  intros Hm.
  assert (∀ db0, serve q db0 = run_select q db0) as Hserve.
  { intros db0. unfold serve. by destruct Hm as [-> | ->]. }
  unfold rest. destruct (outages db) as [|e es].
  - by rewrite Hserve, run_select_snd.
  - destruct (truthy e); [done|]. by rewrite Hserve, run_select_snd.
Qed.

Lemma fetchEvents_tables now tz (w : World Database) :
  tables (backend (fetchEvents rest now tz w).2) = tables (backend w).
Proof.
  rewrite ServiceFacts.fetchEvents_unfold. cbv zeta.
  assert (tables (rest (fetchEvents_query now) (backend w)).2 = tables (backend w)) as H
    by (apply rest_read_tables; by left).
  destruct (truthy (error _)); [done|]. destruct (negb _); [done|].
  destruct (first _); [done|]. by destruct (get _ _).
Qed.

Lemma fetchUserEvents_tables now tz (w : World Database) :
  tables (backend (fetchUserEvents rest now tz w).2) = tables (backend w).
Proof.
  rewrite ServiceFacts.fetchUserEvents_unfold. cbv zeta.
  assert (tables (rest (fetchUserEvents_query now w) (backend w)).2 = tables (backend w)) as H
    by (apply rest_read_tables; by left).
  destruct (truthy (error _)); [done|]. by destruct (data _).
Qed.

Lemma fetchEventById_tables tz eventId (w : World Database) :
  tables (backend (fetchEventById rest tz eventId w).2) = tables (backend w).
Proof.
  rewrite ServiceExtras.fetchEventById_unfold. cbv zeta. simpl.
  apply rest_read_tables. by left.
Qed.

Lemma isRegisteredForEvent_tables eventId (w : World Database) :
  tables (backend (isRegisteredForEvent rest eventId w).2) = tables (backend w).
Proof.
  rewrite ServiceFacts.isRegisteredForEvent_unfold. cbv zeta.
  destruct (negb _); [done|].
  assert (tables (rest (isRegistered_query eventId w) (backend w)).2 = tables (backend w)) as H
    by (apply rest_read_tables; by right).
  by destruct (truthy (error _)).
Qed.

Lemma readProfile_tables (w : World Database) :
  tables (backend (readProfile rest w).2) = tables (backend w)
  ∧ authStore (readProfile rest w).2 = authStore w.
Proof.
  rewrite ServiceFacts.readProfile_unfold. cbv zeta.
  destruct (negb _); [done|].
  assert (tables (rest (readProfile_query w) (backend w)).2 = tables (backend w)) as H
    by (apply rest_read_tables; by left).
  destruct (truthy (error _)); [done|]. by destruct (negb _).
Qed.

(** X10: the five reading services leave every table as it is, whether
    they return or throw. *)
Theorem reads_keep_tables now tz eventId (w : World Database) :
  tables (backend (fetchEvents rest now tz w).2) = tables (backend w)
  ∧ tables (backend (fetchUserEvents rest now tz w).2) = tables (backend w)
  ∧ tables (backend (fetchEventById rest tz eventId w).2) = tables (backend w)
  ∧ tables (backend (isRegisteredForEvent rest eventId w).2) = tables (backend w)
  ∧ tables (backend (readProfile rest w).2) = tables (backend w).
Proof.
  split_and!.
  - apply fetchEvents_tables.
  - apply fetchUserEvents_tables.
  - apply fetchEventById_tables.
  - apply isRegisteredForEvent_tables.
  - apply readProfile_tables.
Qed.

(** X11: [readProfile] can be repeated: a second successful call right
    after a successful one returns the same profile. *)
Theorem readProfile_repeatable (w w1 w2 : World Database) p q :
  readProfile rest w = (inr p, w1) → readProfile rest w1 = (inr q, w2) → q = p.
Proof.
  intros H1 H2.
  assert (tables (backend w1) = tables (backend w) ∧ user_id w1 = user_id w) as [Ht Hu].
  { pose proof (readProfile_tables w) as [Ht Ha].
    rewrite H1 in Ht, Ha. simpl in Ht, Ha. unfold user_id. by rewrite Ha. }
  apply PgFacts.readProfile_reads in H1 as (rows & r1 & Hrows & Hf & ->).
  apply PgFacts.readProfile_reads in H2 as (rows' & r2 & Hrows' & Hf' & ->).
  rewrite Ht, Hrows in Hrows'. injection Hrows' as <-.
  rewrite Hu, Hf in Hf'. by injection Hf' as <-.
Qed.

(** An embedded relation that is not an inner join drops no row. *)
Lemma project_embed_outer db fs tbl r alias rel sub acc :
  project db fs tbl r (SEmbed alias rel false sub) acc ≠ Dropped.
Proof.
  simpl. destruct (relations db !! (tbl, rel)) as [R|]; [|done].
  destruct (collect _) as [objs|]; [|done].
  by destruct (rel_card R), objs.
Qed.

(** When no row is dropped, the results are those of the rows, in their
    order. *)
Lemma results_fst db fs tbl sel rows l :
  (∀ r, project_all db fs tbl sel r ≠ Dropped) →
  results db fs tbl sel rows = Some l → l.*1 = rows.
Proof.
  intros Hnd. revert l. induction rows as [|r rows IH]; simpl; intros l Hl.
  - by simplify_eq.
  - destruct (project_all db fs tbl sel r) eqn:Hp; [done|by destruct (Hnd r)|].
    destruct (results db fs tbl sel rows) as [l'|]; [|done]. simpl in Hl. simplify_eq.
    simpl. f_equal. by apply IH.
Qed.

(** The [select] of [fetchEvents] and [fetchEventById] drops no row, and
    its objects are the rows with the group pair added. *)
Lemma events_select_kept db fs r :
  project_all db fs "events" [SStar; group_pair "event_groups"] r ≠ Dropped.
Proof.
  unfold project_all. cbn [foldl and_then].
  change (project _ _ _ r SStar ∅) with (Kept (r ∪ ∅)). cbn [and_then].
  apply project_embed_outer.
Qed.

Lemma events_select_object db fs r o :
  project_all db fs "events" [SStar; group_pair "event_groups"] r = Kept o →
  ∀ k, k ≠ "event_groups" → o !! k = r !! k.
Proof.
  unfold project_all. cbn [foldl and_then].
  change (project _ _ _ r SStar ∅) with (Kept (r ∪ ∅)). cbn [and_then].
  intros Hp k Hk. apply PgFacts.project_embed in Hp as (x & -> & _).
  rewrite lookup_insert_ne by done.
  destruct (r !! k) eqn:Hr; [by erewrite lookup_union_Some_l|].
  by rewrite lookup_union_r.
Qed.

Lemma events_select_pair db fs r o :
  embedded_filters "event_group_pairs" fs = [] →
  project_all db fs "events" [SStar; group_pair "event_groups"] r = Kept o →
  ∃ x, o !! "event_groups" = Some x ∧ joined_group_pair db r = Some x.
Proof.
  unfold project_all. cbn [foldl and_then].
  change (project _ _ _ r SStar ∅) with (Kept (r ∪ ∅)). cbn [and_then].
  intros Hfs Hp. apply PgFacts.joined_group_pair_embed in Hp as (x & -> & _ & Hj); [|done].
  exists x. by rewrite lookup_insert_eq.
Qed.

Lemma is_upcoming_spec now r :
  is_upcoming now r = true
  ↔ r !! "is_cancelled" = Some (VBool false) ∧ r !! "is_ended" = Some (VBool false)
    ∧ ∃ t, r !! "datetime" = Some (VIso t) ∧ now - 1 * hour < t.
Proof.
  unfold is_upcoming, keeps. simpl. rewrite andb_true_r, !andb_true_iff. split.
  - intros (Hc & He & Hd). split; [by apply PgFacts.holds_not_eq_true|].
    split; [by apply PgFacts.holds_not_eq_true|]. by apply PgFacts.holds_gt_iso.
  - intros (Hc & He & t & Hd & Hlt). unfold holds, cond, column. rewrite Hc, He, Hd. simpl.
    split_and!; try done. by apply Z.ltb_lt in Hlt as ->.
Qed.

(** X12: [fetchEvents] leaves out nothing: when it returns, it returns as
    many events as the table has rows that are not cancelled, not ended and
    later than an hour ago, and each such row is among them: with its
    [datetime], an instant, as the zoned date-time of that instant, with
    the group pair joined to the row under [event_groups], and with all its
    other columns as they are. *)
Theorem fetchEvents_complete now tz (w w' : World Database) evs rows :
  fetchEvents rest now tz w = (inr evs, w') →
  tables (backend w) !! "events" = Some rows →
  ∃ l, evs = VArr l
       ∧ length l = length (List.filter (is_upcoming now) rows)
       ∧ ∀ r, r ∈ rows → is_upcoming now r = true →
              ∃ o t x, VObj o ∈ l
                       ∧ r !! "datetime" = Some (VIso t)
                       ∧ o !! "datetime" = Some (VZoned t tz)
                       ∧ joined_group_pair (backend w) r = Some x
                       ∧ o !! "event_groups" = Some x
                       ∧ ∀ k, k ≠ "datetime" → k ≠ "event_groups" → o !! k = r !! k.
Proof.
  rewrite ServiceFacts.fetchEvents_unfold. cbv zeta. intros Hf Hrows.
  destruct (truthy (error _)) eqn:He; [done|].
  destruct (negb _); [done|]. destruct (first _); [done|]. destruct (get _ _); [done|].
  apply (f_equal fst) in Hf. cbn [fst] in Hf.
  destruct (PgFacts.rest_served _ _ He) as (db0 & Hserve & Ht & Hrel & _).
  rewrite Hserve, (PgFacts.serve_get (fetchEvents_query now) db0 eq_refl) in He, Hf.
  destruct (PgFacts.run_select_rows (fetchEvents_query now) db0 eq_refl eq_refl He)
    as (rows0 & l0 & Hrows0 & Hl & Hdata).
  rewrite Ht in Hrows0. change (q_table _) with "events" in Hrows0.
  rewrite Hrows in Hrows0. injection Hrows0 as <-.
  rewrite Hdata in Hf. apply PgFacts.array_map_inv in Hf as (l1 & ys & [= <-] & -> & Hmap).
  change (sorted _ l0) with (merge_sort (ordered "datetime" true) l0) in Hmap.
  pose proof (merge_sort_Permutation (ordered "datetime" true) l0) as Hperm.
  pose proof (PgFacts.results_spec _ _ _ _ _ _ Hl) as Hspec.
  apply results_fst in Hl; [|intros r; apply events_select_kept].
  change (List.filter _ rows) with (List.filter (is_upcoming now) rows) in Hl.
  exists ys. split; [done|]. split.
  - apply Forall2_length in Hmap. rewrite <- Hmap, !length_fmap, Hperm.
    by rewrite <- Hl, length_fmap.
  - intros r Hin Hup.
    assert (r ∈ l0.*1) as Hr.
    { rewrite Hl, list_elem_of_In. apply filter_In. by rewrite <- list_elem_of_In. }
    apply list_elem_of_fmap in Hr as ([r' o0] & -> & Hro). cbn [fst] in Hin, Hup |- *.
    assert (VObj o0 ∈ VObj <$> (merge_sort (ordered "datetime" true) l0).*2) as Hobj.
    { apply list_elem_of_fmap. exists o0. split; [done|].
      apply list_elem_of_fmap. exists (r', o0). split; [done|]. by rewrite Hperm. }
    apply list_elem_of_lookup in Hobj as [i Hi].
    destruct (Forall2_lookup_l _ _ _ _ _ Hmap Hi) as (y & Hy & Hparse).
    rewrite Forall_forall in Hspec. destruct (Hspec _ Hro) as [_ Hp]. cbn [fst snd] in Hp.
    apply is_upcoming_spec in Hup as (_ & _ & t & Hdt & _).
    pose proof (events_select_object _ _ _ _ Hp) as Hcols.
    destruct (events_select_pair db0 (q_filters (fetchEvents_query now)) r' o0 eq_refl Hp)
      as (x & Hox & Hj).
    unfold parse_datetime in Hparse. cbn [get mbind] in Hparse.
    rewrite (Hcols "datetime"), Hdt in Hparse by done. simpl in Hparse.
    injection Hparse as <-.
    exists (<["datetime" := VZoned t tz]> o0), t, x.
    split; [by eapply list_elem_of_lookup_2|]. split; [exact Hdt|].
    split; [by rewrite lookup_insert_eq|].
    split; [by rewrite <- (PgFacts.joined_group_pair_ext db0 (backend w) r' Ht Hrel)|].
    split; [by rewrite lookup_insert_ne|].
    intros k Hk1 Hk2. rewrite lookup_insert_ne by done. by apply Hcols.
Qed.

(** X13: an event that [fetchEventById] returns is the one row of
    [events] with that id, with all its columns, its date parsed into a
    zoned date-time (and the group pair added). *)
Theorem fetchEventById_found tz eventId (w w' : World Database) e :
  fetchEventById rest tz eventId w = (inr e, w') →
  ∃ rows r t o,
    tables (backend w) !! "events" = Some rows
    ∧ List.filter (keeps [FEq "id" (VNum eventId)]) rows = [r]
    ∧ r !! "id" = Some (VNum eventId)
    ∧ r !! "datetime" = Some (VIso t)
    ∧ e = VObj o ∧ o !! "datetime" = Some (VZoned t tz)
    ∧ ∀ k, k ≠ "datetime" → k ≠ "event_groups" → o !! k = r !! k.
Proof.
  rewrite ServiceExtras.fetchEventById_unfold. cbv zeta. intros Hf.
  apply (f_equal fst) in Hf. cbn [fst] in Hf.
  destruct (truthy (error _)) eqn:He; [done|].
  destruct (truthy (data _)) eqn:Hd; [|done].
  destruct (PgFacts.rest_served _ _ He) as (db0 & Hserve & Ht & _).
  rewrite Hserve, (PgFacts.serve_get (fetchEventById_query eventId) db0 eq_refl) in He, Hd, Hf.
  revert He Hd Hf. unfold run_select. change (q_table _) with "events". rewrite Ht.
  destruct (tables (backend w) !! "events") as [rows|] eqn:Hrows; [|done].
  change (top_filters _) with [FEq "id" (VNum eventId)].
  destruct (results _ _ _ _ _) as [l|] eqn:Hl; [|done].
  cbn [fst sorted q_order fetchEventById_query supabase.maybeSingle]. intros He Hd Hf.
  pose proof Hd as Hd'. apply PgFacts.respond_single in Hd' as (o0 & Ho & Hdata); [|done|done].
  rewrite Hdata in Hf.
  pose proof (PgFacts.results_spec _ _ _ _ _ _ Hl) as Hspec.
  apply results_fst in Hl; [|intros r; apply events_select_kept].
  destruct l as [|[r o1] [|? ?]]; try done. simpl in Ho, Hl. injection Ho as ->.
  apply Forall_cons in Hspec as [[Hin Hp] _]. simpl in Hin, Hp.
  pose proof (events_select_object _ _ _ _ Hp) as Hcols.
  unfold parse_datetime in Hf. simpl in Hf.
  destruct (o0 !! "datetime") as [d|] eqn:Hdt; simpl in Hf; [|done].
  destruct d; try done. simpl in Hf. injection Hf as <-.
  exists rows, r, t, (<["datetime" := VZoned t tz]> o0).
  split; [done|]. split; [done|]. split.
  { apply PgFacts.holds_eq_num.
    assert (In r (List.filter (keeps [FEq "id" (VNum eventId)]) rows)) as Hr
      by (rewrite <- Hl; by left).
    apply filter_In in Hr as [_ Hr]. unfold keeps in Hr. simpl in Hr.
    by rewrite andb_true_r in Hr. }
  split; [by rewrite <- Hcols|]. split; [done|]. split; [by rewrite lookup_insert_eq|].
  intros k Hk1 Hk2. rewrite lookup_insert_ne by done. by apply Hcols.
Qed.

(** X14: when no row of [events] has the id, [fetchEventById] fails with
    "Event with this ID does not exist", unless the request itself reports
    an error, which is thrown as it is. *)
Theorem fetchEventById_missing tz eventId (w : World Database) rows :
  tables (backend w) !! "events" = Some rows →
  (∀ r, r ∈ rows → r !! "id" ≠ Some (VNum eventId)) →
  let resp := (rest (fetchEventById_query eventId) (backend w)).1 in
  (fetchEventById rest tz eventId w).1
  = if truthy (error resp) then inl (ApiError (error resp))
    else inl (Error "Event with this ID does not exist").
Proof.
  intros Hrows Hno. cbv zeta. rewrite ServiceExtras.fetchEventById_unfold. cbv zeta. cbn [fst].
  destruct (truthy (error _)) eqn:He; [done|].
  destruct (PgFacts.rest_served _ _ He) as (db0 & Hserve & Ht & _).
  rewrite Hserve, (PgFacts.serve_get (fetchEventById_query eventId) db0 eq_refl).
  unfold run_select. change (q_table _) with "events". rewrite Ht, Hrows.
  change (top_filters _) with [FEq "id" (VNum eventId)].
  assert (List.filter (keeps [FEq "id" (VNum eventId)]) rows = []) as ->.
  { clear Hrows. induction rows as [|r rows IH]; [done|]. cbn [List.filter].
    destruct (keeps [FEq "id" (VNum eventId)] r) eqn:Hk.
    - exfalso. apply (Hno r); [by left|]. apply PgFacts.holds_eq_num.
      unfold keeps in Hk. simpl in Hk. by rewrite andb_true_r in Hk.
    - apply IH. intros r' Hr'. apply Hno. by right. }
  done.
Qed.

Lemma collect_kept {A} (f : A → gmap string Val) (l : list A) :
  collect (map (λ k, Kept (f k)) l) = Some (map f l).
Proof. induction l as [|k l IH]; simpl; [done|]. by rewrite IH. Qed.

(** An inner join with all columns keeps a row only with the related rows
    that pass the filters on the relation, and there is at least one. *)
Lemma project_inner_star db fs tbl r alias rel acc o :
  project db fs tbl r (SEmbed alias rel true [SStar]) acc = Kept o →
  ∃ x kids,
    o = <[alias := x]> acc ∧ kids ≠ []
    ∧ Forall (λ k, keeps (embedded_filters rel fs) k = true) kids
    ∧ (x = VArr (VObj <$> ((λ k, k ∪ ∅) <$> kids)) ∨ ∃ k, k ∈ kids ∧ x = VObj (k ∪ ∅)).
Proof.
  cbn [project]. destruct (relations db !! (tbl, rel)) as [R|]; [|done].
  set (kids := List.filter _ _).
  assert (Forall (λ k, keeps (embedded_filters rel fs) k = true) kids) as Hkids.
  { apply Forall_forall. intros k Hk. apply list_elem_of_In, filter_In in Hk as [_ Hk].
    by apply andb_true_iff in Hk as [_ Hk]. }
  change (map _ kids) with (map (λ k : gmap string Val, Kept (k ∪ ∅)) kids).
  rewrite collect_kept.
  destruct (rel_card R), kids as [|k kids'] eqn:Hk; simpl; intros Ho; simplify_eq.
  - exists (VObj (k ∪ ∅)), (k :: kids'). split_and!; try done. right. exists k. split; [by left|done].
  - exists (VArr (VObj <$> ((λ k, k ∪ ∅) <$> (k :: kids')))), (k :: kids').
    split_and!; try done. by left.
Qed.

Lemma fetchUserEvents_row_own db now (w : World Database) uid rows r o :
  user_id w = VStr uid →
  r ∈ List.filter (keeps (top_filters (q_filters (fetchUserEvents_query now w)))) rows →
  project_all db (q_filters (fetchUserEvents_query now w)) "events"
              (q_select (fetchUserEvents_query now w)) r = Kept o →
  ∃ t x, column r "datetime" = VIso t
         ∧ o !! "is_cancelled" = Some (VBool false)
         ∧ o !! "is_ended" = Some (VBool false)
         ∧ o !! "datetime" = Some (VIso t)
         ∧ now - 1 * hour < t
         ∧ o !! "event_registrations" = Some x ∧ own_registrations uid x.
Proof.
  intros Hu Hin Hp. apply list_elem_of_In, filter_In in Hin as [_ Hk].
  change (top_filters _) with
    [FNot "is_cancelled" "eq" (VBool true); FNot "is_ended" "eq" (VBool true);
     FGt "datetime" (VIso (now - 1 * hour))] in Hk.
  change (keeps _ r) with (is_upcoming now r) in Hk.
  apply is_upcoming_spec in Hk as (Hc & He & t & Hd & Hlt).
  unfold project_all in Hp. simpl q_select in Hp. cbn [foldl and_then] in Hp.
  change (project _ _ _ r SStar ∅) with (Kept (r ∪ ∅)) in Hp. cbn [and_then] in Hp.
  destruct (project _ _ _ r (group_pair "event_group_pair") _) as [| |o1] eqn:H1; try done.
  apply PgFacts.project_embed in H1 as (x1 & -> & _). cbn [and_then] in Hp.
  apply project_inner_star in Hp as (x & kids & -> & Hne & Hkids & Hx).
  change (embedded_filters _ _) with [FEq "user_id" (template (user_id w))] in Hkids.
  rewrite Hu in Hkids. simpl template in Hkids.
  assert (∀ k, k ∈ kids → (k ∪ ∅) !! "user_id" = Some (VStr uid)) as Hown.
  { intros k Hk. rewrite Forall_forall in Hkids. specialize (Hkids k Hk).
    unfold keeps in Hkids. simpl in Hkids. rewrite andb_true_r in Hkids.
    apply PgFacts.holds_eq_str in Hkids. by erewrite lookup_union_Some_l. }
  exists t, x. rewrite lookup_insert_eq. rewrite !lookup_insert_ne by done.
  rewrite !lookup_union_l' by (by eexists).
  unfold column. rewrite Hd. split_and!; try done.
  destruct Hx as [-> | (k & Hk & ->)].
  - right. eexists. split; [done|]. split; [by destruct kids|].
    apply Forall_fmap, Forall_fmap, Forall_forall. intros k Hk. simpl. eauto.
  - left. eauto.
Qed.

(** X15: what [fetchUserEvents] returns for the user [uid]: events that
    are not cancelled, not ended and later than an hour ago, in the order
    of their dates, each with at least one registration joined and every
    joined registration one of [uid]. *)
Theorem fetchUserEvents_own now tz (w w' : World Database) v uid :
  user_id w = VStr uid →
  fetchUserEvents rest now tz w = (inr v, w') →
  ∃ evs ts,
    v = VArr evs
    ∧ Forall2 (λ e t, upcoming now tz e t
                      ∧ ∃ x, get e "event_registrations" = inr x ∧ own_registrations uid x)
              evs ts
    ∧ Sorted Z.le ts.
Proof.
  intros Hu. rewrite ServiceFacts.fetchUserEvents_unfold. cbv zeta.
  destruct (truthy (error _)) eqn:He; [done|].
  destruct (PgFacts.rest_served _ _ He) as (db0 & Hserve & Ht & _).
  rewrite Hserve, (PgFacts.serve_get (fetchUserEvents_query now w) db0 eq_refl) in He |- *.
  destruct (PgFacts.run_select_rows (fetchUserEvents_query now w) db0 eq_refl eq_refl He)
    as (rows & l & Hrows & Hl & Hdata).
  rewrite Hdata. intros Hmap. apply (f_equal fst) in Hmap. cbn [fst] in Hmap.
  apply PgFacts.array_map_inv in Hmap as (l1 & ys & [= <-] & -> & Hmap).
  apply PgFacts.results_spec in Hl.
  change (sorted _ l) with (merge_sort (ordered "datetime" true) l) in Hmap.
  pose proof (Sorted_merge_sort (ordered "datetime" true) l) as Hsorted.
  assert (Forall (λ ro, ∃ t x, column ro.1 "datetime" = VIso t
                    ∧ ro.2 !! "is_cancelled" = Some (VBool false)
                    ∧ ro.2 !! "is_ended" = Some (VBool false)
                    ∧ ro.2 !! "datetime" = Some (VIso t)
                    ∧ now - 1 * hour < t
                    ∧ ro.2 !! "event_registrations" = Some x ∧ own_registrations uid x)
                 (merge_sort (ordered "datetime" true) l)) as HL.
  { rewrite merge_sort_Permutation.
    eapply Forall_impl; [exact Hl|]. intros [r o] [Hin Hp]. cbn [fst snd] in *.
    by eapply fetchUserEvents_row_own. }
  revert Hmap Hsorted HL. generalize (merge_sort (ordered "datetime" true) l). clear.
  intros L Hmap Hsorted HL.
  exists ys, ((λ ro, default 0 (sort_key (column ro.1 "datetime"))) <$> L).
  split; [done|]. split.
  - revert ys Hmap. clear Hsorted. induction L as [|[r o] L IH]; intros ys Hmap.
    + apply Forall2_nil_inv_l in Hmap as ->. constructor.
    + rewrite !fmap_cons in Hmap. inversion Hmap as [|? y ? ys' Hy Hys]; subst.
      apply Forall_cons in HL as [(t & x & Hcol & Hc & He & Hd & Hlt & Hx & Hown) HL].
      simpl in *. constructor; [|by apply IH].
      unfold parse_datetime in Hy. simpl in Hy. rewrite Hd in Hy. simpl in Hy.
      injection Hy as <-. rewrite Hcol. simpl. split.
      * eexists. split; [done|]. rewrite !lookup_insert_ne by done.
        rewrite lookup_insert_eq. done.
      * exists x. rewrite lookup_insert_ne by done. by rewrite Hx.
  - apply PgFacts.sorted_instants; [done|].
    eapply Forall_impl; [exact HL|]. intros [r o] (t & x & Hcol & _). eauto.
Qed.

(** The answer of [isRegisteredForEvent] for the user [uid]. *)
Lemma isRegisteredForEvent_counts eventId (w : World Database) uid regs :
  user_id w = VStr uid → truthy (user_id w) = true →
  tables (backend w) !! "event_registrations" = Some regs →
  let resp := (rest (isRegistered_query eventId w) (backend w)).1 in
  (isRegisteredForEvent rest eventId w).1
  = if truthy (error resp) then inl (ApiError (error resp))
    else inr (negb (Z.of_nat (length
           (List.filter (keeps [FEq "event_id" (VNum eventId); FEq "user_id" (VStr uid)])
                        regs)) =? 0)).
Proof.
  intros Hu Htr Hregs. cbv zeta.
  rewrite ServiceFacts.isRegisteredForEvent_unfold. cbv zeta. rewrite Htr.
  simpl negb. cbv iota.
  destruct (truthy (error _)) eqn:He; [done|]. cbn [fst]. f_equal.
  destruct (PgFacts.rest_served _ _ He) as (db0 & Hserve & Ht & _).
  rewrite Hserve, (PgFacts.serve_head (isRegistered_query eventId w) db0 eq_refl).
  unfold run_select. change (q_table _) with "event_registrations".
  rewrite Ht, Hregs.
  rewrite (PgFacts.results_total _ _ _ _ _ (λ r, <["id" := column r "id"]> ∅)) by done.
  unfold isRegistered_query at 1 2 3. rewrite Hu. simpl.
  by rewrite !length_fmap.
Qed.

(** What a successful [registerForEvent] stored, with the triggers of the
    script installed: the row as it was sent, at the end of the table. *)
Lemma registerForEvent_stores eventId groupId (w w1 : World Database) :
  triggers (backend w) = Triggers.script →
  registerForEvent rest eventId groupId w = (inr (), w1) →
  ∃ regs row,
    tables (backend w) !! "event_registrations" = Some regs
    ∧ tables (backend w1) = <["event_registrations" := regs ++ [row]]> (tables (backend w))
    ∧ row !! "event_id" = Some (VNum eventId)
    ∧ (∀ uid, user_id w = VStr uid → row !! "user_id" = Some (VStr uid))
    ∧ truthy (user_id w) = true ∧ authStore w1 = authStore w.
Proof.
  intros Htg. rewrite ServiceExtras.registerForEvent_unfold. cbv zeta.
  destruct (truthy (user_id w)) eqn:Hu; [|done]. simpl negb. cbv iota.
  destruct (truthy (error _)) eqn:He; [done|]. intros [= <-].
  destruct (PgFacts.rest_served _ _ He) as (db0 & Hserve & Ht & _ & Htg0 & _).
  rewrite Hserve in He |- *.
  revert He. unfold serve. change (q_method _) with POST. cbv iota.
  unfold run_insert. change (q_table _) with "event_registrations".
  rewrite Ht, Htg0, Htg.
  destruct (tables (backend w) !! "event_registrations") as [regs|] eqn:Hregs; [|done].
  unfold registerForEvent_query. cbn [q_body supabase.insert json].
  set (row := omap _ _).
  rewrite (TriggerFacts.insert_statement_level _ _ "event_registrations") by (by left).
  destruct (version db0 <? 11); [done|].
  rewrite Hregs. cbn [default].
  change (results _ _ _ _ [row]) with (Some [(row, row ∪ ∅)]).
  cbn [fst snd respond q_shape supabase.from fmap list_fmap error truthy]. intros _.
  exists regs, row. split; [done|]. split; [done|].
  unfold row. rewrite !lookup_omap. simpl.
  rewrite (lookup_insert_ne _ "user_id" "event_id") by done.
  rewrite !lookup_insert_eq. simpl. split; [done|].
  split; [|done]. by intros uid ->.
Qed.

(** X16: with the triggers of the script installed, a registration that
    [registerForEvent] made for the user [uid] is seen by
    [isRegisteredForEvent]: called next for the same event it answers
    [true], unless its request reports an error, which is thrown. *)
Theorem register_then_registered eventId groupId (w w1 : World Database) uid :
  triggers (backend w) = Triggers.script →
  user_id w = VStr uid →
  registerForEvent rest eventId groupId w = (inr (), w1) →
  let resp := (rest (isRegistered_query eventId w1) (backend w1)).1 in
  (isRegisteredForEvent rest eventId w1).1
  = if truthy (error resp) then inl (ApiError (error resp)) else inr true.
Proof.
  intros Htg Hu Hreg. cbv zeta.
  apply registerForEvent_stores in Hreg as (regs & row & Hregs & Ht1 & He & Hrow & Htr & Ha);
    [|done].
  assert (user_id w1 = VStr uid) as Hu1 by (unfold user_id; by rewrite Ha).
  rewrite (isRegisteredForEvent_counts eventId w1 uid (regs ++ [row])); cbv zeta.
  - destruct (truthy (error _)); [done|]. f_equal.
    apply PgFacts.length_filter_pos. exists row. split; [set_solver|].
    apply PgFacts.counted_registration. split; [done|]. by apply Hrow.
  - done.
  - by rewrite Hu1, <- Hu.
  - by rewrite Ht1, lookup_insert_eq.
Qed.

(** A successful request of [updateProfile]: the tables after it and the
    row it answers. *)
Lemma run_update_profile_effect (w : World Database) p db :
  let q := updateProfile_query w p in
  truthy (error (run_update q db).1) = false →
  truthy (data (run_update q db).1) = true →
  ∃ rows r0,
    tables db !! "profiles" = Some rows
    ∧ List.filter (keeps [FEq "user_id" (template (user_id w))]) rows = [r0]
    ∧ tables (run_update q db).2
      = <["profiles" := map (λ r, if keeps [FEq "user_id" (template (user_id w))] r
                                  then sent_columns p ∪ r else r) rows]> (tables db)
    ∧ data (run_update q db).1 = VObj ((sent_columns p ∪ r0) ∪ ∅).
Proof.
  cbv zeta. rewrite PgFacts.updateProfile_query_fields. unfold run_update.
  cbn [q_table q_body q_filters q_select q_order json].
  destruct (tables db !! "profiles") as [rows|] eqn:Ht; [|done].
  fold (sent_columns p).
  change (top_filters _) with [FEq "user_id" (template (user_id w))].
  rewrite (PgFacts.results_total _ _ _ _ _ (λ r, r ∪ ∅)) by done.
  cbn [sorted fst snd]. intros He Hd.
  pose proof Hd as Hd'. apply PgFacts.respond_single in Hd' as (o & Ho & Hdata); [|done|done].
  rewrite He, Hdata. cbn [snd with_tables tables].
  destruct (List.filter _ rows) as [|r0 [|r1 rest0]] eqn:Hf; try done.
  exists rows, r0. split; [done|]. split; [done|]. split; [done|].
  simpl in Ho. by injection Ho as <-.
Qed.

Lemma updateProfile_effect p (w w' : World Database) r :
  updateProfile rest p w = (inr r, w') →
  ∃ rows r0,
    tables (backend w) !! "profiles" = Some rows
    ∧ List.filter (keeps [FEq "user_id" (template (user_id w))]) rows = [r0]
    ∧ tables (backend w')
      = <["profiles" := map (λ r, if keeps [FEq "user_id" (template (user_id w))] r
                                  then sent_columns p ∪ r else r) rows]> (tables (backend w))
    ∧ r = profile_of (VObj ((sent_columns p ∪ r0) ∪ ∅))
    ∧ user (authStore w') = user (authStore w)
    ∧ profile (authStore w') = Some r
    ∧ truthy (fullName p) = true.
Proof.
  rewrite ServiceFacts.updateProfile_unfold. cbv zeta.
  destruct (negb (logged_in w)); [done|].
  destruct (truthy (fullName p)) eqn:Hname; [|done]. cbn [negb].
  destruct (truthy (error _)) eqn:He; [done|].
  destruct (truthy (data _)) eqn:Hd; [|done]. cbn [negb].
  intros [= <- <-]. cbn [backend authStore user profile after].
  destruct (PgFacts.rest_served _ _ He) as (db0 & Hserve & Ht & _).
  rewrite Hserve, PgFacts.serve_updateProfile in He, Hd |- *.
  destruct (run_update_profile_effect w p db0 He Hd) as (rows & r0 & Hrows & Hf & Hafter & Hdata).
  exists rows, r0. rewrite <- Ht, Hdata.
  split; [exact Hrows|]. split; [exact Hf|]. split; [exact Hafter|].
  clear. split_and!; reflexivity.
Qed.

(** X17: a successful [updateProfile] writes to the one row of the user in
    [profiles] and to nothing else: the other tables are as before, the
    table has as many rows, a row of another user is unchanged, and in the
    user's row only [full_name] and [description] can differ. *)
Theorem updateProfile_frame p (w w' : World Database) r :
  updateProfile rest p w = (inr r, w') →
  ∃ rows rows',
    tables (backend w) !! "profiles" = Some rows
    ∧ tables (backend w') !! "profiles" = Some rows'
    ∧ (∀ t, t ≠ "profiles" → tables (backend w') !! t = tables (backend w) !! t)
    ∧ length rows' = length rows
    ∧ ∀ i row, rows !! i = Some row →
        ∃ row', rows' !! i = Some row'
                ∧ (∀ k, k ≠ "full_name" → k ≠ "description" → row' !! k = row !! k)
                ∧ (keeps [FEq "user_id" (template (user_id w))] row = false → row' = row).
Proof.
  intros Hupd. apply updateProfile_effect in Hupd as (rows & r0 & Hrows & _ & Ht & _).
  eexists rows, _. split; [done|]. rewrite Ht. split; [by rewrite lookup_insert_eq|].
  split; [by intros t Hne; rewrite lookup_insert_ne|]. split; [by rewrite length_map|].
  intros i row Hi. rewrite list_lookup_fmap, Hi. cbn [fmap option_fmap option_map].
  eexists. split; [reflexivity|].
  destruct (keeps [FEq "user_id" (template (user_id w))] row); [|done]. split; [|done].
  intros k Hk1 Hk2. apply lookup_union_r. rewrite PgFacts.sent_columns_lookup.
  by rewrite !decide_False.
Qed.

(** X18: the profile that a successful [updateProfile] returns and puts
    into the store is the one the database then holds: when the user's row
    has the columns [email] and [description], a successful [readProfile]
    right after it returns that same profile. *)
Theorem updateProfile_then_read p (w w1 w2 : World Database) r q :
  (∀ rows row, tables (backend w) !! "profiles" = Some rows → row ∈ rows →
               is_Some (row !! "email") ∧ is_Some (row !! "description")) →
  updateProfile rest p w = (inr r, w1) →
  readProfile rest w1 = (inr q, w2) →
  q = r ∧ profile (authStore w2) = Some q.
Proof.
  intros Hcols Hupd Hread.
  apply updateProfile_effect in Hupd as (rows & r0 & Hrows & Hf & Ht & -> & Hu & Hp & Hname).
  assert (user_id w1 = user_id w) as Huid by (unfold user_id; by rewrite Hu).
  pose proof (readProfile_tables w1) as [_ Ha]. rewrite Hread in Ha. simpl in Ha.
  apply PgFacts.readProfile_reads in Hread as (rows1 & r1 & Hrows1 & Hf1 & ->).
  rewrite Ht, lookup_insert_eq in Hrows1. injection Hrows1 as <-.
  rewrite Huid, PgFacts.updated_rows_filter, Hf in Hf1
    by (by rewrite PgFacts.sent_columns_lookup).
  injection Hf1 as <-.
  assert (r0 ∈ rows) as Hin.
  { apply list_elem_of_In. eapply (proj1 (filter_In _ _ _)). rewrite Hf. by left. }
  destruct (Hcols rows r0 Hrows Hin) as [[e He] [d Hd]].
  cut ({| email := column (sent_columns p ∪ r0) "email";
           fullName := column (sent_columns p ∪ r0) "full_name";
           description := column (sent_columns p ∪ r0) "description" |}
       = profile_of (VObj ((sent_columns p ∪ r0) ∪ ∅))).
  { intros Hq. split; [exact Hq|]. by rewrite Ha, Hp, Hq. }
  assert (is_Some ((sent_columns p ∪ r0) !! "email")) as [e' He'].
  { eapply lookup_union_is_Some. right. by eexists. }
  assert (is_Some ((sent_columns p ∪ r0) !! "description")) as [d' Hd'].
  { eapply lookup_union_is_Some. right. by eexists. }
  assert (is_Some ((sent_columns p ∪ r0) !! "full_name")) as [n' Hn'].
  { destruct (fullName p) eqn:Hn; try done;
      (eapply lookup_union_is_Some; left; rewrite PgFacts.sent_columns_lookup, Hn; by eexists). }
  unfold profile_of, get_opt, column.
  rewrite !(lookup_union_l' _ ∅) by (by eexists). by rewrite He', Hd', Hn'.
Qed.

(** The answer of [readProfile] by the rows of the user. *)
Lemma readProfile_rows (w : World Database) rows :
  logged_in w = true →
  tables (backend w) !! "profiles" = Some rows →
  let resp := (rest (readProfile_query w) (backend w)).1 in
  (readProfile rest w).1
  = if truthy (error resp) then inl (ApiError (error resp))
    else match List.filter (keeps [FEq "user_id" (template (user_id w))]) rows with
         | [] => inl (Error "Fetching profile unsuccessful")
         | r1 :: _ => inr {| email := column r1 "email"; fullName := column r1 "full_name";
                             description := column r1 "description" |}
         end.
Proof.
  intros Hlog Hrows. cbv zeta. rewrite ServiceFacts.readProfile_unfold. cbv zeta.
  rewrite Hlog. cbn [negb fst].
  destruct (truthy (error _)) eqn:He; [done|].
  destruct (PgFacts.rest_served _ _ He) as (db0 & Hserve & Ht & _).
  rewrite Hserve, (PgFacts.serve_get (readProfile_query w) db0 eq_refl) in He |- *.
  revert He. unfold run_select. change (q_table _) with "profiles". rewrite Ht, Hrows.
  change (top_filters _) with [FEq "user_id" (template (user_id w))].
  rewrite (PgFacts.results_total _ _ _ _ _
             (λ r, <["email" := column r "email"]>
                     (<["description" := column r "description"]>
                        (<["full_name" := column r "full_name"]> ∅)))) by done.
  cbn [sorted fst snd].
  destruct (List.filter _ rows) as [|r1 [|r2 rest0]]; [done| |done].
  intros _. simpl. unfold profile_of. simpl.
  rewrite lookup_insert_eq, (lookup_insert_ne _ "email") by done.
  rewrite (lookup_insert_ne _ "email"), (lookup_insert_ne _ "description") by done.
  by rewrite !lookup_insert_eq.
Qed.

(** X19: for a logged-in user whose request is served, [readProfile] is
    decided by the rows of [profiles] with the user's id: with none it
    fails with "Fetching profile unsuccessful", and otherwise it returns
    the email, name and description of such a row. *)
Theorem readProfile_by_rows (w : World Database) rows :
  logged_in w = true →
  tables (backend w) !! "profiles" = Some rows →
  let resp := (rest (readProfile_query w) (backend w)).1 in
  (readProfile rest w).1
  = if truthy (error resp) then inl (ApiError (error resp))
    else match List.filter (keeps [FEq "user_id" (template (user_id w))]) rows with
         | [] => inl (Error "Fetching profile unsuccessful")
         | r1 :: _ => inr {| email := column r1 "email"; fullName := column r1 "full_name";
                             description := column r1 "description" |}
         end.
Proof. apply readProfile_rows. Qed.

End PgExtras.

(** ** More on the trigger script *)

Module TriggerExtras.
Import Services Observations MoreObservations Triggers.

(** [handle_new_user] after each stored user: one profile row for each,
    in their order, and no other table written to. *)
Lemma run_after_new_users uid users db :
  ∃ db', run_after [on_user_created_create_profile] uid users db = inr db'
         ∧ (users ≠ [] → db' !! "profiles"
                         = Some (default [] (db !! "profiles") ++ new_profiles users))
         ∧ (users = [] → db' = db)
         ∧ ∀ k, k ≠ "profiles" → db' !! k = db !! k.
Proof.
  revert db. induction users as [|u users IH]; intros db.
  - exists db. by split_and!.
  - cbn [run_after run on_user_created_create_profile create_trigger tg_fn].
    unfold handle_new_user at 1. cbn [field].
    set (db1 := <["profiles" := _]> db).
    destruct (IH db1) as (db' & Hrun & Hp & Hnil & Hother). rewrite Hrun.
    exists db'. split; [done|]. split; [|split; [done|]].
    + intros _. destruct users as [|u' users'].
      * rewrite (Hnil eq_refl). unfold db1. by rewrite lookup_insert_eq.
      * rewrite Hp by done. unfold db1. rewrite lookup_insert_eq. simpl.
        by rewrite <- app_assoc.
    + intros k Hk. rewrite Hother by done. unfold db1. by rewrite lookup_insert_ne.
Qed.

(** What an insert into [auth.users] does with the script installed. *)
Lemma insert_users version uid users db :
  ∃ db', insert_into version script uid "auth.users" users db = inr (users, db')
         ∧ db' !! "auth.users" = Some (default [] (db !! "auth.users") ++ users)
         ∧ default [] (db' !! "profiles") = default [] (db !! "profiles") ++ new_profiles users
         ∧ ∀ k, k ≠ "auth.users" → k ≠ "profiles" → db' !! k = db !! k.
Proof.
  unfold insert_into.
  change (filter (λ t, fires Before ForEachStatement "auth.users" t) script) with (@nil Trigger).
  change (filter (λ t, fires Before ForEachRow "auth.users" t) script) with (@nil Trigger).
  change (filter (λ t, fires After ForEachRow "auth.users" t) script)
    with [on_user_created_create_profile].
  change (filter (λ t, fires After ForEachStatement "auth.users" t) script) with (@nil Trigger).
  cbn [run]. rewrite TriggerFacts.run_rows_nil.
  set (db3 := <["auth.users" := _]> db).
  destruct (run_after_new_users uid users db3) as (db' & Hrun & Hp & Hnil & Hother).
  rewrite Hrun. exists db'. split; [done|]. split_and!.
  - rewrite Hother by done. unfold db3. by rewrite lookup_insert_eq.
  - destruct users as [|u users'].
    + rewrite (Hnil eq_refl). unfold db3. rewrite lookup_insert_ne by done.
      by rewrite app_nil_r.
    + rewrite Hp by done. unfold db3. by rewrite lookup_insert_ne.
  - intros k Hk1 Hk2. rewrite Hother by done. unfold db3. by rewrite lookup_insert_ne.
Qed.

(** X20: with the script installed, an insert into [auth.users] succeeds
    on every server version, stores the users as they are, and adds to
    [profiles] one row for each of them, in their order, holding only the
    [user_id] (the user's [id]); no other table is written to. *)
Theorem signup_creates_profiles version uid users db :
  ∃ db', insert_into version script uid "auth.users" users db = inr (users, db')
         ∧ db' !! "auth.users" = Some (default [] (db !! "auth.users") ++ users)
         ∧ default [] (db' !! "profiles") = default [] (db !! "profiles") ++ new_profiles users
         ∧ ∀ k, k ≠ "auth.users" → k ≠ "profiles" → db' !! k = db !! k.
Proof. apply insert_users. Qed.

(** X21: a user who has just been stored in [auth.users] can read her
    profile: if she had no profile row before, [readProfile] (when its
    request is served) does not fail with "Fetching profile unsuccessful"
    but returns the row the trigger made.  The trigger sets its [user_id]
    only, so email, name and description are returned as the insert left
    them, [null]. *)
Theorem signup_then_readProfile (w : World Pg.Database) version sess u before stored uid :
  insert_into version script sess "auth.users" [u] before
  = inr (stored, Pg.tables (backend w)) →
  u !! "id" = Some (VStr uid) → user_id w = VStr uid → logged_in w = true →
  (∀ rows row, before !! "profiles" = Some rows → row ∈ rows →
               row !! "user_id" ≠ Some (VStr uid)) →
  let resp := (Pg.rest (readProfile_query w) (backend w)).1 in
  (readProfile Pg.rest w).1
  = if truthy (error resp) then inl (ApiError (error resp))
    else inr {| email := VNull; fullName := VNull; description := VNull |}.
Proof.
  intros Hins Hid Hu Hlog Hfresh. cbv zeta.
  destruct (insert_users version sess [u] before) as (db' & Hins' & _ & Hp & _).
  rewrite Hins in Hins'. injection Hins' as _ Hdb.
  assert (∃ rows, Pg.tables (backend w) !! "profiles" = Some rows
                  ∧ rows = default [] (before !! "profiles") ++ new_profiles [u]) as (rows & Hrows & ->).
  { rewrite Hdb. destruct (db' !! "profiles") as [rows|] eqn:E.
    - exists rows. by rewrite <- Hp.
    - simpl in Hp. by destruct (default [] (before !! "profiles")). }
  rewrite (PgExtras.readProfile_rows w _ Hlog Hrows). cbv zeta.
  destruct (truthy (error _)); [done|].
  rewrite Hu. simpl template.
  assert (List.filter (keeps [FEq "user_id" (VStr uid)]) (default [] (before !! "profiles")) = [])
    as Hnone.
  { destruct (before !! "profiles") as [old|] eqn:Hold; [|done]. simpl.
    assert (∀ row, row ∈ old → row !! "user_id" ≠ Some (VStr uid)) as Hf by eauto.
    clear -Hf. induction old as [|r old IH]; [done|]. cbn [List.filter].
    destruct (keeps [FEq "user_id" (VStr uid)] r) eqn:Hk.
    - exfalso. apply (Hf r); [by left|]. apply PgFacts.holds_eq_str.
      unfold keeps in Hk. simpl in Hk. by rewrite andb_true_r in Hk.
    - apply IH. intros r' Hr'. apply Hf. by right. }
  rewrite List.filter_app, Hnone. unfold new_profiles, column. simpl. rewrite Hid. simpl.
  rewrite (proj2 (PgFacts.holds_eq_str _ _ _)) by apply lookup_singleton_eq.
  simpl. by rewrite !lookup_singleton_ne.
Qed.

End TriggerExtras.

(** ** The auth service with the services *)

Module AuthExtras.
Import Services Observations AuthService.

Section AnyBackend.
Context {B : Type}.
Variable signIn : Val → B → Val * B.
Variable signOut : B → B.
Variable rest : Query → B → Response * B.
Variable rpc : string → Val → B → Response * B.
Variable storage_upload : string → string → Val → string → B → Response * B.

Lemma login_user email (s : Shell B) u :
  get (signIn (VObj {[ "email" := email ]}) (backend (world s))).1 "user" = inr u →
  (login signIn email s).1 = inr ()
  ∧ user (authStore (world (login signIn email s).2)) = u
  ∧ sent (world (login signIn email s).2) = sent (world s)
  ∧ heap (world (login signIn email s).2) = heap (world s)
  ∧ toasts (world (login signIn email s).2) = toasts (world s)
  ∧ routes (login signIn email s).2 = routes s ++ ["/"]
  ∧ auth_calls (login signIn email s).2
    = auth_calls s ++ [SignIn (VObj {[ "email" := email ]})].
Proof.
  unfold login. destruct (signIn _ _) as [result b]. simpl. by intros ->.
Qed.

(** X22: [login] stores whatever user the sign-in answers and goes to "/"
    without looking at the error.  After a sign-in that answers no user,
    also for someone who was logged in before, the services refuse
    locally: [registerForEvent], [createEvent], [readProfile] and
    [updateProfile] throw their "not logged in" errors and
    [isRegisteredForEvent] answers [false], and none of them sends a
    request. *)
Theorem login_without_user email (s : Shell B) u fileName l eventId groupId p :
  get (signIn (VObj {[ "email" := email ]}) (backend (world s))).1 "user" = inr u →
  truthy u = false →
  let s' := (login signIn email s).2 in
  (login signIn email s).1 = inr ()
  ∧ routes s' = routes s ++ ["/"]
  ∧ registerForEvent rest eventId groupId (world s')
    = (inl (Error "User not logged in"), world s')
  ∧ isRegisteredForEvent rest eventId (world s') = (inr false, world s')
  ∧ readProfile rest (world s') = (inl (Error "User is not logged in"), world s')
  ∧ updateProfile rest p (world s') = (inl (Error "User is not logged in"), world s')
  ∧ (createEvent rest rpc storage_upload fileName l (world s')).1
    = inl (Error "User is not logged in")
  ∧ sent (createEvent rest rpc storage_upload fileName l (world s')).2 = sent (world s).
Proof.
  intros Hres Hu. cbv zeta.
  destruct (login_user email s u Hres) as (Hret & Huser & Hsent & _ & _ & Hroutes & _).
  assert (truthy (user_id (world (login signIn email s).2)) = false) as Hid.
  { unfold user_id. rewrite Huser. by destruct u. }
  assert (logged_in (world (login signIn email s).2) = false) as Hlog.
  { unfold logged_in. by rewrite Huser, Hu. }
  split; [done|]. split; [done|].
  split; [by rewrite ServiceExtras.registerForEvent_unfold, Hid|].
  split; [by rewrite ServiceFacts.isRegisteredForEvent_unfold, Hid|].
  split; [by rewrite ServiceFacts.readProfile_unfold, Hlog|].
  split; [by rewrite ServiceFacts.updateProfile_unfold, Hlog|].
  unfold createEvent. ServiceFacts.run. rewrite Huser, Hu. simpl. by rewrite Hsent.
Qed.

End AnyBackend.
End AuthExtras.

(** ** The further facts on the small database *)

Module MoreDemoFacts.
Import Services Observations MoreObservations Pg Demo MoreDemo.

Lemma createEvent_unauthenticated_witness :
  truthy (user (authStore anonymous)) = false
  ∧ createEvent replay rpc_replay upload_replay "V1StGXR8" 0 anonymous
    = (inl (Error "User is not logged in"), notified (VStr "Please log in first") anonymous).
Proof.
  split; [reflexivity|].
  apply (ServiceExtras.createEvent_unauthenticated replay rpc_replay upload_replay "V1StGXR8" 0
           anonymous).
  reflexivity.
Defined.

Lemma createEvent_upload_failure_witness :
  let w := upload_fails in
  let out := createEvent replay rpc_replay upload_replay "V1StGXR8" 0 w in
  truthy (user (authStore w)) = true
  ∧ object_at w 0 !! "headerImageFile" = Some (VFile "header.png")
  ∧ out.1 = inl (ApiError (VObj {[ "message" := VStr "offline" ]}))
  ∧ sent out.2 = sent w ++ [header_upload "V1StGXR8" 0 w]
  ∧ heap out.2 = heap w.
Proof.
  cbv zeta. split; [reflexivity|]. split; [vm_compute; reflexivity|].
  apply (ServiceExtras.createEvent_upload_failure replay rpc_replay upload_replay "V1StGXR8" 0
           upload_fails).
  - reflexivity.
  - vm_compute; reflexivity.
  - left. vm_compute; reflexivity.
Defined.

Lemma createEvent_no_groups_witness :
  let w := creating_no_groups in
  let out := createEvent replay rpc_replay upload_replay "V1StGXR8" 0 w in
  truthy (default VUndef (object_at w 0 !! "uses_groups")) = true
  ∧ object_at w 0 !! "event_groups" = Some VUndef
  ∧ out.1 = inl (Error "Event is indicated to use groups, but no groups were provided")
  ∧ sent out.2 = sent w ++ [header_upload "V1StGXR8" 0 w]
  ∧ object_at out.2 0
    = <["header_image" := VStr "event-header-images/V1StGXR8"]> (object_at w 0).
Proof.
  cbv zeta. split; [vm_compute; reflexivity|]. split; [vm_compute; reflexivity|].
  apply (ServiceExtras.createEvent_no_groups replay rpc_replay upload_replay "V1StGXR8" 0
           creating_no_groups).
  - reflexivity.
  - vm_compute; reflexivity.
  - vm_compute; reflexivity.
  - intros _. split; vm_compute; reflexivity.
Defined.

Lemma createEvent_with_groups_witness :
  let w := creating_groups in
  let out := createEvent replay rpc_replay upload_replay "V1StGXR8" 0 w in
  object_at w 0 !! "event_groups" = Some (VObj groups)
  ∧ object_at w 0 !! "datetime" = Some (VZoned (now + 3 * hour) "UTC")
  ∧ (∃ params, sent out.2 = sent w ++ [Rpc "create_event_with_groups" params]
               ∧ get_opt params "datetime" = VIso (now + 3 * hour)
               ∧ get_opt params "groupBTitle" = VStr "B")
  ∧ heap out.2 = heap w
  ∧ out.1 = inr ().
Proof.
  cbv zeta.
  assert (object_at creating_groups 0 !! "event_groups" = Some (VObj groups)) as Hg
    by (vm_compute; reflexivity).
  assert (object_at creating_groups 0 !! "datetime" = Some (VZoned (now + 3 * hour) "UTC")) as Hd
    by (vm_compute; reflexivity).
  split; [exact Hg|]. split; [exact Hd|].
  destruct (ServiceExtras.createEvent_with_groups replay rpc_replay upload_replay "V1StGXR8" 0
              creating_groups groups groupA groupB (now + 3 * hour) "UTC")
    as (Hsent & Hheap & Hret).
  - reflexivity.
  - vm_compute; reflexivity.
  - vm_compute; reflexivity.
  - exact Hg.
  - vm_compute; reflexivity.
  - vm_compute; reflexivity.
  - exact Hd.
  - split; [|split; [exact Hheap|]].
    + eexists. split; [exact Hsent|]. split; vm_compute; reflexivity.
    + rewrite Hret. vm_compute; reflexivity.
Defined.

Lemma createEvent_plain_witness :
  let w := creating_plain in
  let out := createEvent replay rpc_replay upload_replay "V1StGXR8" 0 w in
  truthy (default VUndef (object_at w 0 !! "uses_groups")) = false
  ∧ object_at w 0 !! "datetime" = Some (VZoned (now + 3 * hour) "UTC")
  ∧ ∃ q, sent out.2 = sent w ++ [Rest q]
         ∧ heap out.2 = heap w
         ∧ out.1 = inr ()
         ∧ get_opt (q_body q) "datetime" = VZonedIso (now + 3 * hour) "UTC"
         ∧ get_opt (q_body q) "event_group_pair" = VUndef
         ∧ get_opt (q_body q) "uses_groups" = VBool false
         ∧ get_opt (q_body q) "title" = VStr "Meetup".
Proof.
  cbv zeta.
  assert (object_at creating_plain 0 !! "datetime" = Some (VZoned (now + 3 * hour) "UTC")) as Hd
    by (vm_compute; reflexivity).
  split; [vm_compute; reflexivity|]. split; [exact Hd|].
  destruct (ServiceExtras.createEvent_plain replay rpc_replay upload_replay "V1StGXR8" 0
              creating_plain (now + 3 * hour) "UTC")
    as (Hsent & Hheap & Hret & Hdate & Hpair & Hkeys).
  - reflexivity.
  - vm_compute; reflexivity.
  - vm_compute; reflexivity.
  - exact Hd.
  - eexists. split; [exact Hsent|]. split; [exact Hheap|].
    split; [rewrite Hret; vm_compute; reflexivity|].
    split; [exact Hdate|]. split; [exact Hpair|].
    split; [rewrite Hkeys by discriminate|rewrite Hkeys by discriminate]; vm_compute; reflexivity.
Defined.

Lemma readProfile_repeatable_witness :
  ∃ p w1 q w2, readProfile rest w0 = (inr p, w1) ∧ readProfile rest w1 = (inr q, w2) ∧ q = p.
Proof.
  assert (returned (readProfile rest w0).1 = true) as H1 by (vm_compute; reflexivity).
  assert (returned (readProfile rest (readProfile rest w0).2).1 = true) as H2
    by (vm_compute; reflexivity).
  destruct (readProfile rest w0) as [[e|p] w1] eqn:Hp; [discriminate H1|].
  cbn [snd] in H2.
  destruct (readProfile rest w1) as [[e|q] w2] eqn:Hq; [discriminate H2|].
  exists p, w1, q, w2. split; [reflexivity|]. split; [exact Hq|].
  exact (PgExtras.readProfile_repeatable w0 w1 w2 p q Hp Hq).
Defined.

Lemma events_table : tables (backend w0) !! "events" = Some events.
Proof. apply lookup_insert_eq. Qed.

Lemma profiles_table : tables (backend w0) !! "profiles" = Some [ann_profile].
Proof.
  unfold w0, world, database. cbn [backend tables list_to_map foldr uncurry fst snd].
  rewrite !lookup_insert_ne by discriminate. apply lookup_insert_eq.
Qed.

Lemma fetchEvents_complete_witness :
  ∃ evs w' l,
    fetchEvents rest now "UTC" w0 = (inr evs, w')
    ∧ tables (backend w0) !! "events" = Some events
    ∧ evs = VArr l
    ∧ length l = 2%nat
    ∧ (∀ r, r ∈ events → is_upcoming now r = true →
            ∃ o t x, VObj o ∈ l
                     ∧ r !! "datetime" = Some (VIso t)
                     ∧ o !! "datetime" = Some (VZoned t "UTC")
                     ∧ joined_group_pair (backend w0) r = Some x
                     ∧ o !! "event_groups" = Some x
                     ∧ ∀ k, k ≠ "datetime" → k ≠ "event_groups" → o !! k = r !! k)
    ∧ (λ e, (get_opt e "id", get_opt e "datetime",
             get_opt (get_opt (get_opt e "event_groups") "groupA") "title",
             get_opt (get_opt (get_opt e "event_groups") "groupB") "title")) <$> l
      = [ (VNum 2, VZoned (now + 2 * hour) "UTC", VUndef, VUndef);
          (VNum 1, VZoned (now + 3 * hour) "UTC", VStr "A", VStr "B") ].
Proof.
  assert (match (fetchEvents rest now "UTC" w0).1 with
          | inr (VArr l) =>
              (λ e, (get_opt e "id", get_opt e "datetime",
                     get_opt (get_opt (get_opt e "event_groups") "groupA") "title",
                     get_opt (get_opt (get_opt e "event_groups") "groupB") "title")) <$> l
          | _ => []
          end = [ (VNum 2, VZoned (now + 2 * hour) "UTC", VUndef, VUndef);
                  (VNum 1, VZoned (now + 3 * hour) "UTC", VStr "A", VStr "B") ]) as Hval
    by (vm_compute; reflexivity).
  destruct (fetchEvents rest now "UTC" w0) as [[e|evs] w'] eqn:H; [discriminate Hval|].
  destruct (PgExtras.fetchEvents_complete now "UTC" w0 w' evs events H events_table)
    as (l & -> & Hlen & Hall).
  exists (VArr l), w', l. split; [reflexivity|]. split; [exact events_table|].
  split; [reflexivity|]. split; [|split; [exact Hall|exact Hval]].
  rewrite Hlen. vm_compute; reflexivity.
Defined.

Lemma fetchEventById_found_witness :
  ∃ e w' rows r t o,
    fetchEventById rest "UTC" 1 w0 = (inr e, w')
    ∧ tables (backend w0) !! "events" = Some rows
    ∧ List.filter (keeps [FEq "id" (VNum 1)]) rows = [r]
    ∧ r !! "id" = Some (VNum 1)
    ∧ r !! "datetime" = Some (VIso t)
    ∧ e = VObj o ∧ o !! "datetime" = Some (VZoned t "UTC")
    ∧ ∀ k, k ≠ "datetime" → k ≠ "event_groups" → o !! k = r !! k.
Proof.
  assert (returned (fetchEventById rest "UTC" 1 w0).1 = true) as Hret
    by (vm_compute; reflexivity).
  destruct (fetchEventById rest "UTC" 1 w0) as [[e|v] w'] eqn:H; [discriminate Hret|].
  destruct (PgExtras.fetchEventById_found "UTC" 1 w0 w' v H) as (rows & r & t & o & Hfound).
  exists v, w', rows, r, t, o. split; [reflexivity|]. exact Hfound.
Defined.

Lemma fetchEventById_missing_witness :
  tables (backend w0) !! "events" = Some events
  ∧ (∀ r, r ∈ events → r !! "id" ≠ Some (VNum 99))
  ∧ (fetchEventById rest "UTC" 99 w0).1 = inl (Error "Event with this ID does not exist").
Proof.
  assert (∀ r, r ∈ events → r !! "id" ≠ Some (VNum 99)) as Hnone.
  { intros r Hin. unfold events in Hin. rewrite !elem_of_cons in Hin. rewrite elem_of_nil in Hin.
    destruct Hin as [-> | [-> | [-> | [-> | [-> | []]]]]]; vm_compute; discriminate. }
  split; [exact events_table|]. split; [exact Hnone|].
  rewrite (PgExtras.fetchEventById_missing "UTC" 99 w0 events events_table Hnone).
  vm_compute; reflexivity.
Defined.

Lemma fetchUserEvents_own_witness :
  ∃ v w' evs ts,
    user_id w0 = VStr "u1"
    ∧ fetchUserEvents rest now "UTC" w0 = (inr v, w')
    ∧ v = VArr evs
    ∧ Forall2 (λ e t, upcoming now "UTC" e t
                      ∧ ∃ x, get e "event_registrations" = inr x ∧ own_registrations "u1" x)
              evs ts
    ∧ Sorted Z.le ts.
Proof.
  assert (returned (fetchUserEvents rest now "UTC" w0).1 = true) as Hret
    by (vm_compute; reflexivity).
  destruct (fetchUserEvents rest now "UTC" w0) as [[e|v] w'] eqn:H; [discriminate Hret|].
  destruct (PgExtras.fetchUserEvents_own now "UTC" w0 w' v "u1" eq_refl H)
    as (evs & ts & Hown).
  exists v, w', evs, ts. split; [reflexivity|]. split; [reflexivity|]. exact Hown.
Defined.

Lemma register_then_registered_witness :
  ∃ w1, triggers (backend w0) = Triggers.script
        ∧ user_id w0 = VStr "u1"
        ∧ (isRegisteredForEvent rest 2 w0).1 = inr false
        ∧ registerForEvent rest 2 VNull w0 = (inr (), w1)
        ∧ (isRegisteredForEvent rest 2 w1).1 = inr true.
Proof.
  assert (returned (registerForEvent rest 2 VNull w0).1 = true) as Hret
    by (vm_compute; reflexivity).
  assert (truthy (error (rest (isRegistered_query 2 (registerForEvent rest 2 VNull w0).2)
                              (backend (registerForEvent rest 2 VNull w0).2)).1) = false) as Herr
    by (vm_compute; reflexivity).
  destruct (registerForEvent rest 2 VNull w0) as [[e|[]] w1] eqn:H; [discriminate Hret|].
  cbn [snd] in Herr.
  exists w1. split; [reflexivity|]. split; [reflexivity|].
  split; [vm_compute; reflexivity|]. split; [reflexivity|].
  rewrite (PgExtras.register_then_registered 2 VNull w0 w1 "u1" eq_refl eq_refl H).
  by rewrite Herr.
Defined.

Lemma updateProfile_frame_witness :
  ∃ r w' rows rows',
    updateProfile rest bob w0 = (inr r, w')
    ∧ tables (backend w0) !! "profiles" = Some rows
    ∧ tables (backend w') !! "profiles" = Some rows'
    ∧ (∀ t, t ≠ "profiles" → tables (backend w') !! t = tables (backend w0) !! t)
    ∧ length rows' = length rows
    ∧ ∀ i row, rows !! i = Some row →
        ∃ row', rows' !! i = Some row'
                ∧ (∀ k, k ≠ "full_name" → k ≠ "description" → row' !! k = row !! k)
                ∧ (keeps [FEq "user_id" (template (user_id w0))] row = false → row' = row).
Proof.
  assert (returned (updateProfile rest bob w0).1 = true) as Hret by (vm_compute; reflexivity).
  destruct (updateProfile rest bob w0) as [[e|r] w'] eqn:H; [discriminate Hret|].
  destruct (PgExtras.updateProfile_frame bob w0 w' r H) as (rows & rows' & Hframe).
  exists r, w', rows, rows'. split; [reflexivity|]. exact Hframe.
Defined.

Lemma updateProfile_then_read_witness :
  ∃ r w1 q w2,
    updateProfile rest bob w0 = (inr r, w1)
    ∧ readProfile rest w1 = (inr q, w2)
    ∧ q = r ∧ profile (authStore w2) = Some q ∧ fullName q = VStr "Bob".
Proof.
  assert (returned (updateProfile rest bob w0).1 = true) as Hu1 by (vm_compute; reflexivity).
  assert (returned (readProfile rest (updateProfile rest bob w0).2).1 = true) as Hr1
    by (vm_compute; reflexivity).
  assert (fullName match (updateProfile rest bob w0).1 with
                   | inr r => r
                   | inl _ => bob
                   end = VStr "Bob") as Hname by (vm_compute; reflexivity).
  destruct (updateProfile rest bob w0) as [[e|r] w1] eqn:Hu; [discriminate Hu1|].
  cbn [snd] in Hr1. cbn [fst] in Hname.
  destruct (readProfile rest w1) as [[e|q] w2] eqn:Hr; [discriminate Hr1|].
  assert (∀ rows row, tables (backend w0) !! "profiles" = Some rows → row ∈ rows →
                      is_Some (row !! "email") ∧ is_Some (row !! "description")) as Hcols.
  { intros rows row Hrows Hin. rewrite profiles_table in Hrows. injection Hrows as <-.
    apply list_elem_of_singleton in Hin as ->. split; eexists; vm_compute; reflexivity. }
  destruct (PgExtras.updateProfile_then_read bob w0 w1 w2 r q Hcols Hu Hr) as [Hq Hstore].
  exists r, w1, q, w2. split; [reflexivity|]. split; [exact Hr|].
  split; [exact Hq|]. split; [exact Hstore|]. by rewrite Hq.
Defined.

Lemma readProfile_by_rows_witness :
  logged_in w0 = true
  ∧ tables (backend w0) !! "profiles" = Some [ann_profile]
  ∧ (readProfile rest w0).1
    = inr {| email := VStr "ann@example.org"; fullName := VStr "Ann";
             description := VStr "old" |}.
Proof.
  split; [reflexivity|]. split; [exact profiles_table|].
  rewrite (PgExtras.readProfile_by_rows w0 [ann_profile] eq_refl profiles_table).
  vm_compute; reflexivity.
Defined.

Lemma signup_then_readProfile_witness :
  ∃ stored,
    Triggers.insert_into 14 Triggers.script (VStr "u1") "auth.users" [eve_row]
                         (tables (database events))
    = inr (stored, tables (backend eve_world))
    ∧ eve_row !! "id" = Some (VStr "u2")
    ∧ user_id eve_world = VStr "u2"
    ∧ logged_in eve_world = true
    ∧ (readProfile rest eve_world).1
      = inr {| email := VNull; fullName := VNull; description := VNull |}.
Proof.
  destruct (TriggerExtras.insert_users 14 (VStr "u1") [eve_row] (tables (database events)))
    as (db' & Hins & _).
  assert (tables (backend eve_world) = db') as Ht.
  { unfold eve_world, world, signed_up. cbn [backend version triggers session database].
    cbn [tables]. by rewrite Hins. }
  assert (truthy (error (rest (readProfile_query eve_world) (backend eve_world)).1) = false)
    as Herr by (vm_compute; reflexivity).
  exists [eve_row]. rewrite Ht.
  split; [exact Hins|]. split; [vm_compute; reflexivity|]. split; [reflexivity|].
  split; [reflexivity|].
  rewrite (TriggerExtras.signup_then_readProfile eve_world 14 (VStr "u1") eve_row
             (tables (database events)) [eve_row] "u2").
  - by rewrite Herr.
  - by rewrite Ht.
  - vm_compute; reflexivity.
  - reflexivity.
  - reflexivity.
  - intros rows row Hrows Hin. pose proof profiles_table as E.
    change (tables (backend w0)) with (tables (database events)) in E.
    rewrite E in Hrows. injection Hrows as <-.
    apply list_elem_of_singleton in Hin as ->. vm_compute. discriminate.
Defined.

Lemma login_without_user_witness :
  let s := shell w0 in
  let s' := (AuthService.login signIn_failed (VStr "ann@example.org") s).2 in
  logged_in w0 = true
  ∧ (AuthService.login signIn_failed (VStr "ann@example.org") s).1 = inr ()
  ∧ AuthService.routes s' = ["/"]
  ∧ (registerForEvent rest 2 VNull (AuthService.world s')).1 = inl (Error "User not logged in")
  ∧ (readProfile rest (AuthService.world s')).1 = inl (Error "User is not logged in")
  ∧ (isRegisteredForEvent rest 2 (AuthService.world s')).1 = inr false.
Proof.
  cbv zeta.
  destruct (AuthExtras.login_without_user signIn_failed rest (λ fn params, unreachable (fn, params))
              (λ bucket path file ct, unreachable (bucket, path))
              (VStr "ann@example.org") (shell w0) VNull "V1StGXR8" 0%nat 2 VNull bob)
    as (Hret & Hroutes & Hreg & Hisreg & Hread & _).
  - reflexivity.
  - reflexivity.
  - split; [reflexivity|]. split; [exact Hret|]. split; [exact Hroutes|].
    split; [by rewrite Hreg|]. split; [by rewrite Hread|]. by rewrite Hisreg.
Defined.

End MoreDemoFacts.
